(** * SmartShop backend: product discovery, ranking and trend advice

    A shallow embedding of the request handlers of the SmartShop server
    (the iteration with deterministic fallbacks) and of the helper
    [findProducts], with the properties stated for them.

    JavaScript numbers are IEEE-754 binary64 values: they are modelled by
    Rocq's primitive floats, so every arithmetic step and comparison of the
    source is the same operation here, and the functions can be evaluated.
    Strings are sequences of 8-bit characters; [toLowerCase] and [trim] act
    on the ASCII range only. *)

From Stdlib Require Import List String Ascii Bool Arith ZArith Lia Sorted Permutation.
From Stdlib Require Import Floats.
From Stdlib Require Uint63.
Import ListNotations.

(* Decimal literals of the source stand for the nearest binary64 value. *)
Set Warnings "-inexact-float".

Local Open Scope string_scope.
Local Open Scope list_scope.

(** ** JavaScript values and the primitives the handlers use *)

Module Js.

(** The values that reach the handlers: request fields, database columns
    and parsed JSON. *)
#[warnings="-register-all"]
Inductive value : Type :=
| Undefined
| Null
| Bool (b : bool)
| Num (f : float)
| Str (s : string)
| Arr (elems : list value)
| Obj (fields : list (string * value)).

Definition is_nan (f : float) : bool := negb (f =? f)%float.

(** [!!v] *)
Definition truthy (v : value) : bool :=
  match v with
  | Undefined | Null => false
  | Bool b => b
  | Num f => negb (f =? 0)%float && negb (is_nan f)
  | Str s => negb (String.eqb s "")
  | Arr _ | Obj _ => true
  end.

(** [v == null] *)
Definition nullish (v : value) : bool :=
  match v with
  | Undefined | Null => true
  | _ => false
  end.

(** [Number.isFinite(f)] for a value that is already a number. *)
Definition isFinite (f : float) : bool :=
  negb (is_nan f) && negb (PrimFloat.abs f =? infinity)%float.

(** [typeof v === 'number' && Number.isFinite(v) ? v : d] *)
Definition safeNumber (v : value) (d : float) : float :=
  match v with
  | Num f => if isFinite f then f else d
  | _ => d
  end.

(** [a > b], [a !== 0] on numbers. *)
Definition gtb (a b : float) : bool := (b <? a)%float.
Definition nonzero (a : float) : bool := negb (a =? 0)%float.

(** [n] as a number, for array lengths. *)
Definition of_nat (n : nat) : float := of_uint63 (Uint63.of_Z (Z.of_nat n)).

(** *** Strings *)

Definition quote : string := String "034"%char "".

Definition lower (c : ascii) : ascii :=
  let n := nat_of_ascii c in
  if (65 <=? n)%nat && (n <=? 90)%nat then ascii_of_nat (n + 32) else c.

(** [s.toLowerCase()] *)
Fixpoint toLowerCase (s : string) : string :=
  match s with
  | EmptyString => EmptyString
  | String c s' => String (lower c) (toLowerCase s')
  end.

(** [s.includes(pat)] *)
Fixpoint includes (s pat : string) : bool :=
  String.prefix pat s ||
  match s with
  | EmptyString => false
  | String _ s' => includes s' pat
  end.

(** The white space of the ASCII range: tab, line feed, vertical tab, form
    feed, carriage return and space. The engine's [trim] removes U+00A0,
    U+FEFF and the other Unicode spaces and line terminators as well; on
    texts that hold one of these at an end, [trim] here keeps it. *)
Definition isSpace (c : ascii) : bool :=
  let n := nat_of_ascii c in
  ((9 <=? n)%nat && (n <=? 13)%nat) || (n =? 32)%nat.

Fixpoint trimStart (s : string) : string :=
  match s with
  | EmptyString => EmptyString
  | String c s' => if isSpace c then trimStart s' else s
  end.

Fixpoint trimEnd (s : string) : string :=
  match s with
  | EmptyString => EmptyString
  | String c s' =>
      let r := trimEnd s' in
      if isSpace c && String.eqb r "" then "" else String c r
  end.

(** [s.trim()] *)
Definition trim (s : string) : string := trimEnd (trimStart s).

(** [s.replace(/pat/g, "")] for a literal, non-empty [pat]: occurrences
    are removed left to right; [skip] counts the characters of a match
    still to drop. *)
Fixpoint removeAll_from (pat : string) (skip : nat) (s : string) : string :=
  match s with
  | EmptyString => EmptyString
  | String c s' =>
      match skip with
      | S k => removeAll_from pat k s'
      | O =>
          if String.prefix pat s
          then removeAll_from pat (String.length pat - 1) s'
          else String c (removeAll_from pat 0 s')
      end
  end.

Definition removeAll (pat s : string) : string := removeAll_from pat 0 s.

(** [s.split(sep)[0]] for a one-character separator. *)
Fixpoint firstToken (sep : ascii) (s : string) : string :=
  match s with
  | EmptyString => EmptyString
  | String c s' => if Ascii.eqb c sep then "" else String c (firstToken sep s')
  end.

(** [String(n)] for an array length. *)
Definition digit (n : nat) : string := String (ascii_of_nat (48 + n)) "".

Fixpoint decimal_fuel (fuel n : nat) : string :=
  match fuel with
  | O => digit (n mod 10)
  | S k => if (n <? 10)%nat then digit n
           else decimal_fuel k (n / 10) ++ digit (n mod 10)
  end.

Definition decimal (n : nat) : string := decimal_fuel n n.

End Js.

(** ** The engine functions the source calls but does not define

    [Math.sin], [Math.cos] and [Math.atan2] are implementation-approximated
    in ECMAScript; number formatting and parsing and [JSON.parse] are
    library code. They are taken as given; [Math.sqrt] is the IEEE square
    root. *)

Record Runtime : Type := mkRuntime {
  Math_sin : float -> float;
  Math_cos : float -> float;
  Math_atan2 : float -> float -> float;
  StringToNumber : string -> float;
  Number_toString : float -> string;
  Number_toFixed : float -> nat -> string;
  Object_toString : Js.value -> string;
  JSON_parse : string -> option Js.value
}.

Section Conversions.

Variable rt : Runtime.

(** The numeric coercion applied by [-] and [*]. *)
Definition ToNumber (v : Js.value) : float :=
  match v with
  | Js.Undefined => nan
  | Js.Null => 0
  | Js.Bool b => if b then 1 else 0
  | Js.Num f => f
  | Js.Str s => StringToNumber rt s
  | Js.Arr _ | Js.Obj _ => StringToNumber rt (Object_toString rt v)
  end.

(** [String(v)], also the coercion of a template literal. *)
Definition ToString (v : Js.value) : string :=
  match v with
  | Js.Undefined => "undefined"
  | Js.Null => "null"
  | Js.Bool b => if b then "true" else "false"
  | Js.Num f => Number_toString rt f
  | Js.Str s => s
  | Js.Arr _ | Js.Obj _ => Object_toString rt v
  end.

End Conversions.

(** ** DistanceCalculator: [toRad] and [distanceKm] of [findProducts] *)

Module Geo.

Definition PI : float := 3.141592653589793%float.

Definition toRad (v : float) : float := (v * PI / 180)%float.

Section Haversine.

Variable rt : Runtime.

(** The body of [distanceKm] behind its null test, on the operands as
    numbers. *)
Definition haversine (lat1 lon1 lat2 lon2 : float) : float :=
  let R := 6371%float in
  let dLat := toRad (lat2 - lat1) in
  let dLon := toRad (lon2 - lon1) in
  let a :=
    (Math_sin rt (dLat / 2) * Math_sin rt (dLat / 2)
     + Math_cos rt (toRad lat1) * Math_cos rt (toRad lat2)
       * Math_sin rt (dLon / 2) * Math_sin rt (dLon / 2))%float in
  let c := (2 * Math_atan2 rt (PrimFloat.sqrt a) (PrimFloat.sqrt (1 - a)))%float in
  (R * c)%float.

Definition distanceKm (lat1 lon1 lat2 lon2 : Js.value) : float :=
  if Js.nullish lat1 || Js.nullish lon1 || Js.nullish lat2 || Js.nullish lon2
  then infinity
  else haversine (ToNumber rt lat1) (ToNumber rt lon1)
                 (ToNumber rt lat2) (ToNumber rt lon2).

End Haversine.

End Geo.

(** ** [Array.prototype.sort] with a comparison function

    The sort is stable (ECMAScript 2019). A stable insertion sort stands for
    it: for a comparison function that is a consistent ordering every
    conforming sort returns the same array. Where the comparison function is
    not one (a NaN key among finite ones), the order is left to the engine,
    and the statements about the order of the whole array carry the
    hypothesis that rules this out. The engine reads the number [v]
    returned by the comparison function as in SortCompare: NaN counts as
    [+0], [v > 0] moves the first argument behind the second. *)

Section ArraySort.

Context {A : Type}.
Variable comparefn : A -> A -> float.

Definition sortCompare (x y : A) : float :=
  let v := comparefn x y in
  if Js.is_nan v then 0%float else v.

Fixpoint insert (x : A) (l : list A) : list A :=
  match l with
  | [] => [x]
  | y :: l' =>
      if Js.gtb (sortCompare x y) 0 then y :: insert x l' else x :: l
  end.

Definition Array_sort (l : list A) : list A := fold_right insert [] l.

End ArraySort.

(** ** Data model *)

(** A shop joined to a product row: [shops (name, contact_number, email,
    latitude, longitude)]. *)
Module Shops.
Record t : Type := mk {
  name : string;
  contact_number : option string;
  email : option string;
  latitude : Js.value;
  longitude : Js.value
}.
End Shops.

(** A row of [products] with its joined shop ([null] when there is none). *)
Module Products.
Record t : Type := mk {
  name : string;
  price : Js.value;
  rating : Js.value;
  shop_id : nat;
  shops : option Shops.t
}.
End Products.

(** A row of the [nearby_shops] procedure; only its [id] is read. *)
Module NearbyShop.
Record t : Type := mk { id : nat }.
End NearbyShop.

(** An element of [contextForAI]. *)
Module Context.
Record t : Type := mk {
  product_name : string;
  price : Js.value;
  rating : Js.value;
  shop_name : string;
  contact_number : option string;
  email : option string;
  shop_id : nat;
  shop_latitude : Js.value;
  shop_longitude : Js.value
}.
End Context.

(** An element of [enriched]. *)
Module Enriched.
Record t : Type := mk {
  product_name : string;
  price : float;
  rating : float;
  shop_name : string;
  shop_contact_number : option string;
  shop_email : option string;
  distance_km : float
}.
End Enriched.

(** An element of [recommendations]; [None] is [null]. *)
Module Recommendation.
Record t : Type := mk {
  rank : nat;
  product_name : string;
  price : option float;
  rating : float;
  shop_name : string;
  shop_contact_number : option string;
  shop_email : option string;
  distance_km : option float;
  reason : string
}.
End Recommendation.

Record SearchResult : Type := mkResult {
  summary : string;
  recommendations : list Recommendation.t
}.

(** What [findProducts] returns: an object it built, or whatever
    [JSON.parse] made of the model's reply. *)
Inductive FindResult : Type :=
| Built (r : SearchResult)
| Parsed (j : Js.value).

(** ** Collaborators, effects and exceptions *)

(** The [{ data, error }] pair of a Supabase call. *)
Record Resp (A : Type) : Type := mkResp { data : option A; error : option string }.
Arguments mkResp {A}.
Arguments data {A}.
Arguments error {A}.

(** A call that either throws or gives a value. *)
Inductive Call (A : Type) : Type :=
| Fails
| Gives (a : A).
Arguments Fails {A}.
Arguments Gives {A}.

Record File : Type := mkFile { buffer : string; mimetype : string }.

(** [{ className, probability }] of MobileNet, [{ class, score }] of COCO-SSD. *)
Record Prediction : Type := mkPrediction { className : string; probability : float }.
Record Detection : Type := mkDetection { class : string; score : Js.value }.

(** A prompt, by the data interpolated into its template. *)
Inductive Prompt : Type :=
| RankingPrompt (query : string) (contextForAI : list Context.t)
| VisionPrompt (image : File)
| TrendPrompt (productName : string) (internalPrice : option float)
    (internalTrend : string) (externalPrice : float).

Record PriceRow : Type := mkRow { price : float; created_at : string }.

(** The collaborators of a request and the process settings. The market
    price table and the simulated external price (which draws a random
    number) are read once in the handler's try block and once more in its
    catch block: their first argument tells the two reads apart. *)
Record Env : Type := mkEnv {
  runtime : Runtime;
  USE_LOCAL_RANKING : bool;
  geminiApiKey : bool;
  nearby_shops : Js.value -> Js.value -> Resp (list NearbyShop.t);
  products_in : list nat -> option string -> Resp (list Products.t);
  market_price : nat -> string -> Resp (list PriceRow);
  externalPrice : nat -> string -> float;
  generateContent : Prompt -> Call string;
  ensureLocalClassifierLoaded : Call unit;
  classify : File -> Call (option (list Prediction));
  detect : File -> Call (option (list Detection))
}.

(** The calls a request makes to its collaborators, in order. *)
Inductive Event : Type :=
| CallNearbyShops (lat long : Js.value)
| CallProducts (shopIds : list nat) (ilike : option string)
| CallMarketPrice (productName : string)
| CallExternalPrice (productName : string)
| CallGenerate (p : Prompt)
| CallLoadModels
| CallClassify (image : File)
| CallDetect (image : File).

Inductive Exn : Type :=
| DbError (msg : string)
| ProviderError
| SyntaxError
| ClassifierError.

Inductive Outcome (A : Type) : Type :=
| Return (a : A)
| Throw (e : Exn).
Arguments Return {A}.
Arguments Throw {A}.

(** A computation: the calls made and how it ended. *)
Definition Eff (A : Type) : Type := (list Event * Outcome A)%type.

Definition ret {A} (a : A) : Eff A := ([], Return a).
Definition throw {A} (e : Exn) : Eff A := ([], Throw e).

Definition bind {A B} (m : Eff A) (f : A -> Eff B) : Eff B :=
  match m with
  | (t, Return a) => let (t', r) := f a in (t ++ t', r)
  | (t, Throw e) => (t, Throw e)
  end.

(** [try { m } catch (e) { h e }] *)
Definition try_catch {A} (m : Eff A) (h : Exn -> Eff A) : Eff A :=
  match m with
  | (t, Throw e) => let (t', r) := h e in (t ++ t', r)
  | _ => m
  end.

Definition call {A} (ev : Event) (a : A) : Eff A := ([ev], Return a).

(** A call that may throw [e]. *)
Definition attempt {A} (ev : Event) (e : Exn) (c : Call A) : Eff A :=
  match c with
  | Gives a => ([ev], Return a)
  | Fails => ([ev], Throw e)
  end.

Declare Scope eff_scope.
Delimit Scope eff_scope with eff.
Notation "x <- m ;; k" := (bind m (fun x => k))
  (at level 61, m at next level, right associativity) : eff_scope.
Notation "m ;;; k" := (bind m (fun _ => k))
  (at level 61, right associativity) : eff_scope.
Local Open Scope eff_scope.

Definition trace {A} (m : Eff A) : list Event := fst m.
Definition outcome {A} (m : Eff A) : Outcome A := snd m.

(** ** RankingEngine: the deterministic path of [findProducts] *)

(** The comparison function given to [sort]. *)
Definition compareEnriched (a b : Enriched.t) : float :=
  let byDistance := (Enriched.distance_km a - Enriched.distance_km b)%float in
  if Js.nonzero byDistance then byDistance
  else
    let byPrice := (Enriched.price a - Enriched.price b)%float in
    if Js.nonzero byPrice then byPrice
    else (Enriched.rating b - Enriched.rating a)%float.

(** [arr.map((item, idx) => f(item, idx))] *)
Fixpoint mapi_from {A B} (f : A -> nat -> B) (idx : nat) (l : list A) : list B :=
  match l with
  | [] => []
  | x :: l' => f x idx :: mapi_from f (S idx) l'
  end.

Definition mapi {A B} (f : A -> nat -> B) (l : list A) : list B := mapi_from f 0 l.

Section Ranking.

Variable rt : Runtime.

Definition shopField {B} (p : Products.t) (f : Shops.t -> B) (d : B) : B :=
  match Products.shops p with
  | Some s => f s
  | None => d
  end.

Definition contextForAI (products : list Products.t) : list Context.t :=
  map (fun p =>
         Context.mk (Products.name p) (Products.price p) (Products.rating p)
           (shopField p Shops.name "Unknown Shop")
           (shopField p Shops.contact_number None)
           (shopField p Shops.email None)
           (Products.shop_id p)
           (shopField p Shops.latitude Js.Null)
           (shopField p Shops.longitude Js.Null))
      products.

Definition enrich (latitude longitude : Js.value) (p : Products.t) : Enriched.t :=
  let dist :=
    Geo.distanceKm rt latitude longitude
      (shopField p Shops.latitude Js.Null) (shopField p Shops.longitude Js.Null) in
  Enriched.mk (Products.name p)
    (Js.safeNumber (Products.price p) infinity)
    (Js.safeNumber (Products.rating p) 0)
    (shopField p Shops.name "Unknown Shop")
    (shopField p Shops.contact_number None)
    (shopField p Shops.email None)
    dist.

Definition toRecommendation (item : Enriched.t) (idx : nat) : Recommendation.t :=
  Recommendation.mk (idx + 1)
    (Enriched.product_name item)
    (if (Enriched.price item =? infinity)%float then None else Some (Enriched.price item))
    (Enriched.rating item)
    (Enriched.shop_name item)
    (Enriched.shop_contact_number item)
    (Enriched.shop_email item)
    (if Js.isFinite (Enriched.distance_km item)
     then Some (StringToNumber rt (Number_toFixed rt (Enriched.distance_km item) 2))
     else None)
    "Ranked by distance, then price, then rating.".

Definition ranked (latitude longitude : Js.value) (products : list Products.t)
  : list Recommendation.t :=
  mapi toRecommendation
    (firstn 3 (Array_sort compareEnriched (map (enrich latitude longitude) products))).

(** The deterministic ranking, from [toRad] to the final [return]. *)
Definition rankLocally (query latitude longitude : Js.value)
    (products : list Products.t) : SearchResult :=
  let r := ranked latitude longitude products in
  mkResult
    ("Top " ++ Js.decimal (List.length r) ++ " results for " ++ Js.quote
     ++ ToString rt query ++ Js.quote
     ++ " near you based on distance, price, and rating.")
    r.

End Ranking.

(** ** [findProducts] *)

Section FindProducts.

Variable env : Env.

(** [query && String(query).trim().length > 0] *)
Definition hasQuery (query : Js.value) : bool :=
  Js.truthy query
  && (0 <? String.length (Js.trim (ToString (runtime env) query)))%nat.

(** Step 5, the AI judgment: the model's reply, stripped of code fences,
    parsed. *)
Definition askModel (prompt : Prompt) : Eff FindResult :=
  text <- attempt (CallGenerate prompt) ProviderError (generateContent env prompt) ;;
  let cleanedText := Js.trim (Js.removeAll "```" (Js.removeAll "```json" text)) in
  match JSON_parse (runtime env) cleanedText with
  | Some j => ret (Parsed j)
  | None => throw SyntaxError
  end.

(** Steps 3 to the end, on the products found. *)
Definition rank (query latitude longitude : Js.value) (products : list Products.t)
  : Eff FindResult :=
  let prompt :=
    RankingPrompt (ToString (runtime env) query) (contextForAI products) in
  let deterministic :=
    ret (Built (rankLocally (runtime env) query latitude longitude products)) in
  if negb (USE_LOCAL_RANKING env)
  then try_catch (askModel prompt) (fun aiError => deterministic)
  else deterministic.

Definition findProducts (query latitude longitude : Js.value) : Eff FindResult :=
  r <- call (CallNearbyShops latitude longitude) (nearby_shops env latitude longitude) ;;
  match error r with
  | Some shopsError => throw (DbError shopsError)
  | None =>
      match data r with
      | None | Some [] =>
          ret (Built (mkResult "No shops found near your location." []))
      | Some shops =>
          let shopIds := map NearbyShop.id shops in
          let ilike :=
            if hasQuery query
            then Some ("%" ++ ToString (runtime env) query ++ "%")%string
            else None in
          r' <- call (CallProducts shopIds ilike) (products_in env shopIds ilike) ;;
          match error r' with
          | Some productsError => throw (DbError productsError)
          | None =>
              match data r' with
              | None | Some [] =>
                  let q :=
                    if hasQuery query
                    then ("matching " ++ Js.quote ++ ToString (runtime env) query
                          ++ Js.quote ++ " ")%string
                    else "" in
                  ret (Built (mkResult ("No products " ++ q ++ "found in nearby shops.") []))
              | Some products => rank query latitude longitude products
              end
          end
      end
  end.

End FindProducts.

(** [env] with [USE_LOCAL_RANKING] set. *)
Definition withLocalRanking (env : Env) : Env :=
  mkEnv (runtime env) true (geminiApiKey env) (nearby_shops env) (products_in env)
    (market_price env) (externalPrice env) (generateContent env)
    (ensureLocalClassifierLoaded env) (classify env) (detect env).

(** The AI judgment fails on [prompt]: the provider throws, or its reply
    does not parse once the fences are stripped. *)
Definition aiFails (env : Env) (prompt : Prompt) : Prop :=
  match generateContent env prompt with
  | Fails => True
  | Gives text =>
      JSON_parse (runtime env)
        (Js.trim (Js.removeAll "```" (Js.removeAll "```json" text))) = None
  end.

(** The first iteration of [findProducts] (no local ranking): the name
    filter is always applied, the context carries no coordinates, and the
    model's reply is returned as parsed, a failure being thrown. *)
Module V1.

Definition contextForAI (products : list Products.t) : list Context.t :=
  map (fun p =>
         Context.mk (Products.name p) (Products.price p) (Products.rating p)
           (shopField p Shops.name "Unknown Shop")
           (shopField p Shops.contact_number None)
           (shopField p Shops.email None)
           (Products.shop_id p)
           Js.Undefined Js.Undefined)
      products.

Section FindProducts.

Variable env : Env.

Definition findProducts (query latitude longitude : Js.value) : Eff FindResult :=
  r <- call (CallNearbyShops latitude longitude) (nearby_shops env latitude longitude) ;;
  match error r with
  | Some shopsError => throw (DbError shopsError)
  | None =>
      match data r with
      | None | Some [] =>
          ret (Built (mkResult "No shops found near your location." []))
      | Some shops =>
          let shopIds := map NearbyShop.id shops in
          let ilike := Some ("%" ++ ToString (runtime env) query ++ "%")%string in
          r' <- call (CallProducts shopIds ilike) (products_in env shopIds ilike) ;;
          match error r' with
          | Some productsError => throw (DbError productsError)
          | None =>
              match data r' with
              | None | Some [] =>
                  ret (Built (mkResult
                    ("No products matching " ++ Js.quote
                     ++ ToString (runtime env) query ++ Js.quote
                     ++ " found in nearby shops.") []))
              | Some products =>
                  askModel env
                    (RankingPrompt (ToString (runtime env) query) (contextForAI products))
              end
          end
      end
  end.

End FindProducts.

End V1.

(** ** TrendAdvisor: classification of a price history and the rule-based verdict *)

Module Trend.

(** [olderPrices.reduce((acc, p) => acc + p.price, 0) / olderPrices.length] *)
Definition avgOldPrice (olderPrices : list PriceRow) : float :=
  (fold_left (fun acc p => acc + price p) olderPrices 0
   / Js.of_nat (List.length olderPrices))%float.

(** The three-way test of the newest price against the older mean. *)
Definition classify (latestPrice avg : float) : string :=
  if Js.gtb latestPrice (avg * 1.05)%float then "Rising"
  else if (latestPrice <? avg * 0.95)%float then "Falling"
  else "Stable".

(** Step 2 of the handler: [internalTrend] and [internalPrice] from the
    rows, newest first; [None] is a [null] result set. *)
Definition analyze (prices : option (list PriceRow)) : string * option float :=
  match prices with
  | Some (p0 :: older) =>
      (match older with
       | [] => "Insufficient Data"
       | _ :: _ => classify (price p0) (avgOldPrice older)
       end, Some (price p0))
  | _ => ("Insufficient Data", None)
  end.

Definition internalTrend (prices : list PriceRow) : string :=
  fst (analyze (Some prices)).

(** [internalPrice && ...]: a price that is neither [null], zero nor NaN. *)
Definition priceTruthy (internalPrice : option float) : bool :=
  match internalPrice with
  | Some f => Js.truthy (Js.Num f)
  | None => false
  end.

(** [internalPrice < externalPrice] and [internalPrice > externalPrice];
    only evaluated behind [priceTruthy]. *)
Definition priceLt (internalPrice : option float) (ext : float) : bool :=
  match internalPrice with Some f => (f <? ext)%float | None => (0 <? ext)%float end.
Definition priceGt (internalPrice : option float) (ext : float) : bool :=
  match internalPrice with Some f => Js.gtb f ext | None => Js.gtb 0 ext end.

Record Verdict : Type := mkVerdict {
  prediction : string;
  reason : string;
  internal_price : option float;
  external_price : float
}.

(** The conditions of the [if] and of the [else if] of the fallback. *)
Definition buyTest (trend : string) (internalPrice : option float) (ext : float) : bool :=
  String.eqb trend "Rising" && priceTruthy internalPrice && priceLt internalPrice ext.

Definition sellTest (trend : string) (internalPrice : option float) (ext : float) : bool :=
  String.eqb trend "Falling" && priceTruthy internalPrice && priceGt internalPrice ext.

(** The rule-based fallback of the handler's catch block. *)
Definition ruleFallback (trend : string) (internalPrice : option float)
    (externalPrice : float) : Verdict :=
  if buyTest trend internalPrice externalPrice
  then mkVerdict "BUY" "Internal price trending up and below external market."
         internalPrice externalPrice
  else if sellTest trend internalPrice externalPrice
  then mkVerdict "SELL" "Internal price trending down and above external market."
         internalPrice externalPrice
  else mkVerdict "HOLD" "Prices appear stable based on recent internal data."
         internalPrice externalPrice.

Definition rows (ps : list float) : list PriceRow :=
  map (fun p => mkRow p "") ps.

End Trend.


(** ** HTTP responses

    The body of an image search lists [detected_label] and [predictions]
    and then spreads the search result; the three are kept apart here. *)

Inductive Body : Type :=
| ErrorBody (error : string)
| SearchBody (results : FindResult)
| ImageBody (detected_label : option string) (predictions : list Prediction)
    (searchResults : FindResult)
| VerdictBody (v : Trend.Verdict)
| ParsedBody (j : Js.value).

Record Response : Type := mkResponse { status : nat; body : Body }.

(** ** [POST /ai/search] *)

Section TextSearch.

Variable env : Env.

Definition aiSearch (query latitude longitude : Js.value) : Eff Response :=
  try_catch
    (if negb (Js.truthy query) || negb (Js.truthy latitude) || negb (Js.truthy longitude)
     then ret (mkResponse 400 (ErrorBody "Query, latitude, and longitude are required."))
     else
       results <- findProducts env query latitude longitude ;;
       ret (mkResponse 200 (SearchBody results)))
    (fun error =>
       match error with
       | SyntaxError =>
           ret (mkResponse 500
                  (ErrorBody "The AI returned a response that was not valid JSON."))
       | _ => ret (mkResponse 500 (ErrorBody "An internal error occurred."))
       end).

End TextSearch.

(** ** ImageIntentResolver: the tiers of [POST /ai/search-by-image] *)

(** [mapLabelToQuery] *)
Definition mapLabelToQuery (text : string) : option string :=
  let t := Js.toLowerCase text in
  if Js.includes t "burger" || Js.includes t "cheeseburger" then Some "Burger"
  else if Js.includes t "pizza" then Some "Pizza"
  else if Js.includes t "samosa" then Some "Samosa"
  else if Js.includes t "cake" || Js.includes t "cupcake" || Js.includes t "pastry"
  then Some "Cake"
  else if Js.includes t "sandwich" || Js.includes t "submarine" then Some "Sandwich"
  else if Js.includes t "donut" || Js.includes t "doughnut" then Some "Donut"
  else if Js.includes t "noodle" || Js.includes t "pasta" || Js.includes t "spaghetti"
  then Some "Pasta"
  else if Js.includes t "biryani" || Js.includes t "rice" then Some "Biryani"
  else if Js.includes t "dosa" then Some "Dosa"
  else if Js.includes t "idli" then Some "Idli"
  else if Js.includes t "vada" || Js.includes t "vadai" then Some "Vada"
  else if Js.includes t "roll" || Js.includes t "wrap" then Some "Roll"
  else if Js.includes t "muffin" || Js.includes t "cookie" || Js.includes t "biscuit"
  then Some "Cake"
  else if Js.includes t "ice cream" || Js.includes t "ice-cream" then Some "Ice Cream"
  else if Js.includes t "coffee" then Some "Coffee"
  else if Js.includes t "tea" then Some "Tea"
  else if Js.includes t "juice" then Some "Juice"
  else None.

(** [cocoToQuery] *)
Definition cocoToQuery (name : string) : option string :=
  let t := Js.toLowerCase name in
  if Js.includes t "cake" then Some "Cake"
  else if Js.includes t "pizza" then Some "Pizza"
  else if Js.includes t "donut" || Js.includes t "doughnut" then Some "Donut"
  else if Js.includes t "sandwich" then Some "Sandwich"
  else if Js.includes t "hot dog" then Some "Burger"
  else if Js.includes t "banana" || Js.includes t "apple" || Js.includes t "orange"
  then Some "Fruit"
  else None.

(** Truthiness of a variable that holds a string or [null]. *)
Definition strTruthy (o : option string) : bool :=
  match o with
  | Some s => negb (String.eqb s "")
  | None => false
  end.

(** [predictions || []] *)
Definition orEmpty {A} (o : option (list A)) : list A :=
  match o with
  | Some l => l
  | None => []
  end.

(** The loop over the classifier's predictions: the first label that maps
    to a category. *)
Fixpoint firstGuess (predictions : list Prediction) : option string :=
  match predictions with
  | [] => None
  | p :: ps =>
      let guess := mapLabelToQuery (className p) in
      if strTruthy guess then guess else firstGuess ps
  end.

(** [typeof d.score === 'number' && d.score < 0.3] *)
Definition lowScore (d : Detection) : bool :=
  match score d with
  | Js.Num s => (s <? 0.3)%float
  | _ => false
  end.

(** The loop over the detections: low scores are skipped, the first class
    that maps to a category wins. *)
Fixpoint firstDetected (detections : list Detection) : option string :=
  match detections with
  | [] => None
  | d :: ds =>
      if lowScore d then firstDetected ds
      else
        let guess := cocoToQuery (class d) in
        if strTruthy guess then guess else firstDetected ds
  end.

(** The two variables the tiers assign. *)
Record Vars : Type := mkVars {
  identifiedFood : option string;
  classifierPredictions : list Prediction
}.

(** A block of the handler: it reads and assigns the variables, calls
    collaborators and may throw; what was assigned before a throw stays
    assigned. *)
Definition Proc (A : Type) : Type := Vars -> (list Event * Vars * Outcome A)%type.

Definition pret {A} (a : A) : Proc A := fun v => ([], v, Return a).

Definition pbind {A B} (m : Proc A) (f : A -> Proc B) : Proc B :=
  fun v =>
    match m v with
    | (t, v', Return a) => let '(t', v'', r) := f a v' in (t ++ t', v'', r)
    | (t, v', Throw e) => (t, v', Throw e)
    end.

Definition ptry {A} (m : Proc A) (h : Exn -> Proc A) : Proc A :=
  fun v =>
    match m v with
    | (t, v', Throw e) => let '(t', v'', r) := h e v' in (t ++ t', v'', r)
    | r => r
    end.

Definition plift {A} (m : Eff A) : Proc A :=
  fun v => (fst m, v, snd m).

Definition getFood : Proc (option string) := fun v => ([], v, Return (identifiedFood v)).

Definition setFood (food : option string) : Proc unit :=
  fun v => ([], mkVars food (classifierPredictions v), Return tt).

Definition setPredictions (ps : list Prediction) : Proc unit :=
  fun v => ([], mkVars (identifiedFood v) ps, Return tt).

(** Runs a block from given variables; the variables it leaves are its
    result. *)
Definition run (m : Proc unit) (v : Vars) : Eff Vars :=
  match m v with
  | (t, v', Return _) => (t, Return v')
  | (t, _, Throw e) => (t, Throw e)
  end.

Declare Scope proc_scope.
Delimit Scope proc_scope with proc.
Notation "x <- m ;; k" := (pbind m (fun x => k))
  (at level 61, m at next level, right associativity) : proc_scope.
Notation "m ;;; k" := (pbind m (fun _ => k))
  (at level 61, right associativity) : proc_scope.

Section ImageSearch.

Variable env : Env.

Local Open Scope proc_scope.

(** Tier 1, the vision model. *)
Definition visionTier (imageFile : File) : Proc unit :=
  if negb (geminiApiKey env) then pret tt
  else
    ptry
      (text <- plift (attempt (CallGenerate (VisionPrompt imageFile)) ProviderError
                        (generateContent env (VisionPrompt imageFile))) ;;
       setFood (Some (Js.trim text)))
      (fun aiErr => pret tt).

(** [predictions[0].className] when there is one, else the empty string. *)
Definition topLabel (predictions : option (list Prediction)) : string :=
  match predictions with
  | Some (p :: _) => className p
  | _ => ""
  end.

(** Tiers 2 to 4, inside their try block. *)
Definition localBody (imageFile : File) : Proc unit :=
  plift (attempt CallLoadModels ClassifierError (ensureLocalClassifierLoaded env)) ;;;
  predictions <- plift (attempt (CallClassify imageFile) ClassifierError
                          (classify env imageFile)) ;;
  setPredictions (orEmpty predictions) ;;;
  setFood (mapLabelToQuery (topLabel predictions)) ;;;
  food <- getFood ;;
  (if negb (strTruthy food)
   then (if strTruthy (firstGuess (orEmpty predictions))
         then setFood (firstGuess (orEmpty predictions))
         else pret tt)
   else pret tt) ;;;
  food <- getFood ;;
  (if negb (strTruthy food)
   then
     detections <- plift (attempt (CallDetect imageFile) ClassifierError
                            (detect env imageFile)) ;;
     (if strTruthy (firstDetected (orEmpty detections))
      then setFood (firstDetected (orEmpty detections))
      else pret tt)
   else pret tt) ;;;
  food <- getFood ;;
  match predictions with
  | Some (p :: _) =>
      if negb (strTruthy food)
      then setFood (Some (Js.trim (Js.firstToken ","%char (className p))))
      else pret tt
  | _ => pret tt
  end.

Definition localTiers (imageFile : File) : Proc unit :=
  food <- getFood ;;
  if negb (strTruthy food)
  then ptry (localBody imageFile) (fun localErr => pret tt)
  else pret tt.

(** Step 3 of the handler: every tier in turn, from both variables unset. *)
Definition resolveImage (imageFile : File) : Eff Vars :=
  run (visionTier imageFile ;;; localTiers imageFile) (mkVars None []).

Local Close Scope proc_scope.

(** [identifiedFood || ''] and [identifiedFood || null] *)
Definition searchTerm (v : Vars) : string :=
  match identifiedFood v with
  | Some s => s
  | None => ""
  end.

Definition detectedLabel (v : Vars) : option string :=
  if strTruthy (identifiedFood v) then identifiedFood v else None.

Definition searchByImage (file : option File) (latitude longitude : Js.value)
  : Eff Response :=
  try_catch
    (match file with
     | None =>
         ret (mkResponse 400
                (ErrorBody ("Image file (as " ++ Js.quote ++ "foodImage" ++ Js.quote
                            ++ ") is required.")))
     | Some imageFile =>
         if negb (Js.truthy latitude) || negb (Js.truthy longitude)
         then ret (mkResponse 400 (ErrorBody "latitude and longitude are required."))
         else
           v <- resolveImage imageFile ;;
           searchResults <- findProducts env (Js.Str (searchTerm v)) latitude longitude ;;
           ret (mkResponse 200
                  (ImageBody (detectedLabel v) (classifierPredictions v) searchResults))
     end)
    (fun error =>
       try_catch
         (searchResults <- findProducts env (Js.Str "Burger") latitude longitude ;;
          ret (mkResponse 200 (SearchBody searchResults)))
         (fun fallbackErr =>
            ret (mkResponse 500
                   (ErrorBody "An internal error occurred during image search.")))).

End ImageSearch.

(** *** Tiers 2 to 4 as the specification words them

    The local classifier's labels in order, first category wins; else the
    detector's classes with low confidence discarded, first category wins;
    else the first comma-delimited token of the top label. A detector that
    fails ends the chain with no term. *)

Definition rawLabel (predictions : list Prediction) : option string :=
  match predictions with
  | p :: _ => Some (Js.trim (Js.firstToken ","%char (className p)))
  | [] => None
  end.

Definition tierTerm (predictions : list Prediction)
    (detections : Call (option (list Detection))) : option string :=
  match firstGuess predictions with
  | Some term => Some term
  | None =>
      match detections with
      | Fails => None
      | Gives ds =>
          match firstDetected (orEmpty ds) with
          | Some term => Some term
          | None => rawLabel predictions
          end
      end
  end.

(** What the local tiers leave in the two variables. *)
Definition localResult (env : Env) (imageFile : File) : Vars :=
  match ensureLocalClassifierLoaded env, classify env imageFile with
  | Gives _, Gives predictions =>
      mkVars (tierTerm (orEmpty predictions) (detect env imageFile))
        (orEmpty predictions)
  | _, _ => mkVars None []
  end.

(** ** The model's reply, cleaned for [JSON.parse] *)

(** [text.replace(/```json/g, "").replace(/```/g, "").trim()] *)
Definition cleanedText (text : string) : string :=
  Js.trim (Js.removeAll "```" (Js.removeAll "```json" text)).

(** ** [getOrSimulateExternalPrice] *)

Module ExternalPrice.

(** What [basePrices[key]] finds: one of the three listed prices, a
    property the object inherits from [Object.prototype] (a function or an
    object), or nothing. Of the inherited names only [constructor] and
    [__proto__] are written without capitals, as a key made by
    [toLowerCase] is. *)
Inductive Base : Type :=
| Listed (price : float)
| Inherited
| Unlisted.

Definition basePrices (key : string) : Base :=
  if String.eqb key "burger" then Listed 150
  else if String.eqb key "pizza" then Listed 300
  else if String.eqb key "samosa" then Listed 20
  else if String.eqb key "constructor" || String.eqb key "__proto__" then Inherited
  else Unlisted.

Section Simulation.

Variable rt : Runtime.
Variable parseFloat : string -> float.

(** The price returned when [Math.random()] gives [random]. With an
    inherited property for base price the sum is a string, which has no
    [toFixed]: the call throws a TypeError, [None] here. *)
Definition getOrSimulateExternalPrice (random : float) (productName : string)
  : option float :=
  match basePrices (Js.toLowerCase productName) with
  | Inherited => None
  | found =>
      let basePrice :=
        match found with
        | Listed p => if Js.truthy (Js.Num p) then p else 100%float
        | _ => 100%float
        end in
      let simulatedPrice :=
        Number_toFixed rt (basePrice + (random - 0.5) * 20)%float 2 in
      Some (parseFloat simulatedPrice)
  end.

End Simulation.

End ExternalPrice.

(** ** [GET /ai/market-trend/:productName]

    The handler answers every request: what its try block throws is caught,
    and so is what the fallback in the catch block throws. *)

(** What the catch block asks of the error it caught: whether it is a
    SyntaxError that mentions JSON. *)
Inductive Caught : Type :=
| JsonSyntaxError
| OtherError.

Section MarketTrend.

Variable env : Env.
Variable parseFloat : string -> float.

(** The numbers [Math.random()] gives in the try block and in the catch
    block. *)
Variable random : nat -> float.

(** The try block: the response it sends, or the error it throws. *)
Definition analysis (productName : string) : list Event * (Response + Caught) :=
  let r := market_price env 0 productName in
  match error r with
  | Some dbError => ([CallMarketPrice productName], inr OtherError)
  | None =>
      let (internalTrend, internalPrice) := Trend.analyze (data r) in
      match ExternalPrice.getOrSimulateExternalPrice (runtime env) parseFloat
              (random 0) productName with
      | None =>
          ([CallMarketPrice productName; CallExternalPrice productName], inr OtherError)
      | Some externalPrice =>
          let prompt := TrendPrompt productName internalPrice internalTrend externalPrice in
          let t := [CallMarketPrice productName; CallExternalPrice productName;
                    CallGenerate prompt] in
          match generateContent env prompt with
          | Fails => (t, inr OtherError)
          | Gives reply =>
              match JSON_parse (runtime env) (cleanedText reply) with
              | Some j => (t, inl (mkResponse 200 (ParsedBody j)))
              | None => (t, inr JsonSyntaxError)
              end
          end
      end
  end.

(** The catch block: the rule-based fallback, in a try block of its own;
    the error of the second read of the table is not looked at. *)
Definition fallback (productName : string) (error : Caught) : list Event * Response :=
  let r := market_price env 1 productName in
  let (internalTrend, internalPrice) := Trend.analyze (data r) in
  let t := [CallMarketPrice productName; CallExternalPrice productName] in
  match ExternalPrice.getOrSimulateExternalPrice (runtime env) parseFloat
          (random 1) productName with
  | Some externalPrice =>
      (t, mkResponse 200
            (VerdictBody (Trend.ruleFallback internalTrend internalPrice externalPrice)))
  | None =>
      (t, mkResponse 500
            (ErrorBody
               match error with
               | JsonSyntaxError => "The AI returned a response that was not valid JSON."
               | OtherError => "An internal error occurred during trend analysis."
               end))
  end.

Definition marketTrend (productName : string) : list Event * Response :=
  match analysis productName with
  | (t, inl response) => (t, response)
  | (t, inr error) =>
      let (t', response) := fallback productName error in (t ++ t', response)
  end.

End MarketTrend.

(** ** The first iteration of the handlers ([index.js])

    No fallback: what the model or the storage throws is answered 500. *)

Module IndexJs.

Section Handlers.

Variable env : Env.

(** [POST /ai/search] *)
Definition aiSearch (query latitude longitude : Js.value) : Eff Response :=
  try_catch
    (if negb (Js.truthy query) || negb (Js.truthy latitude) || negb (Js.truthy longitude)
     then ret (mkResponse 400 (ErrorBody "Query, latitude, and longitude are required."))
     else
       results <- V1.findProducts env query latitude longitude ;;
       ret (mkResponse 200 (SearchBody results)))
    (fun error =>
       match error with
       | SyntaxError =>
           ret (mkResponse 500
                  (ErrorBody "The AI returned a response that was not valid JSON."))
       | _ => ret (mkResponse 500 (ErrorBody "An internal error occurred."))
       end).

Variable parseFloat : string -> float.
Variable random : nat -> float.

(** [GET /ai/market-trend/:productName]: the try block. *)
Definition analysis (productName : string) : list Event * (Response + Caught) :=
  let r := market_price env 0 productName in
  match error r with
  | Some dbError => ([CallMarketPrice productName], inr OtherError)
  | None =>
      let (internalTrend, internalPrice) := Trend.analyze (data r) in
      match ExternalPrice.getOrSimulateExternalPrice (runtime env) parseFloat
              (random 0) productName with
      | None =>
          ([CallMarketPrice productName; CallExternalPrice productName], inr OtherError)
      | Some externalPrice =>
          let prompt := TrendPrompt productName internalPrice internalTrend externalPrice in
          let t := [CallMarketPrice productName; CallExternalPrice productName;
                    CallGenerate prompt] in
          match generateContent env prompt with
          | Fails => (t, inr OtherError)
          | Gives reply =>
              match JSON_parse (runtime env) (cleanedText reply) with
              | Some j => (t, inl (mkResponse 200 (ParsedBody j)))
              | None => (t, inr JsonSyntaxError)
              end
          end
      end
  end.

Definition marketTrend (productName : string) : list Event * Response :=
  match analysis productName with
  | (t, inl response) => (t, response)
  | (t, inr JsonSyntaxError) =>
      (t, mkResponse 500
            (ErrorBody "The AI returned a response that was not valid JSON."))
  | (t, inr OtherError) =>
      (t, mkResponse 500
            (ErrorBody "An internal error occurred during trend analysis."))
  end.

End Handlers.

End IndexJs.

(** ** More of the language: [split], property access, default values *)

Module JsMore.

(** [s.split(sep)] for a one-character separator. *)
Fixpoint split (sep : ascii) (s : string) : list string :=
  match s with
  | EmptyString => [""]
  | String c s' =>
      if Ascii.eqb c sep then "" :: split sep s'
      else
        match split sep s' with
        | [] => [String c ""]
        | t :: ts => String c t :: ts
        end
  end.

(** [arr[i]] on an array of strings: [undefined] past the end. *)
Definition at_ (arr : list string) (i : nat) : Js.value :=
  match nth_error arr i with
  | Some s => Js.Str s
  | None => Js.Undefined
  end.

(** The own property [k] of an object made by [JSON.parse]. *)
Fixpoint lookup (fields : list (string * Js.value)) (k : string) : Js.value :=
  match fields with
  | [] => Js.Undefined
  | (k', v) :: rest => if String.eqb k' k then v else lookup rest k
  end.

(** [v.k] for a key no prototype defines: a TypeError ([None]) on [null]
    and [undefined], [undefined] on the other values that are not
    objects. *)
Definition get (v : Js.value) (k : string) : option Js.value :=
  match v with
  | Js.Undefined | Js.Null => None
  | Js.Obj fields => Some (lookup fields k)
  | _ => Some Js.Undefined
  end.

(** [const { k = d } = ...]: the default stands in for [undefined] only. *)
Definition orDefault (v d : Js.value) : Js.value :=
  match v with
  | Js.Undefined => d
  | _ => v
  end.

(** [res.json(data)] for a [data] that may be [null]. *)
Definition orNull (data : option Js.value) : Js.value :=
  match data with
  | Some v => v
  | None => Js.Null
  end.

End JsMore.

(** ** The endpoints behind [protectRoute]

    Their handlers catch what they throw: each request ends in a reply. *)

Module Api.

Record Reply : Type := mkReply { code : nat; json : Js.value }.

(** [{ error: message }] *)
Definition errorJson (message : string) : Js.value :=
  Js.Obj [("error", Js.Str message)].

Record User : Type := mkUser { id : Js.value }.

(** [{ data: { user }, error }] of [supabase.auth.getUser]. *)
Record AuthReply : Type := mkAuth { user : option User; authError : option string }.

(** The rows handed to [insert]. *)
Record ShopRow : Type := mkShopRow {
  shop_name : Js.value;
  shop_description : Js.value;
  owner_id : Js.value;
  shop_latitude : Js.value;
  shop_longitude : Js.value;
  contact_number : Js.value;
  email : Js.value
}.

Record ProductRow : Type := mkProductRow {
  product_name : Js.value;
  product_description : Js.value;
  product_price : Js.value;
  shop_id : Js.value;
  rating : Js.value
}.

Record PriceEntry : Type := mkPriceEntry {
  entry_product_name : Js.value;
  entry_price : Js.value;
  source : Js.value
}.

(** The account service and the tables. [getUser] fails when the call
    throws or its [data] cannot be destructured. [record_sale] is a stored
    procedure with effects of its own: its first argument counts the calls
    made before. *)
Record Backend : Type := mkBackend {
  getUser : Js.value -> Call AuthReply;
  insertShop : ShopRow -> Resp Js.value;
  insertProduct : ProductRow -> Resp Js.value;
  insertMarketPrice : PriceEntry -> Resp Js.value;
  record_sale : nat -> Js.value -> Js.value -> Js.value -> option string
}.

Inductive Op : Type :=
| GetUser (token : Js.value)
| InsertShop (row : ShopRow)
| InsertProduct (row : ProductRow)
| InsertMarketPrice (row : PriceEntry)
| RecordSale (sale_shop_id sale_product_id quantity : Js.value).

(** [req.headers.authorization] and the fields of [req.body]. *)
Record Request : Type := mkRequest {
  authorization : option string;
  body : string -> Js.value
}.

Section Endpoints.

Variable backend : Backend.

(** [protectRoute]: a reply of its own, or the user for the handler
    behind it. *)
Definition protectRoute (req : Request) : list Op * (Reply + User) :=
  let malformed :=
    ([], inl (mkReply 401 (errorJson "Authorization header is missing or malformed."))) in
  match authorization req with
  | None => malformed
  | Some authHeader =>
      if String.eqb authHeader "" || negb (String.prefix "Bearer " authHeader)
      then malformed
      else
        let token := JsMore.at_ (JsMore.split " " authHeader) 1 in
        match getUser backend token with
        | Fails => ([GetUser token], inl (mkReply 401 (errorJson "Authentication failed.")))
        | Gives r =>
            match authError r, user r with
            | None, Some u => ([GetUser token], inr u)
            | _, _ =>
                ([GetUser token], inl (mkReply 401 (errorJson "Invalid or expired token.")))
            end
        end
  end.

(** [app.post(path, protectRoute, handler)] *)
Definition protected (handler : User -> Request -> list Op * Reply) (req : Request)
  : list Op * Reply :=
  match protectRoute req with
  | (t, inl reply) => (t, reply)
  | (t, inr u) => let (t', reply) := handler u req in (t ++ t', reply)
  end.

(** The handler of [POST /shops] *)
Definition createShop (u : User) (req : Request) : list Op * Reply :=
  let name := body req "name" in
  let description := body req "description" in
  let latitude := body req "latitude" in
  let longitude := body req "longitude" in
  let contact_number := JsMore.orDefault (body req "contact_number") Js.Null in
  let email := JsMore.orDefault (body req "email") Js.Null in
  let owner_id := id u in
  if negb (Js.truthy name) || negb (Js.truthy latitude) || negb (Js.truthy longitude)
  then ([], mkReply 400 (errorJson "Name, latitude, and longitude are required."))
  else
    let row :=
      mkShopRow name description owner_id latitude longitude contact_number email in
    let r := insertShop backend row in
    match error r with
    | Some message => ([InsertShop row], mkReply 400 (errorJson message))
    | None => ([InsertShop row], mkReply 201 (JsMore.orNull (data r)))
    end.

(** The handler of [POST /products] *)
Definition addProduct (u : User) (req : Request) : list Op * Reply :=
  let name := body req "name" in
  let description := body req "description" in
  let price := body req "price" in
  let shop_id := body req "shop_id" in
  let rating := JsMore.orDefault (body req "rating") (Js.Num 3) in
  let row := mkProductRow name description price shop_id rating in
  let r := insertProduct backend row in
  match error r with
  | Some message => ([InsertProduct row], mkReply 400 (errorJson message))
  | None => ([InsertProduct row], mkReply 201 (JsMore.orNull (data r)))
  end.

(** The handler of [POST /market-price] *)
Definition addMarketPrice (u : User) (req : Request) : list Op * Reply :=
  let product_name := body req "product_name" in
  let price := body req "price" in
  let source := JsMore.orDefault (body req "source") (Js.Str "Internal") in
  if negb (Js.truthy product_name) || negb (Js.truthy price)
  then ([], mkReply 400 (errorJson "product_name and price are required."))
  else
    let row := mkPriceEntry product_name price source in
    let r := insertMarketPrice backend row in
    match error r with
    | Some _ => ([InsertMarketPrice row], mkReply 500 (errorJson "An internal error occurred."))
    | None =>
        ([InsertMarketPrice row],
         mkReply 201 (Js.Obj [("message", Js.Str "Market price added successfully");
                              ("data", JsMore.orNull (data r))]))
    end.

(** The loop of [POST /sales]: the calls made, and whether it ran to its
    end; [n] calls were made before. An item that is [null] throws when
    its fields are read. *)
Fixpoint recordEach (shop_id : Js.value) (n : nat) (items : list Js.value)
  : list Op * bool :=
  match items with
  | [] => ([], true)
  | item :: rest =>
      match JsMore.get item "product_id", JsMore.get item "quantity" with
      | Some product_id, Some quantity =>
          match record_sale backend n shop_id product_id quantity with
          | Some _ => ([RecordSale shop_id product_id quantity], false)
          | None =>
              let (t, completed) := recordEach shop_id (S n) rest in
              (RecordSale shop_id product_id quantity :: t, completed)
          end
      | _, _ => ([], false)
      end
  end.

(** The handler of [POST /sales] ([index.js]) *)
Definition recordSales (u : User) (req : Request) : list Op * Reply :=
  let shop_id := body req "shop_id" in
  let items := body req "items" in
  let required :=
    ([], mkReply 400 (errorJson "shop_id and an array of items are required.")) in
  if negb (Js.truthy shop_id) || negb (Js.truthy items) then required
  else
    match items with
    | Js.Arr [] => required
    | Js.Arr elems =>
        let (t, completed) := recordEach shop_id 0 elems in
        if completed
        then (t, mkReply 201
                   (Js.Obj [("message",
                             Js.Str "Sales recorded and inventory updated successfully.")]))
        else (t, mkReply 500
                   (errorJson "An internal error occurred while recording the sale."))
    | _ => required
    end.

(** The routes as registered. *)
Definition postShops : Request -> list Op * Reply := protected createShop.
Definition postProducts : Request -> list Op * Reply := protected addProduct.
Definition postMarketPrice : Request -> list Op * Reply := protected addMarketPrice.
Definition postSales : Request -> list Op * Reply := protected recordSales.

End Endpoints.

End Api.

(** ** [ensureLocalClassifierLoaded] *)

Module Loader.

Inductive Op : Type :=
| Require (package : string)
| LoadMobileNet
| LoadCoco.

Section Loading.

(** The packages and the models are objects to the handler. *)
Variables Package Model : Type.

(** The variables [tf], [mobilenet] and [cocoSsd] of the module and the
    two models kept on [global]; [None] is [null] or not yet set. *)
Record Globals : Type := mkGlobals {
  tf : option Package;
  mobilenet : option Package;
  cocoSsd : option Package;
  loadedMobileNetModel : option Model;
  loadedCocoModel : option Model
}.

(** What [require] and the [load] functions of the two packages do when
    they are called. *)
Record Tools : Type := mkTools {
  require : string -> Call Package;
  mobilenet_load : Package -> Call Model;
  cocoSsd_load : Package -> Call Model
}.

(** A statement of the function: the calls it makes, the variables it
    leaves, its value or what it throws. *)
Definition Step (A : Type) : Type := Globals -> (list Op * Globals * Outcome A)%type.

Definition andThen {A B} (m : Step A) (f : A -> Step B) : Step B :=
  fun g =>
    match m g with
    | (t, g', Return a) => let '(t', g'', r) := f a g' in (t ++ t', g'', r)
    | (t, g', Throw e) => (t, g', Throw e)
    end.

(** [if (!x) x = make()], and the value of [x] afterwards. *)
Definition unlessSet {A} (read : Globals -> option A) (write : A -> Globals -> Globals)
    (op : Op) (make : Call A) : Step A :=
  fun g =>
    match read g with
    | Some a => ([], g, Return a)
    | None =>
        match make with
        | Gives a => ([op], write a g, Return a)
        | Fails => ([op], g, Throw ClassifierError)
        end
    end.

Variable tools : Tools.

Definition ensureLocalClassifierLoaded : Step (Model * Model) :=
  andThen
    (unlessSet tf
       (fun a g => mkGlobals (Some a) (mobilenet g) (cocoSsd g)
                     (loadedMobileNetModel g) (loadedCocoModel g))
       (Require "@tensorflow/tfjs-node") (require tools "@tensorflow/tfjs-node"))
    (fun _ =>
  andThen
    (unlessSet mobilenet
       (fun a g => mkGlobals (tf g) (Some a) (cocoSsd g)
                     (loadedMobileNetModel g) (loadedCocoModel g))
       (Require "@tensorflow-models/mobilenet")
       (require tools "@tensorflow-models/mobilenet"))
    (fun mobilenet' =>
  andThen
    (unlessSet cocoSsd
       (fun a g => mkGlobals (tf g) (mobilenet g) (Some a)
                     (loadedMobileNetModel g) (loadedCocoModel g))
       (Require "@tensorflow-models/coco-ssd")
       (require tools "@tensorflow-models/coco-ssd"))
    (fun cocoSsd' =>
  andThen
    (unlessSet loadedMobileNetModel
       (fun a g => mkGlobals (tf g) (mobilenet g) (cocoSsd g)
                     (Some a) (loadedCocoModel g))
       LoadMobileNet (mobilenet_load tools mobilenet'))
    (fun mobileNetModel =>
  andThen
    (unlessSet loadedCocoModel
       (fun a g => mkGlobals (tf g) (mobilenet g) (cocoSsd g)
                     (loadedMobileNetModel g) (Some a))
       LoadCoco (cocoSsd_load tools cocoSsd'))
    (fun cocoModel => fun g => ([], g, Return (mobileNetModel, cocoModel))))))).

End Loading.

Arguments mkGlobals {Package Model}.
Arguments tf {Package Model}.
Arguments mobilenet {Package Model}.
Arguments cocoSsd {Package Model}.
Arguments loadedMobileNetModel {Package Model}.
Arguments loadedCocoModel {Package Model}.
Arguments mkTools {Package Model}.
Arguments require {Package Model}.
Arguments mobilenet_load {Package Model}.
Arguments cocoSsd_load {Package Model}.
Arguments ensureLocalClassifierLoaded {Package Model}.

End Loader.

(** ** A sample engine and sample collaborators

    Concrete stand-ins on which the model can be run: a decimal parser and
    an exact [toFixed], polynomial small-angle trigonometry, a JSON reader
    for the literals only, and a product table filtered as [ilike] does. *)

Module Sample.

Definition sin (x : float) : float := (x * (1 - x * x / 6))%float.
Definition cos (x : float) : float := (1 - x * x / 2)%float.
Definition atan2 (y x : float) : float := (y / x)%float.

Definition of_Z (z : Z) : float := of_uint63 (Uint63.of_Z z).

Definition digitValue (c : ascii) : option Z :=
  let n := nat_of_ascii c in
  if (48 <=? n)%nat && (n <=? 57)%nat then Some (Z.of_nat (n - 48)) else None.

(** Reads [digits] or [digits.digits]: the digits read so far as an
    integer, and how many of them stand behind the point. *)
Fixpoint readDecimal (s : string) (acc : Z) (seenPoint : bool) (scale : nat)
  : option (Z * nat) :=
  match s with
  | EmptyString => Some (acc, scale)
  | String c s' =>
      match digitValue c with
      | Some d => readDecimal s' (10 * acc + d) seenPoint (if seenPoint then S scale else scale)
      | None =>
          if Ascii.eqb c "."%char && negb seenPoint
          then readDecimal s' acc true scale
          else None
      end
  end.

Definition stringToNumber (s : string) : float :=
  match Js.trim s with
  | EmptyString => 0%float
  | String c s' as t =>
      let (neg, body) := if Ascii.eqb c "-"%char then (true, s') else (false, t) in
      match body with
      | EmptyString => nan
      | _ =>
          match readDecimal body 0 false 0 with
          | Some (n, k) =>
              let v := (of_Z n / of_Z (10 ^ Z.of_nat k))%float in
              if neg then (- v)%float else v
          | None => nan
          end
      end
  end.

Fixpoint zeros (n : nat) : string :=
  match n with
  | O => ""
  | S k => "0" ++ zeros k
  end.

(** [n / 10^k] written with [k] decimals. *)
Definition fixedDigits (neg : bool) (n : Z) (k : nat) : string :=
  let p := (10 ^ Z.of_nat k)%Z in
  let whole := Js.decimal (Z.to_nat (n / p)) in
  let frac := Js.decimal (Z.to_nat (n mod p)) in
  ((if neg then "-" else "") ++ whole
   ++ (if (k =? 0)%nat then ""
       else "." ++ zeros (k - String.length frac) ++ frac))%string.

(** [x.toFixed(k)]: the nearest multiple of [10^-k] to the exact value of
    [x], the larger one on a tie. *)
Definition toFixed (x : float) (k : nat) : string :=
  match Prim2SF x with
  | S754_nan => "NaN"
  | S754_infinity s => if s then "-Infinity" else "Infinity"
  | S754_zero _ => fixedDigits false 0 k
  | S754_finite s m e =>
      let p := (10 ^ Z.of_nat k)%Z in
      let n :=
        if (0 <=? e)%Z then (Zpos m * 2 ^ e * p)%Z
        else ((2 * Zpos m * p + 2 ^ (- e)) / (2 * 2 ^ (- e)))%Z in
      fixedDigits s n k
  end.

Definition parse (s : string) : option Js.value :=
  if String.eqb s "null" then Some Js.Null
  else if String.eqb s "true" then Some (Js.Bool true)
  else if String.eqb s "false" then Some (Js.Bool false)
  else if String.eqb s "{}" then Some (Js.Obj [])
  else if String.eqb s "[]" then Some (Js.Arr [])
  else None.

(** Numbers print without decimals, objects as [Object.prototype.toString]
    prints them. *)
Definition engine : Runtime :=
  mkRuntime sin cos atan2 stringToNumber (fun x => toFixed x 0) toFixed
    (fun _ => "[object Object]") parse.

Definition cornerCafe : Shops.t :=
  Shops.mk "Corner Cafe" (Some "9876543210") (Some "corner@shop.com")
    (Js.Num 12.97) (Js.Num 77.59).

Definition teaHouse : Shops.t :=
  Shops.mk "Tea House" None None (Js.Num 12.98) (Js.Num 77.6).

Definition catalogue : list Products.t :=
  [ Products.mk "Cheese Burger" (Js.Num 150) (Js.Num 4.5) 1 (Some cornerCafe);
    Products.mk "Masala Tea" (Js.Num 20) (Js.Num 4) 2 (Some teaHouse);
    Products.mk "Veg Burger" (Js.Num 120) (Js.Num 4.2) 2 (Some teaHouse) ].

(** [name ilike '%q%'], for a [q] without wildcards. *)
Definition ilikeMatch (pattern : option string) (p : Products.t) : bool :=
  match pattern with
  | None => true
  | Some pat =>
      Js.includes (Js.toLowerCase (Products.name p))
        (Js.toLowerCase (Js.removeAll "%" pat))
  end.

Definition productsIn (table : list Products.t) (shopIds : list nat)
    (pattern : option string) : Resp (list Products.t) :=
  mkResp
    (Some (filter (fun p => existsb (Nat.eqb (Products.shop_id p)) shopIds
                            && ilikeMatch pattern p) table))
    None.

(** Two products whose joined shop is missing, the dearer one first. *)
Definition unlocated : list Products.t :=
  [ Products.mk "Paneer Pizza" (Js.Num 200) (Js.Num 4) 1 None;
    Products.mk "Veg Pizza" (Js.Num 100) (Js.Num 4) 1 None ].

(** Two products of one shop without a price, the lower rated one first. *)
Definition unpriced : list Products.t :=
  [ Products.mk "Chef Special" Js.Null (Js.Num 3) 1 (Some cornerCafe);
    Products.mk "Daily Special" Js.Null (Js.Num 5) 1 (Some cornerCafe) ].

(** Candidates with finite keys, out of order. *)
Definition shortlist : list Enriched.t :=
  [ Enriched.mk "poor" 200 2 "s" None None 2.5;
    Enriched.mk "good" 200 5 "s" None None 2.5;
    Enriched.mk "cheap" 100 1 "s" None None 2.5;
    Enriched.mk "near" 300 1 "s" None None 1.5 ].

Definition image : File := mkFile "<jpeg bytes>" "image/jpeg".

Definition priceHistory : list PriceRow :=
  [ mkRow 110 "2024-03-03"; mkRow 100 "2024-03-02"; mkRow 100 "2024-03-01" ].

(** A deployment over the sample catalogue. *)
Definition deployment (localRanking apiKey : bool) (shops : list NearbyShop.t)
    (model : Prompt -> Call string) (models : Call unit)
    (classifier : File -> Call (option (list Prediction)))
    (detector : File -> Call (option (list Detection))) : Env :=
  mkEnv engine localRanking apiKey
    (fun _ _ => mkResp (Some shops) None)
    (productsIn catalogue)
    (fun _ _ => mkResp (Some priceHistory) None)
    (fun _ _ => 100%float)
    model models classifier detector.

Definition twoShops : list NearbyShop.t := [NearbyShop.mk 1; NearbyShop.mk 2].

(** Two shops in range, no API key, no usable local models, local ranking
    switched on. *)
Definition offline : Env :=
  deployment true false twoShops (fun _ => Fails) Fails (fun _ => Fails) (fun _ => Fails).

(** The same with no shop in range. *)
Definition deserted : Env :=
  deployment true false [] (fun _ => Fails) Fails (fun _ => Fails) (fun _ => Fails).

(** A model that answers in prose inside a code fence. *)
Definition chatty : Env :=
  deployment false true twoShops
    (fun _ => Gives "```json I could not decide between these. ```")
    Fails (fun _ => Fails) (fun _ => Fails).

(** The vision model is down; the local classifier sees no food, the
    detector sees a hot dog behind a faint pizza. *)
Definition visionDown : Env :=
  deployment true true twoShops (fun _ => Fails) (Gives tt)
    (fun _ => Gives (Some [mkPrediction "plate, dish" 0.6; mkPrediction "table" 0.2]))
    (fun _ => Gives (Some [mkDetection "pizza" (Js.Num 0.2);
                           mkDetection "hot dog" (Js.Num 0.7)])).


(** A model that answers with an empty object inside a fence. *)
Definition fenced : Env :=
  deployment false true twoShops (fun _ => Gives "```json {} ```")
    Fails (fun _ => Fails) (fun _ => Fails).

(** A vision model that names the food, and no ranking model. *)
Definition sighted : Env :=
  deployment true true twoShops
    (fun prompt =>
       match prompt with
       | VisionPrompt _ => Gives " Burger "
       | _ => Fails
       end)
    Fails (fun _ => Fails) (fun _ => Fails).

(** A vision model that answers with white space; the local classifier
    sees a pizza. *)
Definition speechless : Env :=
  deployment true true twoShops
    (fun prompt =>
       match prompt with
       | VisionPrompt _ => Gives "  "
       | _ => Fails
       end)
    (Gives tt)
    (fun _ => Gives (Some [mkPrediction "pizza, pizza pie" 0.9]))
    (fun _ => Fails).

(** Products of two shops, some of a shop without coordinates, one
    without a price. *)
Definition mixed : list Products.t :=
  [ Products.mk "Paneer Pizza" (Js.Num 200) (Js.Num 4) 3 None;
    Products.mk "Veg Burger" (Js.Num 120) (Js.Num 4.2) 2 (Some teaHouse);
    Products.mk "Chef Special" Js.Null (Js.Num 3) 1 (Some cornerCafe);
    Products.mk "Cheese Burger" (Js.Num 150) (Js.Num 4.5) 1 (Some cornerCafe) ].

(** A product without a shop, one of a shop whose latitude is stored as a
    word, and one of the shop at the customer's door. *)
Definition misplaced : list Products.t :=
  [ Products.mk "Paneer Pizza" (Js.Num 200) (Js.Num 4) 3 None;
    Products.mk "Veg Burger" (Js.Num 120) (Js.Num 4.2) 2
      (Some (Shops.mk "Tea House" None None (Js.Str "north") (Js.Num 77.6)));
    Products.mk "Cheese Burger" (Js.Num 150) (Js.Num 4.5) 1 (Some cornerCafe) ].

(** An account service that knows one token, and tables that take every
    row. *)
Definition owner : Api.User := Api.mkUser (Js.Str "user-1").

Definition backend : Api.Backend :=
  Api.mkBackend
    (fun token =>
       match token with
       | Js.Str t =>
           if String.eqb t "secret" then Gives (Api.mkAuth (Some owner) None)
           else Gives (Api.mkAuth None (Some "invalid JWT"))
       | _ => Fails
       end)
    (fun _ => mkResp (Some (Js.Obj [("id", Js.Num 1)])) None)
    (fun _ => mkResp (Some (Js.Obj [("id", Js.Num 1)])) None)
    (fun _ => mkResp None None)
    (fun _ _ _ _ => None).

Definition request (fields : list (string * Js.value)) : Api.Request :=
  Api.mkRequest (Some "Bearer secret") (JsMore.lookup fields).

Definition newShop : Api.Request :=
  request [("name", Js.Str "Corner Cafe"); ("latitude", Js.Num 12.97);
           ("longitude", Js.Num 77.59); ("owner_id", Js.Str "someone-else")].

Definition newPrice : Api.Request :=
  request [("product_name", Js.Str "Burger"); ("price", Js.Num 150)].

(** A trend model that answers with an empty object. *)
Definition analyst : Env :=
  deployment false true twoShops (fun _ => Gives "{}")
    Fails (fun _ => Fails) (fun _ => Fails).

End Sample.

(** ** Predicates of the statements *)

(** A candidate at a finite distance, and one at distance [Infinity]. *)
Definition near (e : Enriched.t) : Prop := Js.isFinite (Enriched.distance_km e) = true.
Definition far (e : Enriched.t) : Prop := Enriched.distance_km e = infinity.

(** A list of candidates at finite distance followed by candidates at
    distance [Infinity]. *)
Definition farLast (l : list Enriched.t) : Prop :=
  exists l1 l2, l = l1 ++ l2 /\ Forall near l1 /\ Forall far l2.

(** A binary64 value that is a zero, or a finite number of magnitude at
    most 1 as it is stored: at most 53 digits, exponent at most -52. *)
Definition small (x : spec_float) : Prop :=
  match x with
  | S754_zero _ => True
  | S754_finite _ m e => (Z.pos (digits2_pos m) <= 53)%Z /\ (e <= -52)%Z
  | _ => False
  end.

Definition zero_or_finite (x : spec_float) : Prop :=
  (exists s, x = S754_zero s) \/ (exists s m e, x = S754_finite s m e).

(** The mantissa of a finite number aligned on the exponent [ez], with
    its sign. *)
Definition aligned (s : bool) (m : positive) (e ez : Z) : Z :=
  cond_Zopp s (Z.pos (fst (shl_align m e ez))).

(** A finite number as a pair of integers whose lexicographic order is
    the order of the numbers: the exponent, counted from below the least
    one, and the mantissa, both negated for a negative number. *)
Definition SFkey (x : spec_float) : Z * Z :=
  match x with
  | S754_finite false m e => (e + 1075, Z.pos m)%Z
  | S754_finite true m e => (- (e + 1075), - Z.pos m)%Z
  | _ => (0, 0)%Z
  end.

Definition key (x : float) : Z * Z := SFkey (Prim2SF x).

Definition lexCompare (a b : Z * Z) : comparison :=
  match (fst a ?= fst b)%Z with
  | Eq => (snd a ?= snd b)%Z
  | c => c
  end.

(** A candidate all of whose keys are finite numbers. *)
Definition finiteKeys (e : Enriched.t) : Prop :=
  Js.isFinite (Enriched.distance_km e) = true
  /\ Js.isFinite (Enriched.price e) = true
  /\ Js.isFinite (Enriched.rating e) = true.

(** The order of the ranking contract: nearer first; at equal distance
    cheaper first; at equal distance and price the rating not lower. *)
Definition rankedBefore (a b : Enriched.t) : Prop :=
  (Enriched.distance_km a <? Enriched.distance_km b)%float = true
  \/ ((Enriched.distance_km a =? Enriched.distance_km b)%float = true
      /\ ((Enriched.price a <? Enriched.price b)%float = true
          \/ ((Enriched.price a =? Enriched.price b)%float = true
              /\ (Enriched.rating b <=? Enriched.rating a)%float = true))).

(** A text of ASCII characters: on these [trim] and [toLowerCase] are
    those of the engine. *)
Fixpoint asciiText (s : string) : bool :=
  match s with
  | EmptyString => true
  | String c s' => (nat_of_ascii c <? 128)%nat && asciiText s'
  end.

(** A string of white space only, the empty string included. *)
Fixpoint blank (s : string) : bool :=
  match s with
  | EmptyString => true
  | String c s' => Js.isSpace c && blank s'
  end.

(** The name filter [findProducts] gives to the product query. *)
Definition nameFilter (env : Env) (query : Js.value) : option string :=
  if hasQuery env query
  then Some ("%" ++ ToString (runtime env) query ++ "%")%string
  else None.

(** The recommendation made of a product at a position of the ranking. *)
Definition recommend (rt : Runtime) (latitude longitude : Js.value)
    (p : Products.t) (idx : nat) : Recommendation.t :=
  toRecommendation rt (enrich rt latitude longitude p) idx.

(** Candidates with the same distance, price and rating. *)
Definition sameKeys (a b : Enriched.t) : bool :=
  (Enriched.distance_km a =? Enriched.distance_km b)%float
  && (Enriched.price a =? Enriched.price b)%float
  && (Enriched.rating a =? Enriched.rating b)%float.

(** A number that is finite or [Infinity]: a distance, or a price with
    its stand-in for a missing one. *)
Definition ordinary (x : float) : Prop := Js.isFinite x = true \/ x = infinity.

(** A candidate as [enrich] makes it, when its distance is a number. *)
Definition rankable (e : Enriched.t) : Prop :=
  ordinary (Enriched.distance_km e) /\ ordinary (Enriched.price e)
  /\ Js.isFinite (Enriched.rating e) = true.

(** The order the comparison function decides: nearer first; at one
    finite distance cheaper first; at one finite distance and one finite
    price the rating not lower. Candidates at distance [Infinity] are not
    ordered among themselves, nor are candidates of one distance whose
    prices are both [Infinity]. *)
Definition decidedBefore (a b : Enriched.t) : Prop :=
  (Enriched.distance_km a <? Enriched.distance_km b)%float = true
  \/ ((Enriched.distance_km a =? Enriched.distance_km b)%float = true
      /\ ((Enriched.distance_km a =? infinity)%float = true
          \/ (Enriched.price a <? Enriched.price b)%float = true
          \/ ((Enriched.price a =? Enriched.price b)%float = true
              /\ ((Enriched.price a =? infinity)%float = true
                  \/ (Enriched.rating b <=? Enriched.rating a)%float = true)))).

(** [key], with [Infinity] above every finite number. *)
Definition xkey (x : float) : Z * Z :=
  if (x =? infinity)%float then (3000, 0)%Z else key x.

(** The number of backticks a string starts with. *)
Fixpoint ticks (s : string) : nat :=
  match s with
  | String c s' => if Ascii.eqb c "`" then S (ticks s') else O
  | EmptyString => O
  end.

(** A call to the generative model. *)
Definition callsModel (ev : Event) : bool :=
  match ev with
  | CallGenerate _ => true
  | _ => false
  end.

(** A block of the image handler that makes no call to the generative
    model. *)
Definition quiet {A} (m : Proc A) : Prop :=
  forall v, forallb (fun ev => negb (callsModel ev)) (fst (fst (m v))) = true.

(** The reply of [protectRoute] to a request without a bearer token. *)
Definition malformed : list Api.Op * (Api.Reply + Api.User) :=
  ([], inl (Api.mkReply 401
              (Api.errorJson "Authorization header is missing or malformed."))).

(** What [protectRoute] does with the token [token]. *)
Definition checked (backend : Api.Backend) (token : Js.value)
  : list Api.Op * (Api.Reply + Api.User) :=
  match Api.getUser backend token with
  | Fails =>
      ([Api.GetUser token],
       inl (Api.mkReply 401 (Api.errorJson "Authentication failed.")))
  | Gives r =>
      match Api.authError r, Api.user r with
      | None, Some u => ([Api.GetUser token], inr u)
      | _, _ =>
          ([Api.GetUser token],
           inl (Api.mkReply 401 (Api.errorJson "Invalid or expired token.")))
      end
  end.

(** What passes [protectRoute]: a header "Bearer ..." whose token (the
    text up to the next space) the account service resolves to a user,
    without an error. *)
Definition admitted (backend : Api.Backend) (req : Api.Request) (u : Api.User) : Prop :=
  exists rest,
    Api.authorization req = Some ("Bearer " ++ rest)%string
    /\ Api.getUser backend (Js.Str (Js.firstToken " " rest))
       = Gives (Api.mkAuth (Some u) None).

(** The call that records [item]. *)
Definition saleOf (shop_id item : Js.value) : Api.Op :=
  Api.RecordSale shop_id
    (match JsMore.get item "product_id" with Some v => v | None => Js.Undefined end)
    (match JsMore.get item "quantity" with Some v => v | None => Js.Undefined end).

(** Every package and both models are loaded. *)
Definition ready {Package Model} (g : Loader.Globals Package Model) : Prop :=
  exists a b c m n, g = Loader.mkGlobals (Some a) (Some b) (Some c) (Some m) (Some n).

(** What is set in [g] is set to the same in [g']. *)
Definition keeps {Package Model} (g g' : Loader.Globals Package Model) : Prop :=
  (forall a, Loader.tf g = Some a -> Loader.tf g' = Some a)
  /\ (forall a, Loader.mobilenet g = Some a -> Loader.mobilenet g' = Some a)
  /\ (forall a, Loader.cocoSsd g = Some a -> Loader.cocoSsd g' = Some a)
  /\ (forall m, Loader.loadedMobileNetModel g = Some m ->
                Loader.loadedMobileNetModel g' = Some m)
  /\ (forall m, Loader.loadedCocoModel g = Some m -> Loader.loadedCocoModel g' = Some m).

(** A product name whose base price is a property of [Object.prototype]. *)
Definition inheritedName (productName : string) : bool :=
  match ExternalPrice.basePrices (Js.toLowerCase productName) with
  | ExternalPrice.Inherited => true
  | _ => false
  end.

(** The verdict of the catch block of the trend handler, from its own
    read of the table. *)
Definition ruleVerdict (env : Env) (productName : string) (externalPrice : float)
  : Response :=
  mkResponse 200
    (VerdictBody
       (Trend.ruleFallback
          (fst (Trend.analyze (data (market_price env 1 productName))))
          (snd (Trend.analyze (data (market_price env 1 productName))))
          externalPrice)).

(** * Properties *)

(** ** The string primitives on examples *)

Example includes_lowercase :
  Js.includes (Js.toLowerCase "Cheeseburger, hamburger") "burger" = true.
Proof. reflexivity. Qed.

Example trim_both_ends : Js.trim "  a b  " = "a b".
Proof. reflexivity. Qed.

Example fences_removed :
  Js.trim (Js.removeAll "```" (Js.removeAll "```json" "```json {x} ```")) = "{x}".
Proof. reflexivity. Qed.

Example first_token : Js.trim (Js.firstToken ","%char "tabby, tabby cat") = "tabby".
Proof. reflexivity. Qed.

Example decimal_digits : Js.decimal 120 = "120" /\ Js.decimal 3 = "3" /\ Js.decimal 0 = "0".
Proof. repeat split; reflexivity. Qed.

(** ** The sort keeps the elements it is given *)

Section SortFacts.

Context {A : Type}.
Variable comparefn : A -> A -> float.

Lemma insert_length (x : A) (l : list A) :
  List.length (insert comparefn x l) = S (List.length l).
Proof.
  induction l as [| y l IH]; simpl.
  - reflexivity.
  - destruct (Js.gtb (sortCompare comparefn x y) 0); simpl; [rewrite IH |]; reflexivity.
Qed.

Lemma Array_sort_length (l : list A) :
  List.length (Array_sort comparefn l) = List.length l.
Proof.
  unfold Array_sort. induction l as [| x l IH]; simpl.
  - reflexivity.
  - rewrite insert_length, IH. reflexivity.
Qed.

Lemma insert_In (x z : A) (l : list A) :
  In z (insert comparefn x l) <-> z = x \/ In z l.
Proof.
  induction l as [| y l IH]; simpl.
  - intuition.
  - destruct (Js.gtb (sortCompare comparefn x y) 0); simpl; rewrite ?IH; intuition.
Qed.

Lemma Array_sort_In (z : A) (l : list A) :
  In z (Array_sort comparefn l) <-> In z l.
Proof.
  unfold Array_sort. induction l as [| x l IH]; simpl.
  - tauto.
  - rewrite insert_In, IH. intuition.
Qed.

End SortFacts.

Lemma mapi_from_length {A B} (f : A -> nat -> B) (l : list A) (i : nat) :
  List.length (mapi_from f i l) = List.length l.
Proof.
  revert i. induction l as [| x l IH]; intro i; simpl; [| rewrite IH]; reflexivity.
Qed.

Lemma ranks_from (rt : Runtime) (l : list Enriched.t) (i : nat) :
  map Recommendation.rank (mapi_from (toRecommendation rt) i l)
  = seq (i + 1) (List.length l).
Proof.
  revert i. induction l as [| x l IH]; intro i; simpl.
  - reflexivity.
  - rewrite IH. f_equal.
Qed.

Lemma ranked_length (rt : Runtime) (latitude longitude : Js.value)
    (products : list Products.t) :
  List.length (ranked rt latitude longitude products) = Nat.min 3 (List.length products).
Proof.
  unfold ranked, mapi.
  rewrite mapi_from_length, length_firstn, Array_sort_length, length_map.
  reflexivity.
Qed.

(** C2. For every list of candidate products, the deterministic ranking
    returns [min 3 n] recommendations, where [n] is the number of
    candidates, and their ranks are [1, 2, ..., length], in this order. *)
Theorem deterministic_ranking_length_and_ranks
    (rt : Runtime) (query latitude longitude : Js.value) (products : list Products.t) :
  let recs := recommendations (rankLocally rt query latitude longitude products) in
  List.length recs = Nat.min 3 (List.length products)
  /\ map Recommendation.rank recs = seq 1 (List.length recs).
Proof.
  cbn zeta. unfold rankLocally; cbn [recommendations]. split.
  - apply ranked_length.
  - unfold ranked, mapi. rewrite ranks_from, mapi_from_length. reflexivity.
Qed.

(** With local ranking switched on, [findProducts] ends in the
    deterministic ranking of the products found. *)
Lemma rank_local (env : Env) (query latitude longitude : Js.value)
    (products : list Products.t) :
  USE_LOCAL_RANKING env = true ->
  rank env query latitude longitude products
  = ret (Built (rankLocally (runtime env) query latitude longitude products)).
Proof.
  intro H. unfold rank. rewrite H. reflexivity.
Qed.

(** ** Ties between candidates without a distance or without a price *)

Lemma distanceKm_missing_shop (rt : Runtime) (lat1 lon1 lat2 lon2 : Js.value) :
  Js.nullish lat2 = true \/ Js.nullish lon2 = true ->
  Geo.distanceKm rt lat1 lon1 lat2 lon2 = infinity.
Proof.
  intros [H | H]; unfold Geo.distanceKm; rewrite H;
    rewrite ?orb_true_r; reflexivity.
Qed.

Lemma enrich_missing_shop (rt : Runtime) (latitude longitude : Js.value)
    (p : Products.t) :
  Products.shops p = None ->
  enrich rt latitude longitude p
  = Enriched.mk (Products.name p)
      (Js.safeNumber (Products.price p) infinity)
      (Js.safeNumber (Products.rating p) 0)
      "Unknown Shop" None None infinity.
Proof.
  intro H. unfold enrich, shopField. rewrite H.
  rewrite distanceKm_missing_shop by (left; reflexivity). reflexivity.
Qed.

(** The comparison of two candidates at distance [Infinity] is
    [Infinity - Infinity], that is NaN, whatever their prices; so is the
    comparison of two candidates at one finite distance whose prices are
    both [Infinity]. The sort reads NaN as a tie. *)
Example compare_without_distance :
  let a := Enriched.mk "a" 200 4 "s" None None infinity in
  let b := Enriched.mk "b" 100 4 "s" None None infinity in
  Js.is_nan (compareEnriched a b) = true
  /\ Js.is_nan (compareEnriched b a) = true
  /\ Array_sort compareEnriched [a; b] = [a; b].
Proof. vm_compute. repeat split; reflexivity. Qed.

Example compare_without_price :
  let a := Enriched.mk "a" infinity 3 "s" None None 2.5 in
  let b := Enriched.mk "b" infinity 5 "s" None None 2.5 in
  Js.is_nan (compareEnriched a b) = true
  /\ Js.is_nan (compareEnriched b a) = true
  /\ Array_sort compareEnriched [a; b] = [a; b].
Proof. vm_compute. repeat split; reflexivity. Qed.

(** On candidates with distinct finite keys the comparison orders by
    distance, then price, then rating (the higher first). *)
Example compare_three_keys :
  let near := Enriched.mk "near" 300 1 "s" None None 1.5 in
  let cheap := Enriched.mk "cheap" 100 1 "s" None None 2.5 in
  let good := Enriched.mk "good" 200 5 "s" None None 2.5 in
  let poor := Enriched.mk "poor" 200 2 "s" None None 2.5 in
  let unpriced := Enriched.mk "unpriced" infinity 5 "s" None None 2.5 in
  let far := Enriched.mk "far" 1 5 "s" None None infinity in
  Array_sort compareEnriched [far; unpriced; poor; good; cheap; near]
  = [near; cheap; good; poor; unpriced; far].
Proof. vm_compute. reflexivity. Qed.

(** ** No shop in range *)

(** C9. When the shop lookup reports no error and no shop ([null] or an
    empty array), [findProducts] returns the fixed summary with no
    recommendation, and the shop lookup is the only call it made; so does
    the first iteration of [findProducts]. *)
Theorem no_shops_nearby
    (env : Env) (query latitude longitude : Js.value) :
  error (nearby_shops env latitude longitude) = None ->
  data (nearby_shops env latitude longitude) = None
  \/ data (nearby_shops env latitude longitude) = Some [] ->
  findProducts env query latitude longitude
  = ([CallNearbyShops latitude longitude],
     Return (Built (mkResult "No shops found near your location." [])))
  /\ V1.findProducts env query latitude longitude
     = ([CallNearbyShops latitude longitude],
        Return (Built (mkResult "No shops found near your location." []))).
Proof.
  intros He Hd. unfold findProducts, V1.findProducts, bind, call.
  rewrite He. destruct Hd as [Hd | Hd]; rewrite Hd; split; reflexivity.
Qed.

Lemma no_shops_nearby_witness :
  findProducts Sample.deserted (Js.Str "burger") (Js.Num 12.97) (Js.Num 77.59)
  = ([CallNearbyShops (Js.Num 12.97) (Js.Num 77.59)],
     Return (Built (mkResult "No shops found near your location." [])))
  /\ V1.findProducts Sample.deserted (Js.Str "burger") (Js.Num 12.97) (Js.Num 77.59)
     = ([CallNearbyShops (Js.Num 12.97) (Js.Num 77.59)],
        Return (Built (mkResult "No shops found near your location." []))).
Proof.
  apply (no_shops_nearby Sample.deserted).
  - reflexivity.
  - right. reflexivity.
Defined.

(** ** Required inputs are tested for truthiness *)

Lemma zero_is_falsy : Js.truthy (Js.Num 0) = false.
Proof. reflexivity. Qed.

(** C10. A text search whose latitude or longitude is the number 0, or
    whose query is the empty string, is answered 400 with the
    missing-input message before any collaborator is called, as it is when
    the field is absent; an image search with a file and a zero latitude
    or longitude likewise (without a file the answer is the 400 of the
    missing file either way). *)
Theorem falsy_inputs_are_rejected
    (env : Env) (query latitude longitude : Js.value) (imageFile : File) :
  let missing :=
    ([], Return (mkResponse 400
                   (ErrorBody "Query, latitude, and longitude are required."))) in
  let missingPlace :=
    ([], Return (mkResponse 400 (ErrorBody "latitude and longitude are required."))) in
  (aiSearch env query (Js.Num 0) longitude = missing
   /\ aiSearch env query latitude (Js.Num 0) = missing
   /\ aiSearch env (Js.Str "") latitude longitude = missing)
  /\ (aiSearch env query Js.Undefined longitude = missing
      /\ aiSearch env query latitude Js.Undefined = missing
      /\ aiSearch env Js.Undefined latitude longitude = missing)
  /\ (searchByImage env (Some imageFile) (Js.Num 0) longitude = missingPlace
      /\ searchByImage env (Some imageFile) latitude (Js.Num 0) = missingPlace)
  /\ (searchByImage env (Some imageFile) Js.Undefined longitude = missingPlace
      /\ searchByImage env (Some imageFile) latitude Js.Undefined = missingPlace)
  /\ searchByImage env None (Js.Num 0) longitude
     = searchByImage env None Js.Undefined longitude.
Proof.
  cbn zeta. unfold aiSearch, searchByImage.
  repeat split;
    try (destruct (Js.truthy query));
    try (destruct (Js.truthy latitude));
    try (destruct (Js.truthy longitude)); reflexivity.
Qed.

(** The coordinates of a point on the equator pass the test when they
    arrive as text, as the fields of a multipart form do. *)
Example zero_as_text_is_accepted : Js.truthy (Js.Str "0") = true.
Proof. reflexivity. Qed.

(** ** The AI judgment and its fallback *)

Lemma ask_fails (env : Env) (prompt : Prompt) :
  aiFails env prompt ->
  exists e, askModel env prompt = ([CallGenerate prompt], Throw e).
Proof.
  unfold aiFails, askModel, attempt, bind.
  destruct (generateContent env prompt) as [| text].
  - intros _. exists ProviderError. reflexivity.
  - intro H. rewrite H. exists SyntaxError. reflexivity.
Qed.

Lemma rank_after_failure (env : Env) (query latitude longitude : Js.value)
    (products : list Products.t) :
  USE_LOCAL_RANKING env = false ->
  aiFails env (RankingPrompt (ToString (runtime env) query) (contextForAI products)) ->
  rank env query latitude longitude products
  = ([CallGenerate (RankingPrompt (ToString (runtime env) query)
                      (contextForAI products))],
     Return (Built (rankLocally (runtime env) query latitude longitude products))).
Proof.
  intros Hl Hf. unfold rank. rewrite Hl. cbn [negb].
  destruct (ask_fails env _ Hf) as [e He]. rewrite He. reflexivity.
Qed.

(** C3. When the AI judgment fails (the provider throws, or its reply
    does not parse after the code fences are stripped), the ranking step
    returns, and does not throw, the result of the deterministic ranking of
    the same products, and [findProducts] ends as it does with local
    ranking switched on. *)
Theorem ai_failure_falls_back
    (env : Env) (query latitude longitude : Js.value) :
  USE_LOCAL_RANKING env = false ->
  (forall prompt, aiFails env prompt) ->
  (forall products,
     rank env query latitude longitude products
     = ([CallGenerate (RankingPrompt (ToString (runtime env) query)
                         (contextForAI products))],
        Return (Built (rankLocally (runtime env) query latitude longitude products))))
  /\ outcome (findProducts env query latitude longitude)
     = outcome (findProducts (withLocalRanking env) query latitude longitude).
Proof.
  intros Hl Hf. split.
  - intro products. apply rank_after_failure; auto.
  - unfold findProducts, bind, call, outcome, hasQuery.
    cbn [withLocalRanking nearby_shops products_in runtime].
    destruct (error (nearby_shops env latitude longitude)); [reflexivity |].
    destruct (data (nearby_shops env latitude longitude)) as [[| s shops] |];
      try reflexivity.
    match goal with
    | |- context [products_in env ?ids ?pat] =>
        destruct (error (products_in env ids pat)); [reflexivity |];
        destruct (data (products_in env ids pat)) as [[| p products] |];
        try reflexivity
    end.
    rewrite rank_after_failure by auto.
    rewrite rank_local by reflexivity.
    reflexivity.
Qed.

Lemma ai_failure_falls_back_witness :
  (forall products,
     rank Sample.chatty (Js.Str "burger") (Js.Num 12.97) (Js.Num 77.59) products
     = ([CallGenerate (RankingPrompt "burger" (contextForAI products))],
        Return (Built (rankLocally Sample.engine (Js.Str "burger")
                         (Js.Num 12.97) (Js.Num 77.59) products))))
  /\ outcome (findProducts Sample.chatty (Js.Str "burger") (Js.Num 12.97) (Js.Num 77.59))
     = outcome (findProducts (withLocalRanking Sample.chatty) (Js.Str "burger")
                  (Js.Num 12.97) (Js.Num 77.59)).
Proof.
  apply (ai_failure_falls_back Sample.chatty).
  - reflexivity.
  - intro prompt. reflexivity.
Defined.

(** ** TrendAdvisor: the classification *)

Lemma classify_cases (latestPrice avg : float) :
  (Trend.classify latestPrice avg = "Rising"
   <-> Js.gtb latestPrice (avg * 1.05) = true)
  /\ (Trend.classify latestPrice avg = "Falling"
      <-> Js.gtb latestPrice (avg * 1.05) = false
          /\ (latestPrice <? avg * 0.95)%float = true)
  /\ (Trend.classify latestPrice avg = "Stable"
      <-> Js.gtb latestPrice (avg * 1.05) = false
          /\ (latestPrice <? avg * 0.95)%float = false).
Proof.
  unfold Trend.classify.
  destruct (Js.gtb latestPrice (avg * 1.05));
    destruct (latestPrice <? avg * 0.95)%float;
    repeat split; intros; try discriminate; intuition discriminate.
Qed.

(** C4, against the claim as stated. With the history [-100, -100]
    (newest first) the newest price is below 0.95 times the older mean
    (-100 < -95), and above 1.05 times it as well (-100 > -105): the trend
    is "Rising", not "Falling". *)
Lemma falling_test_alone_does_not_decide :
  ~ (Trend.internalTrend (Trend.rows [-100; -100]%float) = "Falling"
     <-> ((-100) <? Trend.avgOldPrice (Trend.rows [-100]%float) * 0.95)%float = true).
Proof.
  intros [_ H].
  assert (E : Trend.internalTrend (Trend.rows [-100; -100]%float) = "Rising")
    by (vm_compute; reflexivity).
  rewrite E in H. discriminate H. vm_compute. reflexivity.
Qed.

(** C4, amended. A history with fewer than two observations is
    "Insufficient Data". With at least two, where [mean] is the mean of the
    observations after the newest: the trend is "Rising" exactly when
    newest > mean * 1.05; "Falling" exactly when that test fails and
    newest < mean * 0.95; "Stable" exactly when both tests fail. The
    history [110, 100, 100] is "Rising". *)
Theorem trend_classification :
  Trend.internalTrend [] = "Insufficient Data"
  /\ (forall p, Trend.internalTrend [p] = "Insufficient Data")
  /\ (forall newest p older,
        let mean := Trend.avgOldPrice (p :: older) in
        let trend := Trend.internalTrend (newest :: p :: older) in
        (trend = "Rising" <-> Js.gtb (price newest) (mean * 1.05) = true)
        /\ (trend = "Falling"
            <-> Js.gtb (price newest) (mean * 1.05) = false
                /\ (price newest <? mean * 0.95)%float = true)
        /\ (trend = "Stable"
            <-> Js.gtb (price newest) (mean * 1.05) = false
                /\ (price newest <? mean * 0.95)%float = false))
  /\ Trend.avgOldPrice (Trend.rows [100; 100]%float) = 100%float
  /\ Trend.internalTrend (Trend.rows [110; 100; 100]%float) = "Rising".
Proof.
  split; [reflexivity |]. split; [reflexivity |]. split.
  - intros newest p older. cbn zeta.
    change (Trend.internalTrend (newest :: p :: older))
      with (Trend.classify (price newest) (Trend.avgOldPrice (p :: older))).
    apply classify_cases.
  - split; vm_compute; reflexivity.
Qed.

(** The handler reports the classification of the rows it read. *)
Example trend_of_sample_history :
  Trend.analyze (Some Sample.priceHistory) = ("Rising", Some 110%float).
Proof. vm_compute. reflexivity. Qed.

(** ** TrendAdvisor: the rule-based fallback *)

(** C5, against the claim as stated. With trend "Rising", internal price 0
    and external price 100 the internal price is below the external one,
    and the verdict is "HOLD": a price of zero does not pass the test
    [internalPrice && ...]. The history [0, -10] produces this case. *)
Lemma rising_below_market_may_hold :
  Trend.analyze (Some (Trend.rows [0; -10]%float)) = ("Rising", Some 0%float)
  /\ (0 <? 100)%float = true
  /\ Trend.prediction (Trend.ruleFallback "Rising" (Some 0%float) 100) = "HOLD".
Proof. vm_compute. repeat split; reflexivity. Qed.

Lemma prediction_by_tests (trend : string) (internalPrice : option float) (ext : float) :
  Trend.prediction (Trend.ruleFallback trend internalPrice ext)
  = if Trend.buyTest trend internalPrice ext then "BUY"
    else if Trend.sellTest trend internalPrice ext then "SELL" else "HOLD".
Proof.
  unfold Trend.ruleFallback.
  destruct (Trend.buyTest trend internalPrice ext); [reflexivity |].
  destruct (Trend.sellTest trend internalPrice ext); reflexivity.
Qed.

Lemma buyTest_iff (trend : string) (internalPrice : option float) (ext : float) :
  Trend.buyTest trend internalPrice ext = true
  <-> trend = "Rising"
      /\ exists p, internalPrice = Some p /\ Js.truthy (Js.Num p) = true
                   /\ (p <? ext)%float = true.
Proof.
  unfold Trend.buyTest. rewrite !andb_true_iff, String.eqb_eq. split.
  - intros [[Ht Hp] Hl]. split; [exact Ht |].
    destruct internalPrice as [p |]; [| discriminate Hp].
    exists p. auto.
  - intros (Ht & p & -> & Hp & Hl). auto.
Qed.

Lemma sellTest_iff (trend : string) (internalPrice : option float) (ext : float) :
  Trend.sellTest trend internalPrice ext = true
  <-> trend = "Falling"
      /\ exists p, internalPrice = Some p /\ Js.truthy (Js.Num p) = true
                   /\ Js.gtb p ext = true.
Proof.
  unfold Trend.sellTest. rewrite !andb_true_iff, String.eqb_eq. split.
  - intros [[Ht Hp] Hl]. split; [exact Ht |].
    destruct internalPrice as [p |]; [| discriminate Hp].
    exists p. auto.
  - intros (Ht & p & -> & Hp & Hl). auto.
Qed.

Lemma tests_exclusive (trend : string) (internalPrice : option float) (ext : float) :
  Trend.buyTest trend internalPrice ext = true -> Trend.sellTest trend internalPrice ext = false.
Proof.
  intro H. apply buyTest_iff in H. destruct H as [-> _]. reflexivity.
Qed.

(** C5, amended. The verdict is "BUY" exactly when the trend is "Rising"
    and the internal price is present, neither zero nor NaN, and below the
    external price; it is "SELL" exactly when the trend is "Falling" and
    the internal price is present, neither zero nor NaN, and above the
    external price; it is "HOLD" in every other case. The two tests cannot
    both pass, so their order does not show. In particular "Stable" gives
    "HOLD" whatever the prices, (Rising, 90, 100) gives "BUY" and
    (Falling, 110, 100) gives "SELL". *)
Theorem rule_fallback_verdict
    (trend : string) (internalPrice : option float) (externalPrice : float) :
  let verdict := Trend.prediction (Trend.ruleFallback trend internalPrice externalPrice) in
  (verdict = "BUY"
   <-> trend = "Rising"
       /\ exists p, internalPrice = Some p /\ Js.truthy (Js.Num p) = true
                    /\ (p <? externalPrice)%float = true)
  /\ (verdict = "SELL"
      <-> trend = "Falling"
          /\ exists p, internalPrice = Some p /\ Js.truthy (Js.Num p) = true
                       /\ Js.gtb p externalPrice = true)
  /\ (verdict = "HOLD"
      <-> Trend.buyTest trend internalPrice externalPrice = false
          /\ Trend.sellTest trend internalPrice externalPrice = false)
  /\ Trend.prediction (Trend.ruleFallback "Stable" internalPrice externalPrice) = "HOLD"
  /\ Trend.prediction (Trend.ruleFallback "Rising" (Some 90%float) 100) = "BUY"
  /\ Trend.prediction (Trend.ruleFallback "Falling" (Some 110%float) 100) = "SELL".
Proof.
  cbn zeta. rewrite <- buyTest_iff, <- sellTest_iff, prediction_by_tests.
  pose proof (tests_exclusive trend internalPrice externalPrice) as Hx.
  destruct (Trend.buyTest trend internalPrice externalPrice);
    [rewrite Hx by reflexivity
    | destruct (Trend.sellTest trend internalPrice externalPrice)];
    (repeat split; intros; try discriminate; try reflexivity;
     try (intuition discriminate)).
Qed.

(** ** ImageIntentResolver *)

Ltac split_ifs :=
  repeat match goal with
         | |- context [if ?c then _ else _] => destruct c
         end.

(** The lexicons answer with a category name or with nothing. *)
Lemma mapLabelToQuery_truthy (text : string) :
  mapLabelToQuery text = None \/ strTruthy (mapLabelToQuery text) = true.
Proof. unfold mapLabelToQuery. split_ifs; auto. Qed.

Lemma cocoToQuery_truthy (name : string) :
  cocoToQuery name = None \/ strTruthy (cocoToQuery name) = true.
Proof. unfold cocoToQuery. split_ifs; auto. Qed.

Lemma firstGuess_truthy (predictions : list Prediction) :
  firstGuess predictions = None \/ strTruthy (firstGuess predictions) = true.
Proof.
  induction predictions as [| p ps IH]; simpl; [auto |].
  destruct (strTruthy (mapLabelToQuery (className p))) eqn:E; auto.
Qed.

Lemma firstDetected_truthy (detections : list Detection) :
  firstDetected detections = None \/ strTruthy (firstDetected detections) = true.
Proof.
  induction detections as [| d ds IH]; simpl; [auto |].
  destruct (lowScore d); [exact IH |].
  destruct (strTruthy (cocoToQuery (class d))) eqn:E; auto.
Qed.

(** Trying the top label and then every label in turn is trying every
    label in turn. *)
Lemma top_then_all (predictions : option (list Prediction)) :
  strTruthy (mapLabelToQuery (topLabel predictions)) = true ->
  firstGuess (orEmpty predictions) = mapLabelToQuery (topLabel predictions).
Proof.
  destruct predictions as [[| p ps] |]; simpl; try discriminate.
  intro H. rewrite H. reflexivity.
Qed.


Lemma truthy_some (o : option string) :
  strTruthy o = true -> exists s, o = Some s.
Proof. destruct o as [s |]; [eauto | discriminate]. Qed.

Lemma localTiers_result (env : Env) (imageFile : File) :
  exists t, localTiers env imageFile (mkVars None [])
            = (t, localResult env imageFile, Return tt).
Proof.
  unfold localTiers, localResult, tierTerm.
  unfold pbind at 1. cbn [getFood identifiedFood strTruthy negb].
  unfold ptry, localBody.
  unfold pbind, plift, attempt, setPredictions, setFood, getFood, pret.
  destruct (ensureLocalClassifierLoaded env) as [| []]; cbn [fst snd]; [eauto |].
  destruct (classify env imageFile) as [| predictions]; cbn [fst snd]; [eauto |].
  cbn [identifiedFood classifierPredictions].
  pose proof (top_then_all predictions) as Htg.
  destruct (mapLabelToQuery_truthy (topLabel predictions)) as [Htop | Htop].
  - clear Htg. rewrite Htop. cbn [strTruthy negb].
    destruct (firstGuess_truthy (orEmpty predictions)) as [Hg | Hg].
    + rewrite Hg. cbn [strTruthy negb identifiedFood classifierPredictions].
      destruct (detect env imageFile) as [| detections]; cbn [fst snd]; [eauto |].
      destruct (firstDetected_truthy (orEmpty detections)) as [Hd | Hd].
      * rewrite Hd. cbn [strTruthy negb identifiedFood classifierPredictions].
        destruct predictions as [[| p ps] |];
          cbn [strTruthy negb identifiedFood classifierPredictions orEmpty rawLabel];
          eauto.
      * rewrite Hd. destruct (truthy_some _ Hd) as [term Et]. rewrite Et in *.
        cbn [identifiedFood classifierPredictions].
        destruct predictions as [[| p ps] |];
          cbn [identifiedFood classifierPredictions orEmpty]; rewrite ?Hd;
          cbn [negb]; eauto.
    + rewrite Hg. destruct (truthy_some _ Hg) as [term Et]. rewrite Et in *.
      cbn [identifiedFood classifierPredictions]. rewrite Hg. cbn [negb].
      destruct predictions as [[| p ps] |];
        cbn [identifiedFood classifierPredictions orEmpty]; rewrite ?Hg;
        cbn [negb]; eauto.
  - rewrite (Htg Htop). rewrite Htop.
    destruct (truthy_some _ Htop) as [term Et]. rewrite Et in *.
    cbn [negb identifiedFood classifierPredictions]. rewrite Htop. cbn [negb].
    destruct predictions as [[| p ps] |];
      cbn [identifiedFood classifierPredictions orEmpty]; rewrite ?Htop;
      cbn [negb]; eauto.
Qed.

(** The vision tier, when the key is missing or the provider throws,
    assigns nothing. *)
Lemma visionTier_fails (env : Env) (imageFile : File) (v : Vars) :
  geminiApiKey env = false \/ generateContent env (VisionPrompt imageFile) = Fails ->
  exists t, visionTier env imageFile v = (t, v, Return tt).
Proof.
  unfold visionTier. destruct (geminiApiKey env); cbn [negb].
  - intros [H | H]; [discriminate H |].
    unfold ptry, pbind, plift, attempt, pret. rewrite H. cbn. eauto.
  - intros _. unfold pret. eauto.
Qed.

Lemma resolveImage_without_vision (env : Env) (imageFile : File) :
  geminiApiKey env = false \/ generateContent env (VisionPrompt imageFile) = Fails ->
  exists t, resolveImage env imageFile = (t, Return (localResult env imageFile)).
Proof.
  intro H. unfold resolveImage, run, pbind.
  destruct (visionTier_fails env imageFile (mkVars None []) H) as [t1 E1].
  destruct (localTiers_result env imageFile) as [t2 E2].
  rewrite E1, E2. eauto.
Qed.

(** [findProducts] throws nothing but the errors of its two storage
    calls. *)
Lemma rank_returns (env : Env) (query latitude longitude : Js.value)
    (products : list Products.t) :
  exists t r, rank env query latitude longitude products = (t, Return r).
Proof.
  unfold rank. destruct (USE_LOCAL_RANKING env); cbn [negb].
  - unfold ret. eauto.
  - destruct (askModel env _) as [t [r | e]]; cbn; unfold ret; eauto.
Qed.

Lemma findProducts_throws (env : Env) (query latitude longitude : Js.value)
    (t : list Event) (e : Exn) :
  findProducts env query latitude longitude = (t, Throw e) ->
  exists msg, e = DbError msg.
Proof.
  unfold findProducts, bind, call.
  destruct (error (nearby_shops env latitude longitude)) as [msg |].
  - intro H. injection H as _ <-. eauto.
  - destruct (data (nearby_shops env latitude longitude)) as [[| s shops] |];
      try (intro H; discriminate H).
    match goal with
    | |- context [products_in env ?ids ?pat] =>
        destruct (error (products_in env ids pat)) as [msg |];
        [ intro H; injection H as _ <-; eauto |];
        destruct (data (products_in env ids pat)) as [[| p products] |];
        try (intro H; discriminate H)
    end.
    match goal with
    | |- context [rank env ?q ?la ?lo ?ps] =>
        destruct (rank_returns env q la lo ps) as (t' & r & E); rewrite E
    end.
    intro H. discriminate H.
Qed.

(** The handler, once the request is well-formed and the tiers have run. *)
Lemma searchByImage_after_resolution
    (env : Env) (imageFile : File) (latitude longitude : Js.value)
    (t : list Event) (v : Vars) :
  Js.truthy latitude = true -> Js.truthy longitude = true ->
  resolveImage env imageFile = (t, Return v) ->
  searchByImage env (Some imageFile) latitude longitude
  = match findProducts env (Js.Str (searchTerm v)) latitude longitude with
    | (t1, Return r) =>
        (t ++ t1,
         Return (mkResponse 200 (ImageBody (detectedLabel v) (classifierPredictions v) r)))
    | (t1, Throw _) =>
        match findProducts env (Js.Str "Burger") latitude longitude with
        | (t2, Return r) => (t ++ t1 ++ t2, Return (mkResponse 200 (SearchBody r)))
        | (t2, Throw _) =>
            (t ++ t1 ++ t2,
             Return (mkResponse 500
                       (ErrorBody "An internal error occurred during image search.")))
        end
    end.
Proof.
  intros Hla Hlo Hr. unfold searchByImage. rewrite Hla, Hlo, Hr. cbn [negb orb].
  cbv beta iota zeta delta [bind try_catch ret].
  generalize (findProducts env (Js.Str "Burger") latitude longitude) as fallback.
  generalize (findProducts env (Js.Str (searchTerm v)) latitude longitude) as search.
  intros [t1 [r | e]] [t2 [r' | e']];
    rewrite ?app_nil_r, ?app_assoc; reflexivity.
Qed.



(** On the sample deployment the faint pizza is passed over and the hot
    dog decides: the term is "Burger". *)
Example vision_down_resolution :
  resolveImage Sample.visionDown Sample.image
  = ([CallGenerate (VisionPrompt Sample.image); CallLoadModels;
      CallClassify Sample.image; CallDetect Sample.image],
     Return (mkVars (Some "Burger")
               [mkPrediction "plate, dish" 0.6; mkPrediction "table" 0.2])).
Proof. vm_compute. reflexivity. Qed.

(** ** No tier produces a term *)

Lemma falsy_term (v : Vars) :
  strTruthy (identifiedFood v) = false -> searchTerm v = "" /\ detectedLabel v = None.
Proof.
  unfold searchTerm, detectedLabel.
  destruct (identifiedFood v) as [s |]; cbn; [| auto].
  destruct (String.eqb s "") eqn:E; cbn; [| discriminate].
  apply String.eqb_eq in E. subst s. auto.
Qed.

(** C8, against the claim as stated. On the sample deployment (no API
    key, no local models) every tier fails and the term is [null]; the one
    product query that follows carries no name filter, and the tea of the
    catalogue is among the recommendations: the search was not made for
    "Burger". *)
Lemma unresolved_image_is_not_searched_as_burger :
  let request :=
    searchByImage Sample.offline (Some Sample.image) (Js.Num 12.97) (Js.Num 77.59) in
  resolveImage Sample.offline Sample.image = ([CallLoadModels], Return (mkVars None []))
  /\ trace request
     = [CallLoadModels; CallNearbyShops (Js.Num 12.97) (Js.Num 77.59);
        CallProducts [1; 2] None]
  /\ ~ In (CallProducts [1; 2] (Some "%Burger%")) (trace request)
  /\ match outcome request with
     | Return (mkResponse 200 (ImageBody None [] (Built r))) =>
         map Recommendation.product_name (recommendations r)
         = ["Cheese Burger"; "Masala Tea"; "Veg Burger"]
     | _ => False
     end.
Proof.
  cbn zeta.
  assert (E : trace (searchByImage Sample.offline (Some Sample.image)
                       (Js.Num 12.97) (Js.Num 77.59))
              = [CallLoadModels; CallNearbyShops (Js.Num 12.97) (Js.Num 77.59);
                 CallProducts [1; 2] None])
    by (vm_compute; reflexivity).
  split; [vm_compute; reflexivity |]. split; [exact E |]. split.
  - rewrite E. simpl. intros [H | [H | [H | H]]]; try discriminate H; exact H.
  - vm_compute. reflexivity.
Qed.

(** C8, amended. When the tiers end without a term, the handler searches
    with the empty term, which applies no name filter, and answers 200
    with [detected_label] null and the classifier's predictions; the fixed
    term "Burger" is searched for only when that search throws. *)
Theorem unresolved_image_searches_unfiltered
    (env : Env) (imageFile : File) (latitude longitude : Js.value)
    (t : list Event) (v : Vars) :
  Js.truthy latitude = true -> Js.truthy longitude = true ->
  resolveImage env imageFile = (t, Return v) ->
  strTruthy (identifiedFood v) = false ->
  hasQuery env (Js.Str "") = false
  /\ searchByImage env (Some imageFile) latitude longitude
     = match findProducts env (Js.Str "") latitude longitude with
       | (t1, Return r) =>
           (t ++ t1, Return (mkResponse 200 (ImageBody None (classifierPredictions v) r)))
       | (t1, Throw _) =>
           match findProducts env (Js.Str "Burger") latitude longitude with
           | (t2, Return r) => (t ++ t1 ++ t2, Return (mkResponse 200 (SearchBody r)))
           | (t2, Throw _) =>
               (t ++ t1 ++ t2,
                Return (mkResponse 500
                          (ErrorBody "An internal error occurred during image search.")))
           end
       end.
Proof.
  intros Hla Hlo Hr Hf. split; [reflexivity |].
  destruct (falsy_term v Hf) as [Es El].
  rewrite (searchByImage_after_resolution env imageFile latitude longitude t v Hla Hlo Hr).
  rewrite Es, El. reflexivity.
Qed.

Lemma unresolved_image_searches_unfiltered_witness :
  hasQuery Sample.offline (Js.Str "") = false
  /\ searchByImage Sample.offline (Some Sample.image) (Js.Num 12.97) (Js.Num 77.59)
     = match findProducts Sample.offline (Js.Str "") (Js.Num 12.97) (Js.Num 77.59) with
       | (t1, Return r) =>
           ([CallLoadModels] ++ t1, Return (mkResponse 200 (ImageBody None [] r)))
       | (t1, Throw _) =>
           match findProducts Sample.offline (Js.Str "Burger")
                   (Js.Num 12.97) (Js.Num 77.59) with
           | (t2, Return r) =>
               ([CallLoadModels] ++ t1 ++ t2, Return (mkResponse 200 (SearchBody r)))
           | (t2, Throw _) =>
               ([CallLoadModels] ++ t1 ++ t2,
                Return (mkResponse 500
                          (ErrorBody "An internal error occurred during image search.")))
           end
       end.
Proof.
  apply (unresolved_image_searches_unfiltered Sample.offline Sample.image
           (Js.Num 12.97) (Js.Num 77.59) [CallLoadModels] (mkVars None [])).
  - reflexivity.
  - reflexivity.
  - vm_compute. reflexivity.
  - reflexivity.
Defined.

(** The fixed term is used by the catch block: when the storage fails on
    the first search, the handler searches for "Burger". *)
Lemma burger_is_the_catch_fallback
    (env : Env) (imageFile : File) (latitude longitude : Js.value)
    (t t1 t2 : list Event) (v : Vars) (e : Exn) (r : FindResult) :
  Js.truthy latitude = true -> Js.truthy longitude = true ->
  resolveImage env imageFile = (t, Return v) ->
  findProducts env (Js.Str (searchTerm v)) latitude longitude = (t1, Throw e) ->
  findProducts env (Js.Str "Burger") latitude longitude = (t2, Return r) ->
  searchByImage env (Some imageFile) latitude longitude
  = (t ++ t1 ++ t2, Return (mkResponse 200 (SearchBody r))).
Proof.
  intros Hla Hlo Hr H1 H2.
  rewrite (searchByImage_after_resolution env imageFile latitude longitude t v Hla Hlo Hr).
  rewrite H1, H2. reflexivity.
Qed.

(** ** Facts of binary64 arithmetic

    Derived from the specification of the primitive operations on
    [SpecFloat]: rounding does not look at the sign, so negation commutes
    with multiplication and division, and swapping the operands of a
    subtraction negates the result unless it is [+0] or NaN. *)

Module FloatFacts.

Local Open Scope float_scope.

Lemma SFopp_involutive (x : spec_float) : SFopp (SFopp x) = x.
Proof. destruct x; simpl; rewrite ?negb_involutive; reflexivity. Qed.

Lemma binary_round_aux_opp (s : bool) (m e : Z) (l : location) :
  binary_round_aux prec emax (negb s) m e l
  = SFopp (binary_round_aux prec emax s m e l).
Proof.
  unfold binary_round_aux.
  destruct (shr_fexp prec emax m e l) as [mrs' e'].
  destruct (shr_fexp prec emax _ e' loc_Exact) as [mrs'' e''].
  destruct (shr_m mrs''); try reflexivity.
  destruct (e'' <=? emax - prec)%Z; reflexivity.
Qed.

Lemma binary_round_opp (s : bool) (m : positive) (e : Z) :
  binary_round prec emax (negb s) m e = SFopp (binary_round prec emax s m e).
Proof.
  unfold binary_round.
  destruct (shl_align m e _) as [mz ez]. apply binary_round_aux_opp.
Qed.

Lemma negb_xorb_l (a b : bool) : xorb (negb a) b = negb (xorb a b).
Proof. destruct a, b; reflexivity. Qed.

Lemma negb_xorb_r (a b : bool) : xorb a (negb b) = negb (xorb a b).
Proof. destruct a, b; reflexivity. Qed.

Lemma SFmul_comm (x y : spec_float) : SF64mul x y = SF64mul y x.
Proof.
  destruct x as [sx | sx | | sx mx ex], y as [sy | sy | | sy my ey]; simpl;
    rewrite ?(xorb_comm sx sy); try reflexivity.
  rewrite (Pos.mul_comm mx my), (Z.add_comm ex ey). reflexivity.
Qed.

Lemma SFmul_opp_l (x y : spec_float) : SF64mul (SFopp x) y = SFopp (SF64mul x y).
Proof.
  destruct x as [sx | sx | | sx mx ex], y as [sy | sy | | sy my ey]; simpl;
    rewrite ?negb_xorb_l; try reflexivity.
  apply binary_round_aux_opp.
Qed.

Lemma SFdiv_opp_l (x y : spec_float) : SF64div (SFopp x) y = SFopp (SF64div x y).
Proof.
  destruct x as [sx | sx | | sx mx ex], y as [sy | sy | | sy my ey]; simpl;
    rewrite ?negb_xorb_l; try reflexivity.
  destruct (SFdiv_core_binary prec emax (Z.pos mx) ex (Z.pos my) ey) as [[mz ez] lz].
  apply binary_round_aux_opp.
Qed.

Lemma binary_normalize_opp (m e : Z) :
  m <> 0%Z ->
  binary_normalize prec emax (- m) e false
  = SFopp (binary_normalize prec emax m e false).
Proof.
  destruct m as [| p | p]; intro H; [congruence | |]; simpl.
  - apply (binary_round_opp false).
  - rewrite <- (binary_round_opp true). reflexivity.
Qed.

(** Swapping the operands of a subtraction. *)
Lemma SFsub_swap (x y : spec_float) :
  SF64sub y x = SFopp (SF64sub x y) \/ SF64sub y x = SF64sub x y.
Proof.
  destruct x as [sx | sx | | sx mx ex], y as [sy | sy | | sy my ey];
    try (left; reflexivity); try (right; reflexivity);
    try (destruct sx, sy; simpl; auto; fail).
  unfold SF64sub, SFsub. rewrite (Z.min_comm ey ex).
  set (ez := Z.min ex ey).
  set (a := cond_Zopp sx (Z.pos (fst (shl_align mx ex ez)))).
  set (b := cond_Zopp sy (Z.pos (fst (shl_align my ey ez)))).
  destruct (Z.eq_dec (a - b) 0) as [E | E].
  - right. replace (b - a)%Z with 0%Z by lia. rewrite E. reflexivity.
  - left. replace (b - a)%Z with (- (a - b))%Z by lia.
    apply binary_normalize_opp. exact E.
Qed.

Lemma SFsub_diag (x : spec_float) :
  (exists s, x = S754_zero s) \/ (exists s m e, x = S754_finite s m e) ->
  SF64sub x x = S754_zero false.
Proof.
  intros [[s ->] | (s & m & e & ->)].
  - destruct s; reflexivity.
  - unfold SF64sub, SFsub. rewrite Z.sub_diag. reflexivity.
Qed.

(** The same facts on the primitive type. *)

Lemma opp_involutive (x : float) : - - x = x.
Proof. apply Prim2SF_inj. rewrite !opp_spec. apply SFopp_involutive. Qed.

Lemma mul_comm (x y : float) : x * y = y * x.
Proof. apply Prim2SF_inj. rewrite !mul_spec. apply SFmul_comm. Qed.

Lemma mul_opp_l (x y : float) : (- x) * y = - (x * y).
Proof.
  apply Prim2SF_inj. rewrite opp_spec, !mul_spec, opp_spec. apply SFmul_opp_l.
Qed.

Lemma mul_opp_r (x y : float) : x * (- y) = - (x * y).
Proof. rewrite (mul_comm x (- y)), mul_opp_l, (mul_comm y x). reflexivity. Qed.

Lemma mul_opp_opp (x y : float) : (- x) * (- y) = x * y.
Proof. rewrite mul_opp_l, mul_opp_r. apply opp_involutive. Qed.

Lemma div_opp_l (x y : float) : (- x) / y = - (x / y).
Proof.
  apply Prim2SF_inj. rewrite opp_spec, !div_spec, opp_spec. apply SFdiv_opp_l.
Qed.

Lemma sub_swap (x y : float) : y - x = - (x - y) \/ y - x = x - y.
Proof.
  destruct (SFsub_swap (Prim2SF x) (Prim2SF y)) as [H | H]; [left | right];
    apply Prim2SF_inj; rewrite ?opp_spec, !sub_spec; exact H.
Qed.

(** A finite number, as [Number.isFinite] tests it, is a zero or a
    mantissa with an exponent. *)
Lemma isFinite_spec (x : float) :
  Js.isFinite x = true ->
  (exists s, Prim2SF x = S754_zero s) \/ (exists s m e, Prim2SF x = S754_finite s m e).
Proof.
  unfold Js.isFinite, Js.is_nan. rewrite !eqb_spec, abs_spec.
  destruct (Prim2SF x) as [s | s | | s m e]; simpl; eauto.
  - rewrite andb_false_r. discriminate.
  - discriminate.
Qed.

Lemma is_nan_spec (x : float) : Js.is_nan x = true -> Prim2SF x = S754_nan.
Proof.
  unfold Js.is_nan. rewrite eqb_spec. unfold SFeqb.
  destruct (Prim2SF x) as [s | s | | s m e]; simpl; try reflexivity.
  - discriminate.
  - destruct s; discriminate.
  - rewrite Z.compare_refl, Pos.compare_cont_refl. destruct s; discriminate.
Qed.

Lemma nan_nonzero (x : float) : Js.is_nan x = true -> Js.nonzero x = true.
Proof.
  intro H. unfold Js.nonzero. rewrite eqb_spec, (is_nan_spec x H). reflexivity.
Qed.

(** [x - x] is [+0], or NaN when [x] is not finite. *)
Lemma sub_self (x : float) : x - x = 0 \/ Js.is_nan (x - x) = true.
Proof.
  destruct (Prim2SF x) as [s | s | | s m e] eqn:E.
  - left. apply Prim2SF_inj. rewrite sub_spec, E. destruct s; reflexivity.
  - right. unfold Js.is_nan. rewrite eqb_spec, sub_spec, E. destruct s; reflexivity.
  - right. unfold Js.is_nan. rewrite eqb_spec, sub_spec, E. reflexivity.
  - left. apply Prim2SF_inj. rewrite sub_spec, E.
    unfold SF64sub, SFsub. rewrite Z.sub_diag. reflexivity.
Qed.

Lemma sub_diag (x : float) : Js.isFinite x = true -> x - x = 0.
Proof.
  intro H. apply Prim2SF_inj. rewrite sub_spec.
  rewrite (SFsub_diag _ (isFinite_spec x H)). reflexivity.
Qed.

(** *** Products of numbers of magnitude at most 1 do not overflow *)

Lemma digits2_size (p : positive) : digits2_pos p = Pos.size p.
Proof. induction p as [p IH | p IH |]; simpl; rewrite ?IH; reflexivity. Qed.

Lemma pos_below_pow_size (p : positive) : (Z.pos p < 2 ^ Z.pos (Pos.size p))%Z.
Proof.
  pose proof (Pos.size_gt p) as H.
  rewrite <- Pos2Z.inj_pow. apply Pos2Z.pos_lt_pos. exact H.
Qed.

Lemma pow_size_below_double (p : positive) : (2 ^ Z.pos (Pos.size p) <= 2 * Z.pos p)%Z.
Proof.
  pose proof (Pos.size_le p) as H.
  rewrite <- Pos2Z.inj_pow. change (2 * Z.pos p)%Z with (Z.pos p~0).
  apply Pos2Z.pos_le_pos. exact H.
Qed.

Lemma Zdigits2_bound (z k : Z) :
  (0 <= k)%Z -> (0 <= z <= 2 ^ k)%Z -> (Zdigits2 z <= k + 1)%Z.
Proof.
  intros Hk [H0 Hz]. destruct z as [| p | p]; simpl; [lia | | lia].
  rewrite digits2_size.
  pose proof (pow_size_below_double p) as H.
  assert (H2 : (2 ^ Z.pos (Pos.size p) <= 2 ^ (k + 1))%Z).
  { rewrite Z.pow_add_r by lia. change (2 ^ 1)%Z with 2%Z. lia. }
  apply Z.pow_le_mono_r_iff in H2; lia.
Qed.

Lemma shr_1_bounds (mrs : shr_record) :
  (0 <= shr_m mrs)%Z -> (0 <= shr_m (shr_1 mrs) <= shr_m mrs)%Z.
Proof.
  destruct mrs as [m r s]. simpl. intro H.
  destruct m as [| [p | p |] | p]; simpl; lia.
Qed.

Lemma iter_shr_1_bounds (n : positive) (mrs : shr_record) :
  (0 <= shr_m mrs)%Z -> (0 <= shr_m (iter_pos shr_1 n mrs) <= shr_m mrs)%Z.
Proof.
  revert mrs. induction n as [n IH | n IH |]; intros mrs H; simpl.
  - pose proof (shr_1_bounds mrs H) as H1.
    pose proof (IH (shr_1 mrs) (proj1 H1)) as H2.
    pose proof (IH _ (proj1 H2)) as H3. lia.
  - pose proof (IH mrs H) as H1.
    pose proof (IH _ (proj1 H1)) as H2. lia.
  - apply shr_1_bounds. exact H.
Qed.

Lemma shr_bounds (mrs : shr_record) (e n : Z) :
  (0 <= shr_m mrs)%Z ->
  (0 <= shr_m (fst (shr mrs e n)) <= shr_m mrs)%Z
  /\ (snd (shr mrs e n) = e \/ snd (shr mrs e n) = e + n)%Z.
Proof.
  intro H. unfold shr. destruct n as [| p | p]; simpl; try (split; [lia | auto]).
  split; [apply iter_shr_1_bounds; exact H | auto].
Qed.

Lemma shr_record_of_loc_m (m : Z) (l : location) : shr_m (shr_record_of_loc m l) = m.
Proof. destruct l as [| []]; reflexivity. Qed.

Lemma round_nearest_even_bounds (m : Z) (l : location) :
  (0 <= m)%Z -> (0 <= round_nearest_even m l <= m + 1)%Z.
Proof.
  intro H. unfold round_nearest_even.
  destruct l as [| []]; try lia. destruct (Z.even m); lia.
Qed.

(** Rounding a mantissa below [2^106] at an exponent of at most [-104]
    gives a zero or a finite number. *)
Lemma binary_round_aux_small (s : bool) (p : positive) (e : Z) :
  (Z.pos p <= 2 ^ 106)%Z -> (e <= -104)%Z ->
  (exists s', binary_round_aux prec emax s (Z.pos p) e loc_Exact = S754_zero s')
  \/ (exists s' m' e', binary_round_aux prec emax s (Z.pos p) e loc_Exact
                        = S754_finite s' m' e').
Proof.
  intros Hp He. unfold binary_round_aux, shr_fexp.
  set (r0 := shr_record_of_loc (Z.pos p) loc_Exact).
  set (n1 := (fexp prec emax (Zdigits2 (Z.pos p) + e) - e)%Z).
  assert (H0 : (0 <= shr_m r0)%Z) by (unfold r0; simpl; lia).
  destruct (shr_bounds r0 e n1 H0) as [Hm1 He1].
  destruct (shr r0 e n1) as [mrs1 e1]. cbn [fst snd] in Hm1, He1.
  assert (Hd : (Zdigits2 (Z.pos p) <= 107)%Z)
    by (apply (Zdigits2_bound _ 106); lia).
  assert (He1' : (e1 <= -50)%Z).
  { unfold n1, fexp, emin, prec, emax in He1. lia. }
  set (m1 := round_nearest_even (shr_m mrs1) (loc_of_shr_record mrs1)).
  assert (Hm1' : (0 <= m1 <= 2 ^ 106 + 1)%Z).
  { pose proof (round_nearest_even_bounds (shr_m mrs1) (loc_of_shr_record mrs1)
                  (proj1 Hm1)) as H.
    unfold r0 in Hm1. simpl in Hm1. fold m1 in H. lia. }
  set (r1 := shr_record_of_loc m1 loc_Exact).
  set (n2 := (fexp prec emax (Zdigits2 m1 + e1) - e1)%Z).
  assert (H1 : (0 <= shr_m r1)%Z) by (unfold r1; simpl; lia).
  destruct (shr_bounds r1 e1 n2 H1) as [Hm2 He2].
  destruct (shr r1 e1 n2) as [mrs2 e2]. cbn [fst snd] in Hm2, He2.
  assert (Hd1 : (Zdigits2 m1 <= 108)%Z).
  { apply (Zdigits2_bound _ 107); [lia |].
    change (2 ^ 107)%Z with (2 * 2 ^ 106)%Z.
    pose proof (Z.pow_pos_nonneg 2 106 ltac:(lia) ltac:(lia)). lia. }
  assert (He2' : (e2 <= emax - prec)%Z).
  { unfold n2, fexp, emin, prec, emax in *. lia. }
  destruct (shr_m mrs2) as [| q | q] eqn:Eq; [eauto | | lia].
  apply Z.leb_le in He2'. rewrite He2'. eauto 6.
Qed.

Lemma SFmul_small (x y : spec_float) :
  small x -> small y -> zero_or_finite (SF64mul x y).
Proof.
  unfold zero_or_finite.
  destruct x as [sx | sx | | sx mx ex], y as [sy | sy | | sy my ey]; simpl;
    try contradiction; eauto.
  intros [Hdx Hex] [Hdy Hey].
  apply binary_round_aux_small; [| lia].
  rewrite digits2_size in Hdx, Hdy.
  pose proof (pos_below_pow_size mx) as Hx.
  pose proof (pos_below_pow_size my) as Hy.
  assert (Hx' : (2 ^ Z.pos (Pos.size mx) <= 2 ^ 53)%Z)
    by (apply Z.pow_le_mono_r; lia).
  assert (Hy' : (2 ^ Z.pos (Pos.size my) <= 2 ^ 53)%Z)
    by (apply Z.pow_le_mono_r; lia).
  rewrite Pos2Z.inj_mul. change (2 ^ 106)%Z with (2 ^ 53 * 2 ^ 53)%Z.
  apply Z.mul_le_mono_nonneg; lia.
Qed.

Lemma abs_le_one_small (c : float) :
  (abs c <=? 1) = true -> small (Prim2SF c).
Proof.
  rewrite leb_spec, abs_spec. pose proof (Prim2SF_valid c) as Hv.
  change (Prim2SF 1) with (S754_finite false 4503599627370496 (-52)).
  destruct (Prim2SF c) as [s | s | | s m e];
    cbn [SFabs small SFleb SFcompare valid_binary]; try discriminate; auto.
  intro H. cbn [valid_binary] in Hv. unfold bounded in Hv.
  apply andb_true_iff in Hv. destruct Hv as [Hc _].
  unfold canonical_mantissa, fexp, emin, prec, emax in Hc.
  apply Z.eqb_eq in Hc. split; [lia |].
  destruct (Z.compare_spec e (-52)) as [E | E | E]; [lia | lia | discriminate H].
Qed.

Lemma isFinite_of_spec (x : float) :
  zero_or_finite (Prim2SF x) -> Js.isFinite x = true.
Proof.
  unfold Js.isFinite, Js.is_nan. rewrite !eqb_spec, abs_spec.
  intros [[s ->] | (s & m & e & ->)]; [reflexivity |].
  unfold SFeqb; simpl.
  rewrite Z.compare_refl, Pos.compare_cont_refl.
  destruct s; reflexivity.
Qed.

Lemma mul_bounded_finite (c c' : float) :
  (abs c <=? 1) = true -> (abs c' <=? 1) = true -> Js.isFinite (c * c') = true.
Proof.
  intros H H'. apply isFinite_of_spec. rewrite mul_spec.
  apply SFmul_small; apply abs_le_one_small; assumption.
Qed.

(** *** Rounding keeps the sign of a non-zero integer *)

(** One halving step keeps half of a lower bound. *)
Lemma shr_1_lower (mrs : shr_record) (k : Z) :
  (0 <= k)%Z -> (2 * k <= shr_m mrs)%Z -> (k <= shr_m (shr_1 mrs))%Z.
Proof.
  destruct mrs as [m r s]. cbn [shr_m]. intros Hk H.
  destruct m as [| [p | p |] | p]; cbn [shr_1 shr_m];
    try pose proof (Pos2Z.inj_xI p); try pose proof (Pos2Z.inj_xO p); lia.
Qed.

Lemma iter_shr_1_lower (n : positive) (mrs : shr_record) (k : Z) :
  (0 <= k)%Z -> (2 ^ Z.pos n * k <= shr_m mrs)%Z ->
  (k <= shr_m (iter_pos shr_1 n mrs))%Z.
Proof.
  revert mrs k. induction n as [n IH | n IH |]; intros mrs k Hk H; cbn [iter_pos].
  - assert (E : (2 ^ Z.pos n~1 = 2 * (2 ^ Z.pos n * 2 ^ Z.pos n))%Z).
    { rewrite (Pos2Z.inj_xI n), Z.pow_add_r, <- Z.add_diag, Z.pow_add_r by lia.
      change (2 ^ 1)%Z with 2%Z. ring. }
    rewrite E in H. clear E.
    set (P := (2 ^ Z.pos n)%Z) in *.
    assert (Hp : (0 <= P)%Z) by (apply Z.pow_nonneg; lia).
    apply IH; [exact Hk |].
    apply IH; [apply Z.mul_nonneg_nonneg; assumption |].
    apply shr_1_lower.
    + repeat apply Z.mul_nonneg_nonneg; assumption.
    + replace (2 * (P * (P * k)))%Z with (2 * (P * P) * k)%Z by ring. exact H.
  - assert (E : (2 ^ Z.pos n~0 = 2 ^ Z.pos n * 2 ^ Z.pos n)%Z).
    { rewrite (Pos2Z.inj_xO n), <- Z.add_diag, Z.pow_add_r by lia. reflexivity. }
    rewrite E in H. clear E.
    set (P := (2 ^ Z.pos n)%Z) in *.
    assert (Hp : (0 <= P)%Z) by (apply Z.pow_nonneg; lia).
    apply IH; [exact Hk |].
    apply IH; [apply Z.mul_nonneg_nonneg; assumption |].
    replace (P * (P * k))%Z with (P * P * k)%Z by ring. exact H.
  - apply shr_1_lower; [lia |]. change (2 ^ 1)%Z with 2%Z in H. lia.
Qed.

(** The first rounding shift leaves a positive mantissa positive when the
    exponent is at least the least exponent. *)
Lemma shr_fexp_pos (m e : Z) (l : location) :
  (0 < m)%Z -> (-1074 <= e)%Z ->
  (0 < shr_m (fst (shr_fexp prec emax m e l)))%Z
  /\ (-1074 <= snd (shr_fexp prec emax m e l))%Z.
Proof.
  intros Hm He. unfold shr_fexp, shr.
  destruct (fexp prec emax (Zdigits2 m + e) - e)%Z as [| n | n] eqn:En;
    cbn [fst snd]; rewrite ?shr_record_of_loc_m; try (split; lia).
  destruct m as [| p | p]; try lia.
  unfold fexp, SpecFloat.emin, prec, emax in En. cbn [Zdigits2] in En.
  rewrite digits2_size in En.
  pose proof (pow_size_below_double p) as Hs.
  assert (Hn : (Z.pos n = Z.pos (Pos.size p) - 53)%Z) by lia.
  split; [| lia].
  assert (H1 : (1 <= shr_m (iter_pos shr_1 n (shr_record_of_loc (Z.pos p) l)))%Z).
  { apply iter_shr_1_lower; [lia |]. rewrite shr_record_of_loc_m, Z.mul_1_r.
    assert (H2 : (2 * 2 ^ Z.pos n <= 2 ^ Z.pos (Pos.size p))%Z).
    { rewrite <- Z.pow_succ_r by lia. apply Z.pow_le_mono_r; lia. }
    lia. }
  lia.
Qed.

Lemma round_nearest_even_lower (m : Z) (l : location) :
  (m <= round_nearest_even m l)%Z.
Proof.
  unfold round_nearest_even. destruct l as [| []]; try lia.
  destruct (Z.even m); lia.
Qed.

(** Rounding a positive mantissa at an exponent of at least [emin] gives
    a finite number or an infinity, of the sign asked for. *)
Lemma binary_round_aux_pos (s : bool) (m e : Z) (l : location) :
  (0 < m)%Z -> (-1074 <= e)%Z ->
  (exists m' e', binary_round_aux prec emax s m e l = S754_finite s m' e')
  \/ binary_round_aux prec emax s m e l = S754_infinity s.
Proof.
  intros Hm He. unfold binary_round_aux.
  destruct (shr_fexp_pos m e l Hm He) as [H1 H1e].
  destruct (shr_fexp prec emax m e l) as [mrs1 e1]. cbn [fst snd] in H1, H1e.
  pose proof (round_nearest_even_lower (shr_m mrs1) (loc_of_shr_record mrs1)) as Hr.
  set (m1 := round_nearest_even (shr_m mrs1) (loc_of_shr_record mrs1)) in *.
  destruct (shr_fexp_pos m1 e1 loc_Exact ltac:(lia) H1e) as [H2 _].
  destruct (shr_fexp prec emax m1 e1 loc_Exact) as [mrs2 e2]. cbn [fst] in H2.
  destruct (shr_m mrs2) as [| q | q]; try lia.
  destruct (e2 <=? emax - prec)%Z; eauto.
Qed.

Lemma binary_round_pos (s : bool) (p : positive) (e : Z) :
  (-1074 <= e)%Z ->
  (exists m' e', binary_round prec emax s p e = S754_finite s m' e')
  \/ binary_round prec emax s p e = S754_infinity s.
Proof.
  intro He. unfold binary_round.
  destruct (shl_align p e (fexp prec emax (Z.pos (digits2_pos p) + e)))
    as [mz ez] eqn:E.
  apply binary_round_aux_pos; [lia |].
  unfold shl_align in E.
  destruct (fexp prec emax (Z.pos (digits2_pos p) + e) - e)%Z eqn:Ed;
    injection E as _ <-; try lia.
  unfold fexp, SpecFloat.emin, prec, emax. lia.
Qed.

(** The sign of a rounded non-zero integer. *)
Lemma binary_normalize_sign (d e : Z) :
  (-1074 <= e)%Z -> d <> 0%Z ->
  (exists m' e', binary_normalize prec emax d e false = S754_finite (d <? 0)%Z m' e')
  \/ binary_normalize prec emax d e false = S754_infinity (d <? 0)%Z.
Proof.
  intros He Hd. destruct d as [| p | p]; [congruence | |]; cbn [binary_normalize].
  - apply (binary_round_pos false p e He).
  - apply (binary_round_pos true p e He).
Qed.

(** *** Valid numbers and their aligned mantissas *)

Lemma bounded_facts (m : positive) (e : Z) :
  bounded prec emax m e = true ->
  (Z.pos (Pos.size m) <= 53)%Z /\ (-1074 <= e)%Z
  /\ ((-1074 < e)%Z -> Z.pos (Pos.size m) = 53%Z).
Proof.
  unfold bounded, canonical_mantissa. rewrite digits2_size.
  intro H. apply andb_true_iff in H. destruct H as [H _].
  apply Z.eqb_eq in H. unfold fexp, SpecFloat.emin, prec, emax in H. lia.
Qed.

Lemma iter_xO_value (m d : positive) :
  Z.pos (Pos.iter xO m d) = (Z.pos m * 2 ^ Z.pos d)%Z.
Proof.
  induction d as [| d IH] using Pos.peano_ind.
  - cbn [Pos.iter]. rewrite (Pos2Z.inj_xO m). change (2 ^ 1)%Z with 2%Z. ring.
  - rewrite Pos.iter_succ, (Pos2Z.inj_xO (Pos.iter xO m d)), IH.
    rewrite Pos2Z.inj_succ, Z.pow_succ_r by lia. ring.
Qed.

Lemma shl_align_value (m : positive) (e ez : Z) :
  (ez <= e)%Z -> Z.pos (fst (shl_align m e ez)) = (Z.pos m * 2 ^ (e - ez))%Z.
Proof.
  intro H. unfold shl_align.
  destruct (ez - e)%Z as [| d | d] eqn:E; cbn [fst]; try lia.
  - replace (e - ez)%Z with 0%Z by lia. rewrite Z.pow_0_r. ring.
  - rewrite iter_xO_value. f_equal. f_equal. lia.
Qed.

(** A valid number with the larger exponent has the larger magnitude. *)
Lemma magnitude_by_exponent (mx my : positive) (ex ey : Z) :
  bounded prec emax mx ex = true -> bounded prec emax my ey = true ->
  (ex < ey)%Z ->
  (Z.pos mx < Z.pos my * 2 ^ (ey - ex))%Z.
Proof.
  intros Hx Hy Hlt.
  destruct (bounded_facts mx ex Hx) as (Hdx & Hex & _).
  destruct (bounded_facts my ey Hy) as (_ & _ & Hdy).
  specialize (Hdy ltac:(lia)).
  pose proof (pos_below_pow_size mx) as H1.
  pose proof (pow_size_below_double my) as H2. rewrite Hdy in H2.
  assert (H3 : (2 ^ Z.pos (Pos.size mx) <= 2 ^ 53)%Z)
    by (apply Z.pow_le_mono_r; lia).
  assert (H4 : (2 ^ 1 <= 2 ^ (ey - ex))%Z) by (apply Z.pow_le_mono_r; lia).
  change (2 ^ 1)%Z with 2%Z in H4.
  assert (H5 : (Z.pos my * 2 <= Z.pos my * 2 ^ (ey - ex))%Z)
    by (apply Z.mul_le_mono_nonneg_l; lia).
  lia.
Qed.

Lemma compare_magnitudes (mx my : positive) (ex ey : Z) :
  bounded prec emax mx ex = true -> bounded prec emax my ey = true ->
  let ez := Z.min ex ey in
  (Z.pos (fst (shl_align mx ex ez)) ?= Z.pos (fst (shl_align my ey ez)))%Z
  = match (ex ?= ey)%Z with
    | Eq => Pos.compare_cont Eq mx my
    | Lt => Lt
    | Gt => Gt
    end.
Proof.
  intros Hx Hy ez. unfold ez.
  rewrite !shl_align_value by lia.
  destruct (Z.compare_spec ex ey) as [E | E | E].
  - subst ey. rewrite Z.min_id, Z.sub_diag, Z.pow_0_r, !Z.mul_1_r. reflexivity.
  - rewrite Z.min_l by lia. rewrite Z.sub_diag, Z.pow_0_r, Z.mul_1_r.
    apply Z.compare_lt_iff. apply magnitude_by_exponent; assumption.
  - rewrite Z.min_r by lia. rewrite Z.sub_diag, Z.pow_0_r, Z.mul_1_r.
    apply Z.compare_gt_iff. apply magnitude_by_exponent; assumption.
Qed.

(** Comparing two valid finite numbers is comparing their mantissas
    aligned on the smaller exponent, with their signs. *)
Lemma compare_aligned (sx sy : bool) (mx my : positive) (ex ey : Z) :
  bounded prec emax mx ex = true -> bounded prec emax my ey = true ->
  SFcompare (S754_finite sx mx ex) (S754_finite sy my ey)
  = Some (aligned sx mx ex (Z.min ex ey) ?= aligned sy my ey (Z.min ex ey))%Z.
Proof.
  intros Hx Hy. pose proof (compare_magnitudes mx my ex ey Hx Hy) as H.
  cbv zeta in H. unfold aligned, SFcompare.
  set (X := Z.pos (fst (shl_align mx ex (Z.min ex ey)))) in *.
  set (Y := Z.pos (fst (shl_align my ey (Z.min ex ey)))) in *.
  destruct sx, sy; cbn [cond_Zopp]; f_equal.
  - rewrite (Z.compare_opp X Y), (Z.compare_antisym X Y), H.
    destruct (ex ?= ey)%Z; reflexivity.
  - rewrite H. reflexivity.
Qed.

(** *** The sign of a difference *)

Lemma SFsub_finite_sign (sx sy : bool) (mx my : positive) (ex ey : Z) :
  bounded prec emax mx ex = true -> bounded prec emax my ey = true ->
  let d := SF64sub (S754_finite sx mx ex) (S754_finite sy my ey) in
  SFltb (S754_zero false) d = SFltb (S754_finite sy my ey) (S754_finite sx mx ex)
  /\ SFeqb d (S754_zero false) = SFeqb (S754_finite sx mx ex) (S754_finite sy my ey).
Proof.
  intros Hx Hy d. unfold SFltb, SFeqb.
  rewrite (compare_aligned sx sy mx my ex ey Hx Hy).
  rewrite (compare_aligned sy sx my mx ey ex Hy Hx), (Z.min_comm ey ex).
  unfold d, SF64sub, SFsub. fold (aligned sx mx ex (Z.min ex ey)).
  fold (aligned sy my ey (Z.min ex ey)).
  set (A := aligned sx mx ex (Z.min ex ey)).
  set (B := aligned sy my ey (Z.min ex ey)).
  destruct (bounded_facts mx ex Hx) as (_ & Hex & _).
  destruct (bounded_facts my ey Hy) as (_ & Hey & _).
  destruct (Z.eq_dec (A - B) 0) as [E | E].
  - rewrite E. cbn [binary_normalize SFcompare].
    replace B with A by lia. rewrite Z.compare_refl. auto.
  - destruct (binary_normalize_sign (A - B) (Z.min ex ey) ltac:(lia) E)
      as [(m' & e' & ->) | ->]; cbn [SFcompare];
      destruct (Z.ltb_spec (A - B) 0) as [Hlt | Hge];
      destruct (Z.compare_spec B A) as [E1 | E1 | E1]; try lia;
      destruct (Z.compare_spec A B) as [E2 | E2 | E2]; try lia; auto.
Qed.

Lemma SFsub_sign (x y : spec_float) :
  zero_or_finite x -> zero_or_finite y ->
  valid_binary x = true -> valid_binary y = true ->
  SFltb (S754_zero false) (SF64sub x y) = SFltb y x
  /\ SFeqb (SF64sub x y) (S754_zero false) = SFeqb x y.
Proof.
  intros [[sx ->] | (sx & mx & ex & ->)] [[sy ->] | (sy & my & ey & ->)] Hx Hy.
  - destruct sx, sy; auto.
  - destruct sx, sy; auto.
  - destruct sx, sy; auto.
  - apply SFsub_finite_sign; assumption.
Qed.

Lemma finite_valid (x : float) :
  Js.isFinite x = true ->
  zero_or_finite (Prim2SF x) /\ valid_binary (Prim2SF x) = true.
Proof.
  intro H. split; [apply isFinite_spec; exact H | apply Prim2SF_valid].
Qed.

(** For finite [x] and [y]: [x - y > 0] exactly when [x > y], and
    [x - y !== 0] exactly when [x] and [y] differ. *)
Lemma sub_gtb (x y : float) :
  Js.isFinite x = true -> Js.isFinite y = true ->
  Js.gtb (x - y) 0 = Js.gtb x y.
Proof.
  intros Hx Hy. unfold Js.gtb. rewrite !ltb_spec, sub_spec.
  destruct (finite_valid x Hx) as [Zx Vx]. destruct (finite_valid y Hy) as [Zy Vy].
  apply (SFsub_sign _ _ Zx Zy Vx Vy).
Qed.

Lemma sub_nonzero (x y : float) :
  Js.isFinite x = true -> Js.isFinite y = true ->
  Js.nonzero (x - y) = negb (x =? y).
Proof.
  intros Hx Hy. unfold Js.nonzero. rewrite !eqb_spec, sub_spec.
  destruct (finite_valid x Hx) as [Zx Vx]. destruct (finite_valid y Hy) as [Zy Vy].
  f_equal. apply (SFsub_sign _ _ Zx Zy Vx Vy).
Qed.

(** NaN is not above zero: the sort's reading of NaN as a tie does not
    change the test it makes. *)
Lemma gtb_nan (v : float) : Js.is_nan v = true -> Js.gtb v 0 = false.
Proof.
  intro H. unfold Js.gtb. rewrite ltb_spec, (is_nan_spec v H). reflexivity.
Qed.

(** *** Finite numbers as pairs of integers, ordered lexicographically *)

Lemma SFcompare_key (x y : spec_float) :
  zero_or_finite x -> zero_or_finite y ->
  valid_binary x = true -> valid_binary y = true ->
  SFcompare x y = Some (lexCompare (SFkey x) (SFkey y)).
Proof.
  intros [[sx ->] | (sx & mx & ex & ->)] [[sy ->] | (sy & my & ey & ->)] Hx Hy;
    cbn [valid_binary] in Hx, Hy;
    try (destruct (bounded_facts _ _ Hx) as (_ & Hex & _));
    try (destruct (bounded_facts _ _ Hy) as (_ & Hey & _));
    unfold lexCompare.
  - reflexivity.
  - destruct sy; cbn [SFkey SFcompare fst snd]; f_equal.
    + symmetry. rewrite (proj2 (Z.compare_gt_iff _ _)) by lia. reflexivity.
    + symmetry. rewrite (proj2 (Z.compare_lt_iff _ _)) by lia. reflexivity.
  - destruct sx; cbn [SFkey SFcompare fst snd]; f_equal.
    + symmetry. rewrite (proj2 (Z.compare_lt_iff _ _)) by lia. reflexivity.
    + symmetry. rewrite (proj2 (Z.compare_gt_iff _ _)) by lia. reflexivity.
  - destruct sx, sy; cbn [SFkey SFcompare fst snd]; f_equal.
    + rewrite (Z.compare_opp (ex + 1075) (ey + 1075)), (Z.compare_opp (Z.pos mx) (Z.pos my)).
      rewrite (Z.compare_antisym (ex + 1075) (ey + 1075)).
      rewrite (Z.compare_antisym (Z.pos mx) (Z.pos my)).
      rewrite (Z.add_comm ex 1075), (Z.add_comm ey 1075), Z.add_compare_mono_l.
      destruct (ex ?= ey)%Z; reflexivity.
    + symmetry. rewrite (proj2 (Z.compare_lt_iff _ _)) by lia. reflexivity.
    + symmetry. rewrite (proj2 (Z.compare_gt_iff _ _)) by lia. reflexivity.
    + rewrite (Z.add_comm ex 1075), (Z.add_comm ey 1075), Z.add_compare_mono_l.
      destruct (ex ?= ey)%Z; reflexivity.
Qed.

Lemma ltb_key (x y : float) :
  Js.isFinite x = true -> Js.isFinite y = true ->
  ((x <? y) = true
   <-> (fst (key x) < fst (key y)
        \/ (fst (key x) = fst (key y) /\ snd (key x) < snd (key y)))%Z).
Proof.
  intros Hx Hy. rewrite ltb_spec. unfold SFltb, key.
  destruct (finite_valid x Hx) as [Zx Vx]. destruct (finite_valid y Hy) as [Zy Vy].
  rewrite (SFcompare_key _ _ Zx Zy Vx Vy). unfold lexCompare.
  destruct (Z.compare_spec (fst (SFkey (Prim2SF x))) (fst (SFkey (Prim2SF y))));
    [destruct (Z.compare_spec (snd (SFkey (Prim2SF x))) (snd (SFkey (Prim2SF y)))) | |];
    split; intros; try discriminate; try reflexivity; lia.
Qed.

Lemma eqb_key (x y : float) :
  Js.isFinite x = true -> Js.isFinite y = true ->
  ((x =? y) = true
   <-> (fst (key x) = fst (key y) /\ snd (key x) = snd (key y))%Z).
Proof.
  intros Hx Hy. rewrite eqb_spec. unfold SFeqb, key.
  destruct (finite_valid x Hx) as [Zx Vx]. destruct (finite_valid y Hy) as [Zy Vy].
  rewrite (SFcompare_key _ _ Zx Zy Vx Vy). unfold lexCompare.
  destruct (Z.compare_spec (fst (SFkey (Prim2SF x))) (fst (SFkey (Prim2SF y))));
    [destruct (Z.compare_spec (snd (SFkey (Prim2SF x))) (snd (SFkey (Prim2SF y)))) | |];
    split; intros; try discriminate; try reflexivity; lia.
Qed.

Lemma leb_key (x y : float) :
  Js.isFinite x = true -> Js.isFinite y = true ->
  ((x <=? y) = true
   <-> (fst (key x) < fst (key y)
        \/ (fst (key x) = fst (key y) /\ snd (key x) <= snd (key y)))%Z).
Proof.
  intros Hx Hy. rewrite leb_spec. unfold SFleb, key.
  destruct (finite_valid x Hx) as [Zx Vx]. destruct (finite_valid y Hy) as [Zy Vy].
  rewrite (SFcompare_key _ _ Zx Zy Vx Vy). unfold lexCompare.
  destruct (Z.compare_spec (fst (SFkey (Prim2SF x))) (fst (SFkey (Prim2SF y))));
    [destruct (Z.compare_spec (snd (SFkey (Prim2SF x))) (snd (SFkey (Prim2SF y)))) | |];
    split; intros; try discriminate; try reflexivity; lia.
Qed.

End FloatFacts.

(** ** DistanceCalculator *)

Section DistanceFacts.

Variable rt : Runtime.

Local Open Scope float_scope.

Lemma toRad_opp (v : float) : Geo.toRad (- v) = - Geo.toRad v.
Proof.
  unfold Geo.toRad. rewrite FloatFacts.mul_opp_l, FloatFacts.div_opp_l. reflexivity.
Qed.

Section OddSine.

Hypothesis sin_odd : forall x, Math_sin rt (- x) = - Math_sin rt x.

Lemma half_angle_swap (d d' : float) :
  d' = - d \/ d' = d ->
  Math_sin rt (Geo.toRad d' / 2) = - Math_sin rt (Geo.toRad d / 2)
  \/ Math_sin rt (Geo.toRad d' / 2) = Math_sin rt (Geo.toRad d / 2).
Proof.
  intros [-> | ->]; [left | right; reflexivity].
  rewrite toRad_opp, FloatFacts.div_opp_l. apply sin_odd.
Qed.

Lemma haversine_symmetric (lat1 lon1 lat2 lon2 : float) :
  Geo.haversine rt lat1 lon1 lat2 lon2 = Geo.haversine rt lat2 lon2 lat1 lon1.
Proof.
  unfold Geo.haversine. cbv zeta.
  rewrite (FloatFacts.mul_comm (Math_cos rt (Geo.toRad lat2))
             (Math_cos rt (Geo.toRad lat1))).
  destruct (half_angle_swap (lat2 - lat1) (lat1 - lat2)
              (FloatFacts.sub_swap lat2 lat1)) as [-> | ->];
    destruct (half_angle_swap (lon2 - lon1) (lon1 - lon2)
                (FloatFacts.sub_swap lon2 lon1)) as [-> | ->];
    rewrite ?FloatFacts.mul_opp_l, ?FloatFacts.mul_opp_r,
      ?FloatFacts.mul_opp_l, ?FloatFacts.opp_involutive; reflexivity.
Qed.

Lemma distanceKm_symmetric (lat1 lon1 lat2 lon2 : Js.value) :
  Geo.distanceKm rt lat1 lon1 lat2 lon2 = Geo.distanceKm rt lat2 lon2 lat1 lon1.
Proof.
  unfold Geo.distanceKm.
  destruct (Js.nullish lat1), (Js.nullish lon1), (Js.nullish lat2),
    (Js.nullish lon2); cbn [orb]; try reflexivity.
  apply haversine_symmetric.
Qed.

End OddSine.

(** [0 + k * 0 * 0] is [+0] for a finite [k], of either sign. *)
Lemma zero_plus_finite_times_zero (k : float) :
  Js.isFinite k = true -> 0 + k * 0 * 0 = 0.
Proof.
  intro H. apply Prim2SF_inj.
  rewrite add_spec, !mul_spec.
  destruct (FloatFacts.isFinite_spec k H) as [[s ->] | (s & m & e & ->)];
    destruct s; reflexivity.
Qed.

Lemma haversine_same_point (lat lon : float) :
  Math_sin rt 0 = 0 -> Math_atan2 rt 0 1 = 0 ->
  Js.isFinite lat = true -> Js.isFinite lon = true ->
  (abs (Math_cos rt (Geo.toRad lat)) <=? 1) = true ->
  Geo.haversine rt lat lon lat lon = 0.
Proof.
  intros Hsin Hatan Hlat Hlon Hcos.
  pose proof (FloatFacts.mul_bounded_finite _ _ Hcos Hcos) as Hk.
  unfold Geo.haversine. cbv zeta.
  rewrite (FloatFacts.sub_diag lat Hlat), (FloatFacts.sub_diag lon Hlon).
  change (Geo.toRad 0 / 2) with 0. rewrite Hsin.
  change (0 * 0) with 0.
  rewrite (zero_plus_finite_times_zero _ Hk).
  change (PrimFloat.sqrt 0) with 0. change (PrimFloat.sqrt (1 - 0)) with 1.
  rewrite Hatan. reflexivity.
Qed.

End DistanceFacts.

(** ** Candidates without a distance sort last *)

Section FarLast.

Local Open Scope float_scope.

Lemma infinity_minus_finite (d : float) :
  Js.isFinite d = true -> infinity - d = infinity.
Proof.
  intro H. apply Prim2SF_inj. rewrite sub_spec.
  destruct (FloatFacts.isFinite_spec d H) as [[s ->] | (s & m & e & ->)]; reflexivity.
Qed.

Lemma finite_minus_infinity (d : float) :
  Js.isFinite d = true -> d - infinity = neg_infinity.
Proof.
  intro H. apply Prim2SF_inj. rewrite sub_spec.
  destruct (FloatFacts.isFinite_spec d H) as [[s ->] | (s & m & e & ->)]; reflexivity.
Qed.

Lemma far_after_near (a b : Enriched.t) :
  far a -> near b -> Js.gtb (sortCompare compareEnriched a b) 0 = true.
Proof.
  unfold far, near, sortCompare, compareEnriched. intros Ha Hb.
  rewrite Ha, (infinity_minus_finite _ Hb). reflexivity.
Qed.

Lemma near_not_after_far (a b : Enriched.t) :
  near a -> far b -> Js.gtb (sortCompare compareEnriched a b) 0 = false.
Proof.
  unfold far, near, sortCompare, compareEnriched. intros Ha Hb.
  rewrite Hb, (finite_minus_infinity _ Ha). reflexivity.
Qed.

Lemma far_not_after_far (a b : Enriched.t) :
  far a -> far b -> Js.gtb (sortCompare compareEnriched a b) 0 = false.
Proof.
  unfold far, sortCompare, compareEnriched. intros Ha Hb.
  rewrite Ha, Hb. reflexivity.
Qed.

Lemma insert_farLast (x : Enriched.t) (l1 l2 : list Enriched.t) :
  near x \/ far x -> Forall near l1 -> Forall far l2 ->
  farLast (insert compareEnriched x (l1 ++ l2)).
Proof.
  intros Hx H1 H2. induction H1 as [| y l1 Hy H1 IH].
  - destruct H2 as [| y l2 Hy H2]; simpl.
    + destruct Hx as [Hx | Hx].
      * exists [x], []. auto.
      * exists [], [x]. auto.
    + destruct Hx as [Hx | Hx].
      * rewrite (near_not_after_far x y Hx Hy).
        exists [x], (y :: l2). auto.
      * rewrite (far_not_after_far x y Hx Hy).
        exists [], (x :: y :: l2). auto.
  - simpl. destruct (Js.gtb (sortCompare compareEnriched x y) 0) eqn:E.
    + destruct IH as (k1 & k2 & Ek & Hk1 & Hk2).
      exists (y :: k1), k2. rewrite Ek. auto.
    + destruct Hx as [Hx | Hx].
      * exists (x :: y :: l1), l2. auto.
      * rewrite (far_after_near x y Hx Hy) in E. discriminate E.
Qed.

Lemma Array_sort_farLast (l : list Enriched.t) :
  Forall (fun e => near e \/ far e) l -> farLast (Array_sort compareEnriched l).
Proof.
  unfold Array_sort. induction 1 as [| x l Hx Hl IH]; simpl.
  - exists [], []. auto.
  - destruct IH as (l1 & l2 & -> & H1 & H2). apply insert_farLast; assumption.
Qed.

End FarLast.

(** ** On finite keys the ranking follows the three-key order *)

Section ThreeKeys.

Local Open Scope float_scope.

Lemma gtb_sortCompare {A} (comparefn : A -> A -> float) (x y : A) :
  Js.gtb (sortCompare comparefn x y) 0 = Js.gtb (comparefn x y) 0.
Proof.
  unfold sortCompare. destruct (Js.is_nan (comparefn x y)) eqn:E; [| reflexivity].
  rewrite (FloatFacts.gtb_nan _ E). reflexivity.
Qed.

(** What the sort tests, on finite keys: farther; or as far and dearer; or
    as far, as dear and rated lower. *)
Lemma placed_after (a b : Enriched.t) :
  finiteKeys a -> finiteKeys b ->
  Js.gtb (sortCompare compareEnriched a b) 0
  = if negb (Enriched.distance_km a =? Enriched.distance_km b)
    then Js.gtb (Enriched.distance_km a) (Enriched.distance_km b)
    else if negb (Enriched.price a =? Enriched.price b)
         then Js.gtb (Enriched.price a) (Enriched.price b)
         else Js.gtb (Enriched.rating b) (Enriched.rating a).
Proof.
  intros (Hda & Hpa & Hra) (Hdb & Hpb & Hrb).
  rewrite gtb_sortCompare. unfold compareEnriched.
  rewrite (FloatFacts.sub_nonzero _ _ Hda Hdb), (FloatFacts.sub_nonzero _ _ Hpa Hpb).
  destruct (Enriched.distance_km a =? Enriched.distance_km b); cbn [negb];
    [| apply FloatFacts.sub_gtb; assumption].
  destruct (Enriched.price a =? Enriched.price b); cbn [negb];
    apply FloatFacts.sub_gtb; assumption.
Qed.

Ltac to_keys :=
  repeat match goal with
         | H : finiteKeys _ |- _ => destruct H as (? & ? & ?)
         end;
  unfold rankedBefore, Js.gtb in *;
  repeat match goal with
         | H : context [(?x <? ?y)] |- _ =>
             rewrite (FloatFacts.ltb_key x y) in H by assumption
         | H : context [(?x =? ?y)] |- _ =>
             rewrite (FloatFacts.eqb_key x y) in H by assumption
         | H : context [(?x <=? ?y)] |- _ =>
             rewrite (FloatFacts.leb_key x y) in H by assumption
         | |- context [(?x <? ?y)] => rewrite (FloatFacts.ltb_key x y) by assumption
         | |- context [(?x =? ?y)] => rewrite (FloatFacts.eqb_key x y) by assumption
         | |- context [(?x <=? ?y)] => rewrite (FloatFacts.leb_key x y) by assumption
         end.

Lemma bool_true_iff (b : bool) (P : Prop) :
  (b = true <-> P) -> (b = false <-> ~ P).
Proof.
  destruct b; intros [H1 H2]; split; intro H.
  - discriminate H.
  - exfalso. apply H. apply H1. reflexivity.
  - intro HP. apply H2 in HP. discriminate HP.
  - reflexivity.
Qed.

Lemma after_then_before (a b : Enriched.t) :
  finiteKeys a -> finiteKeys b ->
  Js.gtb (sortCompare compareEnriched a b) 0 = true -> rankedBefore b a.
Proof.
  intros Ha Hb. rewrite (placed_after a b Ha Hb).
  destruct (Enriched.distance_km a =? Enriched.distance_km b) eqn:Ed; cbn [negb];
    [destruct (Enriched.price a =? Enriched.price b) eqn:Ep; cbn [negb] |];
    intro H; to_keys; lia.
Qed.

Lemma not_after_then_before (a b : Enriched.t) :
  finiteKeys a -> finiteKeys b ->
  Js.gtb (sortCompare compareEnriched a b) 0 = false -> rankedBefore a b.
Proof.
  intros Ha Hb. rewrite (placed_after a b Ha Hb).
  destruct (Enriched.distance_km a =? Enriched.distance_km b) eqn:Ed; cbn [negb];
    [destruct (Enriched.price a =? Enriched.price b) eqn:Ep; cbn [negb] |];
    intro H;
    repeat match goal with
           | H : finiteKeys _ |- _ => destruct H as (? & ? & ?)
           end;
    unfold Js.gtb in *;
    repeat match goal with
           | H : (?x <? ?y) = false |- _ =>
               apply (proj1 (bool_true_iff _ _ (FloatFacts.ltb_key x y ltac:(assumption)
                                                   ltac:(assumption)))) in H
           | H : (?x =? ?y) = false |- _ =>
               apply (proj1 (bool_true_iff _ _ (FloatFacts.eqb_key x y ltac:(assumption)
                                                   ltac:(assumption)))) in H
           end;
    to_keys; lia.
Qed.

Lemma rankedBefore_trans (a b c : Enriched.t) :
  finiteKeys a -> finiteKeys b -> finiteKeys c ->
  rankedBefore a b -> rankedBefore b c -> rankedBefore a c.
Proof.
  intros Ha Hb Hc Hab Hbc. to_keys. lia.
Qed.

Lemma insert_sorted (x : Enriched.t) (l : list Enriched.t) :
  finiteKeys x -> Forall finiteKeys l ->
  StronglySorted rankedBefore l ->
  StronglySorted rankedBefore (insert compareEnriched x l).
Proof.
  intros Hx Hl Hs. induction Hs as [| y l Hs IH Hy]; simpl.
  - constructor; constructor.
  - inversion Hl as [| ? ? Hfy Hfl]; subst.
    destruct (Js.gtb (sortCompare compareEnriched x y) 0) eqn:E.
    + constructor; [apply IH; assumption |].
      apply Forall_forall. intros z Hz. apply insert_In in Hz.
      destruct Hz as [-> | Hz].
      * apply after_then_before; assumption.
      * rewrite Forall_forall in Hy. apply Hy. exact Hz.
    + constructor; [constructor; assumption |].
      pose proof (not_after_then_before x y Hx Hfy E) as Hxy.
      constructor; [exact Hxy |].
      rewrite Forall_forall in Hy, Hfl |- *. intros z Hz.
      apply (rankedBefore_trans x y z); auto.
Qed.

Lemma insert_finite (x : Enriched.t) (l : list Enriched.t) :
  finiteKeys x -> Forall finiteKeys l -> Forall finiteKeys (insert compareEnriched x l).
Proof.
  intros Hx Hl. apply Forall_forall. intros z Hz. apply insert_In in Hz.
  destruct Hz as [-> | Hz]; [exact Hx |].
  rewrite Forall_forall in Hl. auto.
Qed.

(** X1. The sorted candidates are in the order of the ranking contract,
    each before all that follow it, when the distance, the price and the
    rating of every candidate are finite numbers. *)
Theorem Array_sort_three_keys (l : list Enriched.t) :
  Forall finiteKeys l ->
  StronglySorted rankedBefore (Array_sort compareEnriched l).
Proof.
  unfold Array_sort. intro H.
  assert (G : StronglySorted rankedBefore (fold_right (insert compareEnriched) [] l)
              /\ Forall finiteKeys (fold_right (insert compareEnriched) [] l)).
  { induction H as [| x l Hx Hl [IH1 IH2]]; simpl.
    - split; constructor.
    - split; [apply insert_sorted | apply insert_finite]; assumption. }
  exact (proj1 G).
Qed.

Lemma Array_sort_three_keys_witness :
  StronglySorted rankedBefore (Array_sort compareEnriched Sample.shortlist).
Proof.
  apply (Array_sort_three_keys Sample.shortlist).
  repeat constructor.
Defined.

Example shortlist_sorted :
  map Enriched.product_name (Array_sort compareEnriched Sample.shortlist)
  = ["near"; "cheap"; "good"; "poor"].
Proof. vm_compute. reflexivity. Qed.

End ThreeKeys.

(** ** Ties the comparison function does not break *)

Lemma tie_without_price (a b : Enriched.t) :
  Enriched.distance_km a = Enriched.distance_km b ->
  Enriched.price a = infinity -> Enriched.price b = infinity ->
  Js.gtb (sortCompare compareEnriched a b) 0 = false.
Proof.
  intros Hd Ha Hb. unfold sortCompare, compareEnriched.
  rewrite Hd, Ha, Hb.
  destruct (FloatFacts.sub_self (Enriched.distance_km b)) as [E | E].
  - rewrite E. reflexivity.
  - rewrite (FloatFacts.nan_nonzero _ E), E. reflexivity.
Qed.

(** C1 (the code departs from the claim). Two candidates whose shop has
    no coordinates are both at distance [Infinity]: the claim ranks the one
    priced 100 before the one priced 200, the deterministic ranking returns
    them in the order of the query result, the dearer one first. Two
    candidates of one shop that both lack a price tie on distance and on
    price: the claim ranks the one rated 5 before the one rated 3, the
    ranking again keeps the order of the query result. Both on every
    engine, for every query and location. *)
Theorem ranking_leaves_infinite_ties_unbroken
    (rt : Runtime) (query latitude longitude : Js.value) :
  map (fun r => (Recommendation.rank r, Recommendation.product_name r,
                 Recommendation.price r, Recommendation.distance_km r))
      (recommendations (rankLocally rt query latitude longitude Sample.unlocated))
  = [ (1, "Paneer Pizza", Some 200%float, None);
      (2, "Veg Pizza", Some 100%float, None) ]
  /\ map (fun r => (Recommendation.rank r, Recommendation.product_name r,
                    Recommendation.price r, Recommendation.rating r))
        (recommendations (rankLocally rt query latitude longitude Sample.unpriced))
     = [ (1, "Chef Special", None, 3%float); (2, "Daily Special", None, 5%float) ].
Proof.
  split.
  - unfold rankLocally, ranked, Sample.unlocated; cbn [recommendations map].
    rewrite !enrich_missing_shop by reflexivity.
    vm_compute. reflexivity.
  - unfold rankLocally, ranked, Sample.unpriced, Array_sort;
      cbn [recommendations map fold_right insert].
    rewrite tie_without_price by reflexivity.
    reflexivity.
Qed.

(** The sample sine is odd: its outer product carries the sign. *)
Lemma sample_sin_odd (x : float) : Sample.sin (- x) = (- Sample.sin x)%float.
Proof.
  unfold Sample.sin.
  rewrite FloatFacts.mul_opp_opp, FloatFacts.mul_opp_l. reflexivity.
Qed.

(** [a == b] on two distances that are the same value holds unless the
    value is NaN. *)
Lemma distance_equals_itself (d d' : float) :
  d = d' -> (d =? d')%float = negb (Js.is_nan d).
Proof. intros <-. unfold Js.is_nan. rewrite negb_involutive. reflexivity. Qed.




(** On the sample engine: two points about a kilometre and a half apart,
    either way round, a point and itself, and a shop without coordinates. *)
Example distance_samples :
  Geo.distanceKm Sample.engine (Js.Num 12.97) (Js.Num 77.59) (Js.Num 12.98) (Js.Num 77.6)
  = Geo.distanceKm Sample.engine (Js.Num 12.98) (Js.Num 77.6) (Js.Num 12.97) (Js.Num 77.59)
  /\ Sample.toFixed
       (Geo.distanceKm Sample.engine (Js.Num 12.97) (Js.Num 77.59)
          (Js.Num 12.98) (Js.Num 77.6)) 2 = "1.55"
  /\ Geo.distanceKm Sample.engine (Js.Num 12.97) (Js.Num 77.59)
       (Js.Num 12.97) (Js.Num 77.59) = 0%float
  /\ Geo.distanceKm Sample.engine (Js.Num 12.97) (Js.Num 77.59) Js.Null Js.Null = infinity.
Proof. vm_compute. repeat split; reflexivity. Qed.


(** * Further properties

    The early returns and the errors of [findProducts], the ranking on
    candidates with missing keys, the cleaning of the model's reply, the
    handlers' responses, the endpoints behind [protectRoute], the loader of
    the local models and the trend handler. *)

(** ** The name filter and the early returns of [findProducts] *)

Lemma trimStart_blank (s : string) : blank s = true -> Js.trimStart s = "".
Proof.
  induction s as [| c s IH]; simpl; [reflexivity |].
  destruct (Js.isSpace c); simpl; [exact IH | discriminate].
Qed.

Lemma trimStart_not_blank (s : string) :
  blank s = false ->
  exists c s', Js.trimStart s = String c s' /\ Js.isSpace c = false.
Proof.
  induction s as [| c s IH]; simpl; [discriminate |].
  destruct (Js.isSpace c) eqn:E; simpl; [exact IH |].
  intros _. exists c, s. auto.
Qed.

Lemma trim_length (s : string) :
  (0 <? String.length (Js.trim s))%nat = negb (blank s).
Proof.
  unfold Js.trim. destruct (blank s) eqn:B.
  - rewrite (trimStart_blank s B). reflexivity.
  - destruct (trimStart_not_blank s B) as (c & s' & -> & Hc).
    simpl. rewrite Hc. reflexivity.
Qed.

Lemma hasQuery_text (env : Env) (q : string) :
  hasQuery env (Js.Str q) = negb (blank q).
Proof.
  unfold hasQuery. cbn [Js.truthy ToString]. rewrite trim_length.
  destruct q as [| c q]; reflexivity.
Qed.

(** [findProducts], once the shop lookup has found shops. *)
Lemma findProducts_with_shops (env : Env) (query latitude longitude : Js.value)
    (s : NearbyShop.t) (shops : list NearbyShop.t) :
  error (nearby_shops env latitude longitude) = None ->
  data (nearby_shops env latitude longitude) = Some (s :: shops) ->
  let shopIds := map NearbyShop.id (s :: shops) in
  let found := products_in env shopIds (nameFilter env query) in
  findProducts env query latitude longitude
  = match error found with
    | Some productsError =>
        ([CallNearbyShops latitude longitude; CallProducts shopIds (nameFilter env query)],
         Throw (DbError productsError))
    | None =>
        match data found with
        | None | Some [] =>
            ([CallNearbyShops latitude longitude; CallProducts shopIds (nameFilter env query)],
             Return (Built (mkResult
               ("No products "
                ++ (if hasQuery env query
                    then "matching " ++ Js.quote ++ ToString (runtime env) query
                         ++ Js.quote ++ " "
                    else "")
                ++ "found in nearby shops.") [])))
        | Some products =>
            let (t, r) := rank env query latitude longitude products in
            (CallNearbyShops latitude longitude
             :: CallProducts shopIds (nameFilter env query) :: t, r)
        end
    end.
Proof.
  intros He Hd. cbn zeta. unfold findProducts, bind, call, nameFilter.
  rewrite He, Hd.
  match goal with
  | |- context [products_in env ?ids ?pat] =>
      destruct (error (products_in env ids pat)); [reflexivity |];
      destruct (data (products_in env ids pat)) as [[| p products] |];
      try reflexivity
  end.
  destruct (rank env query latitude longitude (p :: products)) as [t r]. reflexivity.
Qed.

(** X2. When shops are found, the product query of [findProducts] for a
    text [q] of ASCII characters carries the name filter [%q%], with [q]
    as it was given, unless [q] is empty or made of white space only (tab,
    line feed, vertical tab, form feed, carriage return, space): then it
    carries no name filter. *)
Theorem name_filter_unless_blank
    (env : Env) (q : string) (latitude longitude : Js.value)
    (s : NearbyShop.t) (shops : list NearbyShop.t) :
  asciiText q = true ->
  error (nearby_shops env latitude longitude) = None ->
  data (nearby_shops env latitude longitude) = Some (s :: shops) ->
  exists rest,
    trace (findProducts env (Js.Str q) latitude longitude)
    = CallNearbyShops latitude longitude
      :: CallProducts (map NearbyShop.id (s :: shops))
           (if blank q then None else Some ("%" ++ q ++ "%")%string)
      :: rest.
Proof.
  intros _ He Hd.
  rewrite (findProducts_with_shops env (Js.Str q) latitude longitude s shops He Hd).
  unfold nameFilter. rewrite hasQuery_text. cbn [ToString].
  destruct (blank q); cbn [negb];
    match goal with
    | |- context [products_in env ?ids ?pat] =>
        destruct (error (products_in env ids pat)); [eexists; reflexivity |];
        destruct (data (products_in env ids pat)) as [[| p products] |];
        try (eexists; reflexivity)
    end;
    match goal with
    | |- context [rank env ?a ?b ?c ?d] => destruct (rank env a b c d) as [t r]
    end; eexists; reflexivity.
Qed.

Lemma name_filter_unless_blank_witness :
  exists rest,
    trace (findProducts Sample.offline (Js.Str "  ") (Js.Num 12.97) (Js.Num 77.59))
    = CallNearbyShops (Js.Num 12.97) (Js.Num 77.59) :: CallProducts [1; 2] None :: rest.
Proof.
  apply (name_filter_unless_blank Sample.offline "  " (Js.Num 12.97) (Js.Num 77.59)
           (NearbyShop.mk 1) [NearbyShop.mk 2]).
  - reflexivity.
  - reflexivity.
  - reflexivity.
Defined.

Example name_filter_samples :
  trace (findProducts Sample.offline (Js.Str " tea ") (Js.Num 12.97) (Js.Num 77.59))
  = [CallNearbyShops (Js.Num 12.97) (Js.Num 77.59); CallProducts [1; 2] (Some "% tea %")].
Proof. vm_compute. reflexivity. Qed.


(** X4. When shops are found and the product query finds nothing ([null]
    or an empty array), [findProducts] returns no recommendation and a
    summary that names the query only if the name filter was applied; the
    two storage calls are the only calls it made. *)
Theorem no_products_found
    (env : Env) (query latitude longitude : Js.value)
    (s : NearbyShop.t) (shops : list NearbyShop.t) :
  error (nearby_shops env latitude longitude) = None ->
  data (nearby_shops env latitude longitude) = Some (s :: shops) ->
  let shopIds := map NearbyShop.id (s :: shops) in
  let found := products_in env shopIds (nameFilter env query) in
  error found = None ->
  data found = None \/ data found = Some [] ->
  let q :=
    if hasQuery env query
    then ("matching " ++ Js.quote ++ ToString (runtime env) query ++ Js.quote ++ " ")%string
    else "" in
  findProducts env query latitude longitude
  = ([CallNearbyShops latitude longitude; CallProducts shopIds (nameFilter env query)],
     Return (Built (mkResult ("No products " ++ q ++ "found in nearby shops.") []))).
Proof.
  intros He Hd. cbn zeta. intros Hpe Hpd.
  rewrite (findProducts_with_shops env query latitude longitude s shops He Hd).
  cbn zeta. rewrite Hpe.
  destruct Hpd as [-> | ->]; reflexivity.
Qed.

Lemma no_products_found_witness :
  findProducts Sample.offline (Js.Str "sushi") (Js.Num 12.97) (Js.Num 77.59)
  = ([CallNearbyShops (Js.Num 12.97) (Js.Num 77.59); CallProducts [1; 2] (Some "%sushi%")],
     Return (Built (mkResult
       ("No products matching " ++ Js.quote ++ "sushi" ++ Js.quote
        ++ " found in nearby shops.") []))).
Proof.
  apply (no_products_found Sample.offline (Js.Str "sushi") (Js.Num 12.97) (Js.Num 77.59)
           (NearbyShop.mk 1) [NearbyShop.mk 2]).
  - reflexivity.
  - reflexivity.
  - reflexivity.
  - right. reflexivity.
Defined.

(** ** The recommendations and the products they are made of *)

Section SortMore.

Context {A : Type}.
Variable comparefn : A -> A -> float.

Lemma insert_Permutation (x : A) (l : list A) :
  Permutation (insert comparefn x l) (x :: l).
Proof.
  induction l as [| y l IH]; simpl.
  - apply Permutation_refl.
  - destruct (Js.gtb (sortCompare comparefn x y) 0).
    + apply perm_trans with (y :: x :: l).
      * apply perm_skip. exact IH.
      * apply perm_swap.
    + apply Permutation_refl.
Qed.

Lemma Array_sort_Permutation (l : list A) :
  Permutation (Array_sort comparefn l) l.
Proof.
  unfold Array_sort. induction l as [| x l IH]; simpl.
  - apply perm_nil.
  - apply perm_trans with (x :: fold_right (insert comparefn) [] l).
    + apply insert_Permutation.
    + apply perm_skip. exact IH.
Qed.

End SortMore.

(** Sorting the images of a list is sorting the list by the images. *)
Lemma insert_map {A B} (f : A -> B) (comparefn : B -> B -> float) (x : A) (l : list A) :
  insert comparefn (f x) (map f l)
  = map f (insert (fun a b => comparefn (f a) (f b)) x l).
Proof.
  induction l as [| y l IH]; simpl; [reflexivity |].
  change (sortCompare (fun a b => comparefn (f a) (f b)) x y)
    with (sortCompare comparefn (f x) (f y)).
  destruct (Js.gtb (sortCompare comparefn (f x) (f y)) 0); simpl;
    [rewrite IH |]; reflexivity.
Qed.

Lemma Array_sort_map {A B} (f : A -> B) (comparefn : B -> B -> float) (l : list A) :
  Array_sort comparefn (map f l)
  = map f (Array_sort (fun a b => comparefn (f a) (f b)) l).
Proof.
  unfold Array_sort. induction l as [| x l IH]; simpl; [reflexivity |].
  rewrite IH. apply insert_map.
Qed.

Lemma mapi_from_map {A B C} (f : A -> B) (g : B -> nat -> C) (l : list A) (i : nat) :
  mapi_from g i (map f l) = mapi_from (fun x idx => g (f x) idx) i l.
Proof.
  revert i. induction l as [| x l IH]; intro i; simpl; [| rewrite IH]; reflexivity.
Qed.

(** X5. The recommendations of the deterministic ranking are made of
    [min 3 n] of the [n] products found, each product at most once (by
    its place in the query result), in positions 0, 1, 2: no
    recommendation is invented and none is repeated. *)
Theorem recommendations_are_distinct_products
    (rt : Runtime) (query latitude longitude : Js.value) (products : list Products.t) :
  exists chosen rest,
    Permutation (chosen ++ rest) products
    /\ List.length chosen = Nat.min 3 (List.length products)
    /\ recommendations (rankLocally rt query latitude longitude products)
       = mapi (recommend rt latitude longitude) chosen.
Proof.
  set (byKeys := fun a b => compareEnriched (enrich rt latitude longitude a)
                              (enrich rt latitude longitude b)).
  exists (firstn 3 (Array_sort byKeys products)), (skipn 3 (Array_sort byKeys products)).
  split; [| split].
  - rewrite firstn_skipn. apply Array_sort_Permutation.
  - rewrite length_firstn, Array_sort_length. reflexivity.
  - unfold rankLocally, ranked, mapi, recommend; cbn [recommendations].
    rewrite Array_sort_map, firstn_map, mapi_from_map. reflexivity.
Qed.

Lemma finite_is_not_infinity (f : float) :
  Js.isFinite f = true -> (f =? infinity)%float = false.
Proof.
  intro H. rewrite eqb_spec.
  destruct (FloatFacts.isFinite_spec f H) as [[s ->] | (s & m & e & ->)];
    destruct s; reflexivity.
Qed.

(** X6. The price of a recommendation is the price of its product when
    that is a finite number, and [null] in every other case (no price, a
    price that is not a number, NaN or an infinity): the [Infinity] that
    stands for a missing price while sorting is turned back into [null],
    and no price a product has is taken for it. *)
Theorem missing_price_is_reported_null
    (rt : Runtime) (latitude longitude : Js.value) (p : Products.t) (idx : nat) :
  Recommendation.price (recommend rt latitude longitude p idx)
  = match Products.price p with
    | Js.Num f => if Js.isFinite f then Some f else None
    | _ => None
    end.
Proof.
  unfold recommend, toRecommendation, enrich; cbn [Recommendation.price Enriched.price].
  unfold Js.safeNumber.
  destruct (Products.price p) as [| | b | f | s | elems | fields]; try reflexivity.
  destruct (Js.isFinite f) eqn:E; [| reflexivity].
  rewrite (finite_is_not_infinity f E). reflexivity.
Qed.

(** ** The sort keeps the order of candidates with equal keys *)

Section Stability.

Local Open Scope float_scope.

Lemma same_keys_tie (k x y : Enriched.t) :
  finiteKeys k -> finiteKeys x -> finiteKeys y ->
  sameKeys k x = true -> sameKeys k y = true ->
  Js.gtb (sortCompare compareEnriched x y) 0 = false.
Proof.
  intros Hk Hx Hy Hkx Hky. rewrite (placed_after x y Hx Hy).
  unfold sameKeys in Hkx, Hky.
  apply andb_prop in Hkx. destruct Hkx as [Hkx Hrx].
  apply andb_prop in Hkx. destruct Hkx as [Hdx Hpx].
  apply andb_prop in Hky. destruct Hky as [Hky Hry].
  apply andb_prop in Hky. destruct Hky as [Hdy Hpy].
  destruct Hk as (? & ? & ?), Hx as (? & ? & ?), Hy as (? & ? & ?).
  rewrite FloatFacts.eqb_key in Hdx, Hpx, Hrx, Hdy, Hpy, Hry by assumption.
  assert (Ed : (Enriched.distance_km x =? Enriched.distance_km y) = true)
    by (apply FloatFacts.eqb_key; [assumption | assumption | lia]).
  assert (Ep : (Enriched.price x =? Enriched.price y) = true)
    by (apply FloatFacts.eqb_key; [assumption | assumption | lia]).
  rewrite Ed, Ep. cbn [negb]. unfold Js.gtb.
  destruct (Enriched.rating x <? Enriched.rating y) eqn:E; [| reflexivity].
  apply FloatFacts.ltb_key in E; [lia | assumption | assumption].
Qed.

Lemma filter_insert (k x : Enriched.t) (l : list Enriched.t) :
  finiteKeys k -> finiteKeys x -> Forall finiteKeys l ->
  filter (sameKeys k) (insert compareEnriched x l)
  = filter (sameKeys k) (x :: l).
Proof.
  intros Hk Hx Hl. induction Hl as [| y l Hy Hl IH]; [reflexivity |].
  cbn [insert].
  destruct (Js.gtb (sortCompare compareEnriched x y) 0) eqn:E; [| reflexivity].
  cbn [filter] in *. rewrite IH.
  destruct (sameKeys k x) eqn:Ex; [| reflexivity].
  destruct (sameKeys k y) eqn:Ey; [| reflexivity].
  rewrite (same_keys_tie k x y Hk Hx Hy Ex Ey) in E. discriminate E.
Qed.

Lemma Array_sort_finite (l : list Enriched.t) :
  Forall finiteKeys l -> Forall finiteKeys (Array_sort compareEnriched l).
Proof.
  intro H. apply Forall_forall. intros z Hz. apply Array_sort_In in Hz.
  rewrite Forall_forall in H. auto.
Qed.

(** X7. The sort of the deterministic ranking is stable: among candidates
    whose keys are finite numbers, those with the same distance, price and
    rating as a candidate [k] come out in the order in which they went
    in. *)
Theorem ranking_is_stable (k : Enriched.t) (l : list Enriched.t) :
  finiteKeys k -> Forall finiteKeys l ->
  filter (sameKeys k) (Array_sort compareEnriched l) = filter (sameKeys k) l.
Proof.
  intros Hk Hl. induction Hl as [| x l Hx Hl IH]; [reflexivity |].
  change (Array_sort compareEnriched (x :: l))
    with (insert compareEnriched x (Array_sort compareEnriched l)).
  rewrite (filter_insert k x _ Hk Hx (Array_sort_finite l Hl)).
  cbn [filter]. rewrite IH. reflexivity.
Qed.

End Stability.

Lemma ranking_is_stable_witness :
  filter (sameKeys (Enriched.mk "twin" 200 2 "s" None None 2.5))
    (Array_sort compareEnriched
       (Enriched.mk "first" 200 2 "t" None None 2.5
        :: Enriched.mk "second" 200 2 "s" None None 2.5 :: Sample.shortlist))
  = filter (sameKeys (Enriched.mk "twin" 200 2 "s" None None 2.5))
      (Enriched.mk "first" 200 2 "t" None None 2.5
       :: Enriched.mk "second" 200 2 "s" None None 2.5 :: Sample.shortlist).
Proof.
  apply (ranking_is_stable (Enriched.mk "twin" 200 2 "s" None None 2.5)
           (Enriched.mk "first" 200 2 "t" None None 2.5
            :: Enriched.mk "second" 200 2 "s" None None 2.5 :: Sample.shortlist)).
  - repeat constructor.
  - repeat constructor.
Defined.

Example stable_on_twins :
  map Enriched.product_name
    (Array_sort compareEnriched
       (Enriched.mk "first" 200 2 "t" None None 2.5
        :: Enriched.mk "second" 200 2 "s" None None 2.5 :: Sample.shortlist))
  = ["near"; "cheap"; "good"; "first"; "second"; "poor"].
Proof. vm_compute. reflexivity. Qed.

(** ** The order of the ranking when distances or prices are missing *)

Section Ordinary.

Local Open Scope float_scope.

Lemma bounded_above (m : positive) (e : Z) :
  bounded prec emax m e = true -> (e <= 971)%Z.
Proof.
  unfold bounded. intro H. apply andb_true_iff in H. destruct H as [_ H].
  apply Z.leb_le in H. unfold prec, emax in H. lia.
Qed.

Lemma key_bounds (x : float) :
  Js.isFinite x = true -> (-3000 < fst (key x) < 3000)%Z.
Proof.
  intro H. unfold key.
  pose proof (Prim2SF_valid x) as V.
  destruct (FloatFacts.isFinite_spec x H) as [[s E] | (s & m & e & E)];
    rewrite E in *; cbn [SFkey fst].
  - lia.
  - cbn [valid_binary] in V.
    pose proof (bounded_above _ _ V).
    destruct (FloatFacts.bounded_facts _ _ V) as (_ & ? & _).
    destruct s; cbn [fst]; lia.
Qed.

Lemma xkey_finite (x : float) : Js.isFinite x = true -> xkey x = key x.
Proof. intro H. unfold xkey. rewrite (finite_is_not_infinity x H). reflexivity. Qed.

Lemma xkey_infinity : xkey infinity = (3000, 0)%Z.
Proof. reflexivity. Qed.

Lemma finite_below_infinity (x : float) :
  Js.isFinite x = true ->
  (x <? infinity) = true /\ (infinity <? x) = false
  /\ (x =? infinity) = false /\ (infinity =? x) = false
  /\ (x <=? infinity) = true /\ (infinity <=? x) = false.
Proof.
  intro H. rewrite !ltb_spec, !eqb_spec, !leb_spec.
  destruct (FloatFacts.isFinite_spec x H) as [[s ->] | (s & m & e & ->)];
    destruct s; repeat split; reflexivity.
Qed.

Lemma xltb_key (x y : float) :
  ordinary x -> ordinary y ->
  ((x <? y) = true
   <-> (fst (xkey x) < fst (xkey y)
        \/ (fst (xkey x) = fst (xkey y) /\ snd (xkey x) < snd (xkey y)))%Z).
Proof.
  intros [Hx | ->] [Hy | ->]; rewrite ?xkey_infinity, ?xkey_finite by assumption.
  - apply FloatFacts.ltb_key; assumption.
  - destruct (finite_below_infinity x Hx) as (-> & _).
    pose proof (key_bounds x Hx). cbn [fst snd]. split; [lia | reflexivity].
  - destruct (finite_below_infinity y Hy) as (_ & -> & _).
    pose proof (key_bounds y Hy). cbn [fst snd]. split; [discriminate | lia].
  - cbn [fst snd]. split; [discriminate | lia].
Qed.

Lemma xeqb_key (x y : float) :
  ordinary x -> ordinary y ->
  ((x =? y) = true
   <-> (fst (xkey x) = fst (xkey y) /\ snd (xkey x) = snd (xkey y))%Z).
Proof.
  intros [Hx | ->] [Hy | ->]; rewrite ?xkey_infinity, ?xkey_finite by assumption.
  - apply FloatFacts.eqb_key; assumption.
  - destruct (finite_below_infinity x Hx) as (_ & _ & -> & _).
    pose proof (key_bounds x Hx). cbn [fst snd]. split; [discriminate | lia].
  - destruct (finite_below_infinity y Hy) as (_ & _ & _ & -> & _).
    pose proof (key_bounds y Hy). cbn [fst snd]. split; [discriminate | lia].
  - cbn [fst snd]. split; [lia | reflexivity].
Qed.

Lemma xleb_key (x y : float) :
  Js.isFinite x = true -> Js.isFinite y = true ->
  ((x <=? y) = true
   <-> (fst (xkey x) < fst (xkey y)
        \/ (fst (xkey x) = fst (xkey y) /\ snd (xkey x) <= snd (xkey y)))%Z).
Proof.
  intros Hx Hy. rewrite !xkey_finite by assumption.
  apply FloatFacts.leb_key; assumption.
Qed.

Lemma ordinary_infinity : ordinary infinity.
Proof. right. reflexivity. Qed.

Lemma ordinary_finite (x : float) : Js.isFinite x = true -> ordinary x.
Proof. intro H. left. exact H. Qed.

Lemma gtb_tie (v : float) : Js.gtb (if Js.is_nan v then 0 else v) 0 = Js.gtb v 0.
Proof.
  destruct (Js.is_nan v) eqn:E; [| reflexivity].
  rewrite (FloatFacts.gtb_nan v E). reflexivity.
Qed.

(** One key of the comparison: the difference decides unless it is zero;
    the difference of two [Infinity] keys is NaN, which the sort reads as
    a tie. *)
Lemma decide_by (x y rest : float) :
  ordinary x -> ordinary y ->
  Js.gtb (let v := if Js.nonzero (x - y) then x - y else rest in
          if Js.is_nan v then 0 else v) 0
  = if (x =? infinity) && (y =? infinity) then false
    else if negb (x =? y) then Js.gtb x y
         else Js.gtb (if Js.is_nan rest then 0 else rest) 0.
Proof.
  cbv zeta. intros [Hx | ->] [Hy | ->].
  - rewrite (finite_is_not_infinity x Hx). cbn [andb].
    rewrite (FloatFacts.sub_nonzero x y Hx Hy).
    destruct (x =? y); cbn [negb]; [reflexivity |].
    rewrite gtb_tie. apply FloatFacts.sub_gtb; assumption.
  - rewrite (finite_is_not_infinity x Hx). cbn [andb negb].
    rewrite (finite_minus_infinity x Hx).
    destruct (finite_below_infinity x Hx) as (_ & H & _). unfold Js.gtb. rewrite H.
    reflexivity.
  - rewrite (finite_is_not_infinity y Hy), andb_false_r.
    rewrite (infinity_minus_finite y Hy).
    destruct (finite_below_infinity y Hy) as (H1 & _ & _ & H2 & _).
    unfold Js.gtb. rewrite H1, H2. reflexivity.
  - reflexivity.
Qed.

(** What the sort tests on candidates [enrich] makes. *)
Lemma decided_after (a b : Enriched.t) :
  rankable a -> rankable b ->
  Js.gtb (sortCompare compareEnriched a b) 0
  = if (Enriched.distance_km a =? infinity) && (Enriched.distance_km b =? infinity)
    then false
    else if negb (Enriched.distance_km a =? Enriched.distance_km b)
    then Js.gtb (Enriched.distance_km a) (Enriched.distance_km b)
    else if (Enriched.price a =? infinity) && (Enriched.price b =? infinity)
    then false
    else if negb (Enriched.price a =? Enriched.price b)
    then Js.gtb (Enriched.price a) (Enriched.price b)
    else Js.gtb (Enriched.rating b) (Enriched.rating a).
Proof.
  intros (Hda & Hpa & Hra) (Hdb & Hpb & Hrb).
  unfold sortCompare, compareEnriched.
  rewrite (decide_by _ _ _ Hda Hdb).
  rewrite (decide_by _ _ _ Hpa Hpb).
  rewrite gtb_tie, (FloatFacts.sub_gtb _ _ Hrb Hra). reflexivity.
Qed.

Ltac ordinary_facts :=
  repeat match goal with
         | H : rankable _ |- _ => destruct H as (? & ? & ?)
         end;
  pose proof ordinary_infinity;
  repeat match goal with
         | H : Js.isFinite ?x = true |- _ =>
             lazymatch goal with
             | _ : ordinary x |- _ => fail
             | _ => pose proof (ordinary_finite x H)
             end
         end.

Ltac ordinary_keys :=
  ordinary_facts;
  unfold decidedBefore, Js.gtb in *;
  repeat match goal with
         | H : (?x <? ?y) = true |- _ =>
             apply (proj1 (xltb_key x y ltac:(assumption) ltac:(assumption))) in H
         | H : (?x =? ?y) = true |- _ =>
             apply (proj1 (xeqb_key x y ltac:(assumption) ltac:(assumption))) in H
         | H : (?x <? ?y) = false |- _ =>
             apply (proj1 (bool_true_iff _ _
                             (xltb_key x y ltac:(assumption) ltac:(assumption)))) in H
         | H : (?x =? ?y) = false |- _ =>
             apply (proj1 (bool_true_iff _ _
                             (xeqb_key x y ltac:(assumption) ltac:(assumption)))) in H
         end;
  repeat match goal with
         | |- context [(?x <? ?y)] => rewrite (xltb_key x y) by assumption
         | |- context [(?x =? ?y)] => rewrite (xeqb_key x y) by assumption
         | |- context [(?x <=? ?y)] => rewrite (xleb_key x y) by assumption
         end;
  rewrite ?xkey_infinity in *; cbn [fst snd] in *.

Lemma decided_after_then_before (a b : Enriched.t) :
  rankable a -> rankable b ->
  Js.gtb (sortCompare compareEnriched a b) 0 = true -> decidedBefore b a.
Proof.
  intros Ha Hb. rewrite (decided_after a b Ha Hb).
  destruct (Enriched.distance_km a =? infinity) eqn:Eai;
    destruct (Enriched.distance_km b =? infinity) eqn:Ebi; cbn [andb];
    try discriminate;
    (destruct (Enriched.distance_km a =? Enriched.distance_km b) eqn:Ed; cbn [negb];
     [destruct (Enriched.price a =? infinity) eqn:Epa;
      destruct (Enriched.price b =? infinity) eqn:Epb; cbn [andb];
      try discriminate;
      destruct (Enriched.price a =? Enriched.price b) eqn:Ep; cbn [negb] |]);
    intro H; ordinary_keys; lia.
Qed.

Lemma decided_not_after_then_before (a b : Enriched.t) :
  rankable a -> rankable b ->
  Js.gtb (sortCompare compareEnriched a b) 0 = false -> decidedBefore a b.
Proof.
  intros Ha Hb. rewrite (decided_after a b Ha Hb).
  destruct (Enriched.distance_km a =? infinity) eqn:Eai;
    destruct (Enriched.distance_km b =? infinity) eqn:Ebi; cbn [andb];
    (destruct (Enriched.distance_km a =? Enriched.distance_km b) eqn:Ed; cbn [negb];
     [destruct (Enriched.price a =? infinity) eqn:Epa;
      destruct (Enriched.price b =? infinity) eqn:Epb; cbn [andb];
      destruct (Enriched.price a =? Enriched.price b) eqn:Ep; cbn [negb] |]);
    intro H; ordinary_keys; lia.
Qed.

Lemma decidedBefore_trans (a b c : Enriched.t) :
  rankable a -> rankable b -> rankable c ->
  decidedBefore a b -> decidedBefore b c -> decidedBefore a c.
Proof.
  intros Ha Hb Hc Hab Hbc. ordinary_facts. unfold decidedBefore in *.
  repeat match goal with
         | H : context [(?x <? ?y)] |- _ =>
             rewrite (xltb_key x y) in H by assumption
         | H : context [(?x =? ?y)] |- _ =>
             rewrite (xeqb_key x y) in H by assumption
         | H : context [(?x <=? ?y)] |- _ =>
             rewrite (xleb_key x y) in H by assumption
         | |- context [(?x <? ?y)] => rewrite (xltb_key x y) by assumption
         | |- context [(?x =? ?y)] => rewrite (xeqb_key x y) by assumption
         | |- context [(?x <=? ?y)] => rewrite (xleb_key x y) by assumption
         end.
  rewrite ?xkey_infinity in *. cbn [fst snd] in *. lia.
Qed.

Lemma decided_insert_sorted (x : Enriched.t) (l : list Enriched.t) :
  rankable x -> Forall rankable l ->
  StronglySorted decidedBefore l ->
  StronglySorted decidedBefore (insert compareEnriched x l).
Proof.
  intros Hx Hl Hs. induction Hs as [| y l Hs IH Hy]; simpl.
  - constructor; constructor.
  - inversion Hl as [| ? ? Hfy Hfl]; subst.
    destruct (Js.gtb (sortCompare compareEnriched x y) 0) eqn:E.
    + constructor; [apply IH; assumption |].
      apply Forall_forall. intros z Hz. apply insert_In in Hz.
      destruct Hz as [-> | Hz].
      * apply decided_after_then_before; assumption.
      * rewrite Forall_forall in Hy. apply Hy. exact Hz.
    + constructor; [constructor; assumption |].
      pose proof (decided_not_after_then_before x y Hx Hfy E) as Hxy.
      constructor; [exact Hxy |].
      rewrite Forall_forall in Hy, Hfl |- *. intros z Hz.
      apply (decidedBefore_trans x y z); auto.
Qed.

Lemma Array_sort_rankable (l : list Enriched.t) :
  Forall rankable l -> Forall rankable (Array_sort compareEnriched l).
Proof.
  intro H. apply Forall_forall. intros z Hz. apply Array_sort_In in Hz.
  rewrite Forall_forall in H. auto.
Qed.

Lemma Array_sort_decided (l : list Enriched.t) :
  Forall rankable l -> StronglySorted decidedBefore (Array_sort compareEnriched l).
Proof.
  intro H. induction H as [| x l Hx Hl IH]; [constructor |].
  change (Array_sort compareEnriched (x :: l))
    with (insert compareEnriched x (Array_sort compareEnriched l)).
  apply decided_insert_sorted; [exact Hx | apply Array_sort_rankable; exact Hl | exact IH].
Qed.

End Ordinary.

Lemma safeNumber_ordinary (v : Js.value) :
  ordinary (Js.safeNumber v infinity) /\ Js.isFinite (Js.safeNumber v 0) = true.
Proof.
  unfold Js.safeNumber.
  destruct v as [| | b | f | s | elems | fields];
    try (split; [right; reflexivity | reflexivity]).
  destruct (Js.isFinite f) eqn:E; split; try (left; exact E); try exact E;
    try (right; reflexivity); reflexivity.
Qed.

(** X8. Whatever the prices and ratings of the products, when every
    distance is a finite number or [Infinity] (no coordinates) the sorted
    candidates are in this order, each before all that follow it: nearer
    first; at one finite distance the cheaper first, a product without a
    price after the priced ones; at one finite distance and one price the
    rating not lower. Candidates at distance [Infinity] are in no order
    among themselves, nor are candidates of one distance without a
    price. *)
Theorem ranking_order_as_decided
    (rt : Runtime) (latitude longitude : Js.value) (products : list Products.t) :
  Forall (fun p => ordinary (Enriched.distance_km (enrich rt latitude longitude p)))
    products ->
  StronglySorted decidedBefore
    (Array_sort compareEnriched (map (enrich rt latitude longitude) products)).
Proof.
  intro H. apply Array_sort_decided.
  apply Forall_forall. intros e He. apply in_map_iff in He.
  destruct He as (p & <- & Hp). rewrite Forall_forall in H.
  split; [apply H; exact Hp |].
  unfold enrich; cbn [Enriched.price Enriched.rating].
  split; apply safeNumber_ordinary.
Qed.

Lemma ranking_order_as_decided_witness :
  StronglySorted decidedBefore
    (Array_sort compareEnriched
       (map (enrich Sample.engine (Js.Num 12.97) (Js.Num 77.59)) Sample.mixed)).
Proof.
  apply (ranking_order_as_decided Sample.engine (Js.Num 12.97) (Js.Num 77.59) Sample.mixed).
  repeat (apply Forall_cons;
          [first [left; vm_compute; reflexivity | right; vm_compute; reflexivity] |]).
  apply Forall_nil.
Defined.

Example mixed_ranking :
  map Recommendation.product_name
    (recommendations (rankLocally Sample.engine (Js.Str "") (Js.Num 12.97) (Js.Num 77.59)
                        Sample.mixed))
  = ["Cheese Burger"; "Chef Special"; "Veg Burger"].
Proof. vm_compute. reflexivity. Qed.

(** ** The model's reply on its way to [JSON.parse] *)

Lemma append_empty (s : string) : (s ++ "")%string = s.
Proof. induction s as [| c s IH]; simpl; [| rewrite IH]; reflexivity. Qed.

Lemma prefix_cons (a b : ascii) (p s : string) :
  String.prefix (String a p) (String b s)
  = if Ascii.eqb b a then String.prefix p s else false.
Proof.
  simpl. destruct (ascii_dec a b) as [E | E].
  - subst b. rewrite Ascii.eqb_refl. reflexivity.
  - destruct (Ascii.eqb_spec b a) as [E' | _]; [congruence | reflexivity].
Qed.

Lemma prefix_empty (s : string) : String.prefix "" s = true.
Proof. destruct s; reflexivity. Qed.

Lemma prefix_of_empty (p : string) : String.prefix p "" = true -> p = "".
Proof. destruct p; [reflexivity | discriminate]. Qed.

Lemma prefix_append (p rest : string) : String.prefix p (p ++ rest) = true.
Proof.
  induction p as [| a p IH]; [apply prefix_empty |].
  cbn [String.append]. rewrite prefix_cons, Ascii.eqb_refl. exact IH.
Qed.

Lemma prefix_split (p s : string) :
  String.prefix p s = true -> exists rest, s = (p ++ rest)%string.
Proof.
  revert s. induction p as [| a p IH]; intro s; [intros _; exists s; reflexivity |].
  destruct s as [| b s];
    [intro H; apply prefix_of_empty in H; discriminate H |].
  rewrite prefix_cons. destruct (Ascii.eqb b a) eqn:E; [| intro H; discriminate H].
  apply Ascii.eqb_eq in E. subst b.
  intro H. destruct (IH s H) as [rest ->]. exists rest. reflexivity.
Qed.

Lemma includes_cons (c : ascii) (s pat : string) :
  Js.includes (String c s) pat = String.prefix pat (String c s) || Js.includes s pat.
Proof. reflexivity. Qed.

Lemma fence_prefix (s : string) :
  String.prefix "```" s = (3 <=? ticks s)%nat.
Proof.
  destruct s as [| c1 s]; [reflexivity |].
  rewrite prefix_cons. cbn [ticks]. destruct (Ascii.eqb c1 "`"); [| reflexivity].
  destruct s as [| c2 s]; [reflexivity |].
  rewrite prefix_cons. cbn [ticks]. destruct (Ascii.eqb c2 "`"); [| reflexivity].
  destruct s as [| c3 s]; [reflexivity |].
  rewrite prefix_cons. cbn [ticks].
  destruct (Ascii.eqb c3 "`"); [destruct s; reflexivity | reflexivity].
Qed.

(** Removing the fences from a text that starts with one. *)
Lemma removeAll_fence (s : string) :
  (3 <=? ticks s)%nat = true ->
  exists s', s = ("```" ++ s')%string
             /\ Js.removeAll "```" s = Js.removeAll "```" s'
             /\ ticks s = 3 + ticks s'.
Proof.
  destruct s as [| c1 s]; [discriminate |]. cbn [ticks].
  destruct (Ascii.eqb_spec c1 "`") as [-> |]; [| discriminate].
  destruct s as [| c2 s]; [discriminate |]. cbn [ticks].
  destruct (Ascii.eqb_spec c2 "`") as [-> |]; [| discriminate].
  destruct s as [| c3 s]; [discriminate |]. cbn [ticks].
  destruct (Ascii.eqb_spec c3 "`") as [-> |]; [| discriminate].
  intros _. exists s. split; [reflexivity |]. split; [| reflexivity].
  unfold Js.removeAll. cbn [Js.removeAll_from].
  rewrite fence_prefix. reflexivity.
Qed.

(** What is left has no fence, and starts with no more backticks than
    the text did. *)
Lemma removeAll_no_fence_aux (n : nat) (s : string) :
  String.length s <= n ->
  Js.includes (Js.removeAll "```" s) "```" = false
  /\ ticks (Js.removeAll "```" s) <= ticks s.
Proof.
  revert s. induction n as [| n IH]; intros s Hn.
  - destruct s; [| simpl in Hn; lia]. split; [reflexivity | simpl; lia].
  - destruct s as [| c s]; [split; [reflexivity | simpl; lia] |].
    destruct (3 <=? ticks (String c s))%nat eqn:E.
    + destruct (removeAll_fence _ E) as (s' & Es & -> & ->).
      assert (Hl : String.length s' <= n).
      { apply (f_equal String.length) in Es. simpl in Es, Hn. lia. }
      destruct (IH s' Hl) as [H1 H2]. split; [exact H1 | lia].
    + unfold Js.removeAll. cbn [Js.removeAll_from].
      rewrite fence_prefix, E.
      change (Js.removeAll_from "```" 0 s) with (Js.removeAll "```" s).
      simpl in Hn. destruct (IH s ltac:(lia)) as [H1 H2].
      rewrite includes_cons, fence_prefix, H1, orb_false_r.
      cbn [ticks] in *. destruct (Ascii.eqb c "`").
      * split; [| lia]. apply Nat.leb_gt. apply Nat.leb_gt in E. lia.
      * split; [reflexivity | lia].
Qed.

Lemma removeAll_no_fence (s : string) :
  Js.includes (Js.removeAll "```" s) "```" = false.
Proof. apply (removeAll_no_fence_aux (String.length s) s). lia. Qed.

Lemma includes_trimStart (s pat : string) :
  Js.includes (Js.trimStart s) pat = true -> Js.includes s pat = true.
Proof.
  induction s as [| c s IH]; [auto |].
  cbn [Js.trimStart]. destruct (Js.isSpace c); [| auto].
  intro H. rewrite includes_cons, (IH H). apply orb_true_r.
Qed.

Lemma trimEnd_cons (c : ascii) (s : string) :
  Js.trimEnd (String c s) = "" \/ Js.trimEnd (String c s) = String c (Js.trimEnd s).
Proof.
  cbn [Js.trimEnd]. destruct (Js.isSpace c && String.eqb (Js.trimEnd s) ""); auto.
Qed.

Lemma prefix_trimEnd (s pat : string) :
  String.prefix pat (Js.trimEnd s) = true -> String.prefix pat s = true.
Proof.
  revert pat. induction s as [| c s IH]; intro pat; [auto |].
  destruct (trimEnd_cons c s) as [-> | ->].
  - intro H. rewrite (prefix_of_empty pat H). reflexivity.
  - destruct pat as [| a pat]; [reflexivity |].
    rewrite !prefix_cons. destruct (Ascii.eqb c a); [apply IH | auto].
Qed.

Lemma includes_trimEnd (s pat : string) :
  Js.includes (Js.trimEnd s) pat = true -> Js.includes s pat = true.
Proof.
  induction s as [| c s IH]; [auto |].
  destruct (trimEnd_cons c s) as [-> | ->].
  - cbn [Js.includes]. rewrite orb_false_r. intro H.
    rewrite (prefix_of_empty pat H). reflexivity.
  - rewrite !includes_cons. intro H. apply orb_true_iff in H. apply orb_true_iff.
    destruct H as [H | H]; [left | right; auto].
    destruct pat as [| a pat]; [reflexivity |].
    rewrite prefix_cons in H |- *.
    destruct (Ascii.eqb c a); [apply prefix_trimEnd; exact H | exact H].
Qed.

Lemma includes_trim (s pat : string) :
  Js.includes (Js.trim s) pat = true -> Js.includes s pat = true.
Proof.
  unfold Js.trim. intro H. apply includes_trimStart, includes_trimEnd, H.
Qed.

Lemma cleanedText_no_fence (text : string) :
  Js.includes (cleanedText text) "```" = false.
Proof.
  unfold cleanedText.
  destruct (Js.includes (Js.trim _) "```") eqn:E; [| reflexivity].
  apply includes_trim in E. rewrite removeAll_no_fence in E. discriminate E.
Qed.

Lemma removeAll_from_drop (pat q rest : string) :
  Js.removeAll_from pat (String.length q) (q ++ rest) = Js.removeAll_from pat 0 rest.
Proof. induction q as [| c q IH]; [reflexivity | exact IH]. Qed.

(** An occurrence at the start is removed. *)
Lemma removeAll_prefix (a : ascii) (p rest : string) :
  Js.removeAll (String a p) (String a p ++ rest) = Js.removeAll (String a p) rest.
Proof.
  unfold Js.removeAll. cbn [String.append Js.removeAll_from].
  change (String a (p ++ rest)) with (String a p ++ rest)%string.
  rewrite prefix_append.
  replace (String.length (String a p) - 1) with (String.length p)
    by (cbn [String.length]; lia).
  apply removeAll_from_drop.
Qed.

(** Text without the first character of the pattern is left as it is. *)
Lemma removeAll_untouched (a : ascii) (p doc rest : string) :
  Js.includes doc (String a "") = false ->
  Js.removeAll (String a p) (doc ++ rest) = (doc ++ Js.removeAll (String a p) rest)%string.
Proof.
  unfold Js.removeAll. induction doc as [| c doc IH]; [reflexivity |].
  rewrite includes_cons, prefix_cons, prefix_empty.
  destruct (Ascii.eqb c a) eqn:E; [discriminate |]. cbn [orb]. intro H.
  cbn [String.append Js.removeAll_from]. rewrite prefix_cons, E, (IH H). reflexivity.
Qed.

(** A document inside a [json] fence, and one without fences. *)
Lemma cleanedText_fenced (doc : string) :
  Js.includes doc "`" = false ->
  cleanedText ("```json" ++ doc ++ "```") = Js.trim doc
  /\ cleanedText doc = Js.trim doc.
Proof.
  intro H. unfold cleanedText. split.
  - rewrite (removeAll_prefix "`" "``json").
    rewrite (removeAll_untouched "`" "``json" doc "```" H).
    change (Js.removeAll "```json" "```") with "```".
    rewrite (removeAll_untouched "`" "``" doc "```" H).
    change (Js.removeAll "```" "```") with "".
    rewrite append_empty. reflexivity.
  - rewrite <- (append_empty doc) at 1.
    rewrite (removeAll_untouched "`" "``json" doc "" H).
    change (Js.removeAll "```json" "") with "".
    rewrite (removeAll_untouched "`" "``" doc "" H).
    change (Js.removeAll "```" "") with "".
    rewrite append_empty. reflexivity.
Qed.

Lemma askModel_cleans (env : Env) (prompt : Prompt) :
  askModel env prompt
  = match generateContent env prompt with
    | Fails => ([CallGenerate prompt], Throw ProviderError)
    | Gives text =>
        ([CallGenerate prompt],
         match JSON_parse (runtime env) (cleanedText text) with
         | Some j => Return (Parsed j)
         | None => Throw SyntaxError
         end)
    end.
Proof.
  unfold askModel, attempt, bind, cleanedText.
  destruct (generateContent env prompt) as [| text]; [reflexivity |].
  destruct (JSON_parse (runtime env) _); reflexivity.
Qed.

(** X9. Whatever the model replies, the text [findProducts] hands to
    [JSON.parse] contains no code fence (three backticks in a row); what
    the parser makes of it is returned as it is, and a text it refuses is
    a SyntaxError. *)
Theorem parsed_text_has_no_fence (env : Env) (prompt : Prompt) (text : string) :
  generateContent env prompt = Gives text ->
  askModel env prompt
  = ([CallGenerate prompt],
     match JSON_parse (runtime env) (cleanedText text) with
     | Some j => Return (Parsed j)
     | None => Throw SyntaxError
     end)
  /\ Js.includes (cleanedText text) "```" = false.
Proof.
  intro H. rewrite askModel_cleans, H. split; [reflexivity | apply cleanedText_no_fence].
Qed.

Lemma parsed_text_has_no_fence_witness :
  askModel Sample.chatty (RankingPrompt "burger" [])
  = ([CallGenerate (RankingPrompt "burger" [])],
     match JSON_parse (runtime Sample.chatty)
             (cleanedText "```json I could not decide between these. ```") with
     | Some j => Return (Parsed j)
     | None => Throw SyntaxError
     end)
  /\ Js.includes (cleanedText "```json I could not decide between these. ```") "```"
     = false.
Proof.
  apply (parsed_text_has_no_fence Sample.chatty (RankingPrompt "burger" [])
           "```json I could not decide between these. ```").
  reflexivity.
Defined.

(** X10. A reply that is a document without backticks, alone or between
    an opening [json] fence and a closing fence, reaches [JSON.parse] as
    the document with the white space at its ends removed. *)
Theorem fenced_reply_is_unwrapped (env : Env) (prompt : Prompt) (doc : string) :
  Js.includes doc "`" = false ->
  generateContent env prompt = Gives ("```json" ++ doc ++ "```")%string
  \/ generateContent env prompt = Gives doc ->
  askModel env prompt
  = ([CallGenerate prompt],
     match JSON_parse (runtime env) (Js.trim doc) with
     | Some j => Return (Parsed j)
     | None => Throw SyntaxError
     end).
Proof.
  intros Hd H. rewrite askModel_cleans.
  destruct (cleanedText_fenced doc Hd) as [E1 E2].
  destruct H as [-> | ->]; [rewrite E1 | rewrite E2]; reflexivity.
Qed.

Lemma fenced_reply_is_unwrapped_witness :
  askModel Sample.fenced (RankingPrompt "burger" [])
  = ([CallGenerate (RankingPrompt "burger" [])], Return (Parsed (Js.Obj []))).
Proof.
  apply (fenced_reply_is_unwrapped Sample.fenced (RankingPrompt "burger" []) " {} ").
  - reflexivity.
  - left. reflexivity.
Defined.

(** ** The responses of the text search *)


(** X12. A text search that finds products while the model fails (the
    provider throws, or its reply does not parse) is answered 500 by the
    first iteration of the server and 200, with the deterministic ranking
    of the products found, by the iteration with fallbacks. *)
Theorem fallback_replaces_failure
    (env : Env) (query latitude longitude : Js.value)
    (s : NearbyShop.t) (shops : list NearbyShop.t)
    (p : Products.t) (products : list Products.t) :
  Js.truthy query = true -> Js.truthy latitude = true -> Js.truthy longitude = true ->
  hasQuery env query = true ->
  USE_LOCAL_RANKING env = false ->
  (forall prompt, aiFails env prompt) ->
  nearby_shops env latitude longitude = mkResp (Some (s :: shops)) None ->
  products_in env (map NearbyShop.id (s :: shops))
    (Some ("%" ++ ToString (runtime env) query ++ "%")%string)
  = mkResp (Some (p :: products)) None ->
  (exists t r, IndexJs.aiSearch env query latitude longitude = (t, Return r)
               /\ status r = 500)
  /\ (exists t, aiSearch env query latitude longitude
                = (t, Return (mkResponse 200
                                (SearchBody (Built (rankLocally (runtime env) query
                                                      latitude longitude (p :: products))))))).
Proof.
  intros Hq Hla Hlo Hh Hl Hf Hs Hp. split.
  - unfold IndexJs.aiSearch, V1.findProducts, bind, call.
    rewrite Hq, Hla, Hlo, Hs. cbn [negb orb error data]. rewrite Hp. cbn [error data].
    destruct (ask_fails env _ (Hf (RankingPrompt (ToString (runtime env) query)
                                     (V1.contextForAI (p :: products))))) as [e ->].
    destruct e; eexists _, _; split; reflexivity.
  - unfold aiSearch, findProducts, bind, call.
    rewrite Hq, Hla, Hlo, Hs, Hh. cbn [negb orb error data]. rewrite Hp. cbn [error data].
    rewrite (rank_after_failure env query latitude longitude (p :: products) Hl (Hf _)).
    eexists. reflexivity.
Qed.

Lemma fallback_replaces_failure_witness :
  (exists t r, IndexJs.aiSearch Sample.chatty (Js.Str "burger") (Js.Num 12.97) (Js.Num 77.59)
               = (t, Return r)
               /\ status r = 500)
  /\ (exists t, aiSearch Sample.chatty (Js.Str "burger") (Js.Num 12.97) (Js.Num 77.59)
                = (t, Return (mkResponse 200
                                (SearchBody (Built (rankLocally (runtime Sample.chatty)
                                   (Js.Str "burger") (Js.Num 12.97) (Js.Num 77.59)
                                   (Products.mk "Cheese Burger" (Js.Num 150) (Js.Num 4.5) 1
                                      (Some Sample.cornerCafe)
                                    :: [Products.mk "Veg Burger" (Js.Num 120) (Js.Num 4.2) 2
                                          (Some Sample.teaHouse)]))))))).
Proof.
  apply (fallback_replaces_failure Sample.chatty (Js.Str "burger") (Js.Num 12.97)
           (Js.Num 77.59) (NearbyShop.mk 1) [NearbyShop.mk 2]).
  - reflexivity.
  - reflexivity.
  - reflexivity.
  - reflexivity.
  - reflexivity.
  - intro prompt. reflexivity.
  - reflexivity.
  - reflexivity.
Defined.

(** ** The vision tier of the image search *)

Lemma resolveImage_by_vision (env : Env) (imageFile : File) (text : string) :
  geminiApiKey env = true ->
  generateContent env (VisionPrompt imageFile) = Gives text ->
  Js.trim text <> "" ->
  resolveImage env imageFile
  = ([CallGenerate (VisionPrompt imageFile)],
     Return (mkVars (Some (Js.trim text)) [])).
Proof.
  intros Hk Hg Ht.
  unfold resolveImage, run, visionTier. rewrite Hk, Hg.
  cbv beta iota zeta delta [pbind ptry plift attempt setFood getFood pret localTiers
                              fst snd app identifiedFood classifierPredictions negb
                              strTruthy].
  destruct (String.eqb_spec (Js.trim text) "") as [E | _]; [contradiction |].
  reflexivity.
Qed.

(** X13. When the vision model answers with text that is not blank, its
    answer, trimmed, is the search term and the detected label, whatever
    it says: the local models are not loaded, no prediction is reported,
    and the product search is made for that term. *)
Theorem vision_reply_is_the_search_term
    (env : Env) (imageFile : File) (text : string) (latitude longitude : Js.value) :
  geminiApiKey env = true ->
  generateContent env (VisionPrompt imageFile) = Gives text ->
  Js.trim text <> "" ->
  Js.truthy latitude = true -> Js.truthy longitude = true ->
  resolveImage env imageFile
  = ([CallGenerate (VisionPrompt imageFile)], Return (mkVars (Some (Js.trim text)) []))
  /\ forall t results,
       findProducts env (Js.Str (Js.trim text)) latitude longitude = (t, Return results) ->
       searchByImage env (Some imageFile) latitude longitude
       = (CallGenerate (VisionPrompt imageFile) :: t,
          Return (mkResponse 200 (ImageBody (Some (Js.trim text)) [] results))).
Proof.
  intros Hk Hg Ht Hla Hlo.
  pose proof (resolveImage_by_vision env imageFile text Hk Hg Ht) as Hr.
  split; [exact Hr |]. intros t results Hf.
  rewrite (searchByImage_after_resolution env imageFile latitude longitude _ _ Hla Hlo Hr).
  cbn [searchTerm identifiedFood]. rewrite Hf.
  unfold detectedLabel. cbn [identifiedFood strTruthy classifierPredictions].
  destruct (String.eqb_spec (Js.trim text) "") as [E | _]; [contradiction |].
  reflexivity.
Qed.

Lemma vision_reply_is_the_search_term_witness :
  resolveImage Sample.sighted Sample.image
  = ([CallGenerate (VisionPrompt Sample.image)], Return (mkVars (Some "Burger") []))
  /\ forall t results,
       findProducts Sample.sighted (Js.Str "Burger") (Js.Num 12.97) (Js.Num 77.59)
       = (t, Return results) ->
       searchByImage Sample.sighted (Some Sample.image) (Js.Num 12.97) (Js.Num 77.59)
       = (CallGenerate (VisionPrompt Sample.image) :: t,
          Return (mkResponse 200 (ImageBody (Some "Burger") [] results))).
Proof.
  apply (vision_reply_is_the_search_term Sample.sighted Sample.image " Burger "
           (Js.Num 12.97) (Js.Num 77.59)).
  - reflexivity.
  - reflexivity.
  - discriminate.
  - reflexivity.
  - reflexivity.
Defined.

(** What the local tiers leave, from variables that hold no term. *)
Lemma localTiers_from (env : Env) (imageFile : File) (v0 : Vars) :
  strTruthy (identifiedFood v0) = false ->
  exists t, localTiers env imageFile v0
            = (t,
               match ensureLocalClassifierLoaded env, classify env imageFile with
               | Gives _, Gives _ => localResult env imageFile
               | _, _ => v0
               end, Return tt).
Proof.
  intro H0.
  unfold localTiers, localResult, tierTerm.
  unfold pbind at 1. cbn [getFood]. rewrite H0. cbn [negb].
  unfold ptry, localBody.
  unfold pbind, plift, attempt, setPredictions, setFood, getFood, pret.
  destruct (ensureLocalClassifierLoaded env) as [| []]; cbn [fst snd];
    [rewrite app_nil_r; eauto |].
  destruct (classify env imageFile) as [| predictions]; cbn [fst snd];
    [rewrite app_nil_r; eauto |].
  cbn [identifiedFood classifierPredictions].
  pose proof (top_then_all predictions) as Htg.
  destruct (mapLabelToQuery_truthy (topLabel predictions)) as [Htop | Htop].
  - clear Htg. rewrite Htop. cbn [strTruthy negb].
    destruct (firstGuess_truthy (orEmpty predictions)) as [Hg | Hg].
    + rewrite Hg. cbn [strTruthy negb identifiedFood classifierPredictions].
      destruct (detect env imageFile) as [| detections]; cbn [fst snd]; [eauto |].
      destruct (firstDetected_truthy (orEmpty detections)) as [Hd | Hd].
      * rewrite Hd. cbn [strTruthy negb identifiedFood classifierPredictions].
        destruct predictions as [[| p ps] |];
          cbn [strTruthy negb identifiedFood classifierPredictions orEmpty rawLabel];
          eauto.
      * rewrite Hd. destruct (truthy_some _ Hd) as [term Et]. rewrite Et in *.
        cbn [identifiedFood classifierPredictions].
        destruct predictions as [[| p ps] |];
          cbn [identifiedFood classifierPredictions orEmpty]; rewrite ?Hd;
          cbn [negb]; eauto.
    + rewrite Hg. destruct (truthy_some _ Hg) as [term Et]. rewrite Et in *.
      cbn [identifiedFood classifierPredictions]. rewrite Hg. cbn [negb].
      destruct predictions as [[| p ps] |];
        cbn [identifiedFood classifierPredictions orEmpty]; rewrite ?Hg;
        cbn [negb]; eauto.
  - rewrite (Htg Htop). rewrite Htop.
    destruct (truthy_some _ Htop) as [term Et]. rewrite Et in *.
    cbn [negb identifiedFood classifierPredictions]. rewrite Htop. cbn [negb].
    destruct predictions as [[| p ps] |];
      cbn [identifiedFood classifierPredictions orEmpty]; rewrite ?Htop;
      cbn [negb]; eauto.
Qed.

(** X14. An answer of the vision model that is empty or white space only
    counts as no answer: the local tiers run, and the search term, the
    detected label and the predictions of the response are those the local
    tiers produce on their own. *)
Theorem blank_vision_reply_counts_as_none
    (env : Env) (imageFile : File) (text : string) :
  geminiApiKey env = true ->
  generateContent env (VisionPrompt imageFile) = Gives text ->
  Js.trim text = "" ->
  exists t v,
    resolveImage env imageFile = (CallGenerate (VisionPrompt imageFile) :: t, Return v)
    /\ searchTerm v = searchTerm (localResult env imageFile)
    /\ detectedLabel v = detectedLabel (localResult env imageFile)
    /\ classifierPredictions v = classifierPredictions (localResult env imageFile).
Proof.
  intros Hk Hg Ht.
  destruct (localTiers_from env imageFile (mkVars (Some "") []) eq_refl) as [t E].
  unfold resolveImage, run, visionTier. rewrite Hk, Hg.
  cbv beta iota zeta delta [pbind ptry plift attempt setFood pret fst snd app negb
                              classifierPredictions].
  rewrite Ht, E. eexists _, _. split; [reflexivity |].
  unfold localResult.
  destruct (ensureLocalClassifierLoaded env) as [| []]; [repeat split |].
  destruct (classify env imageFile); repeat split.
Qed.

Lemma blank_vision_reply_counts_as_none_witness :
  exists t v,
    resolveImage Sample.speechless Sample.image
    = (CallGenerate (VisionPrompt Sample.image) :: t, Return v)
    /\ searchTerm v = "Pizza"
    /\ detectedLabel v = Some "Pizza"
    /\ classifierPredictions v = [mkPrediction "pizza, pizza pie" 0.9].
Proof.
  apply (blank_vision_reply_counts_as_none Sample.speechless Sample.image "  ").
  - reflexivity.
  - reflexivity.
  - reflexivity.
Defined.

(** ** Requests that do without the generative model *)

Lemma quiet_pret {A} (a : A) : quiet (pret a).
Proof. intro v. reflexivity. Qed.

Lemma quiet_pbind {A B} (m : Proc A) (f : A -> Proc B) :
  quiet m -> (forall a, quiet (f a)) -> quiet (pbind m f).
Proof.
  intros Hm Hf v. unfold pbind. specialize (Hm v).
  destruct (m v) as [[t v'] [a | e]]; cbn [fst] in *; [| exact Hm].
  specialize (Hf a v'). destruct (f a v') as [[t' v''] r]; cbn [fst] in *.
  rewrite forallb_app, Hm, Hf. reflexivity.
Qed.

Lemma quiet_ptry {A} (m : Proc A) (h : Exn -> Proc A) :
  quiet m -> (forall e, quiet (h e)) -> quiet (ptry m h).
Proof.
  intros Hm Hh v. unfold ptry. specialize (Hm v).
  destruct (m v) as [[t v'] [a | e]]; cbn [fst] in *; [exact Hm |].
  specialize (Hh e v'). destruct (h e v') as [[t' v''] r]; cbn [fst] in *.
  rewrite forallb_app, Hm, Hh. reflexivity.
Qed.

Lemma quiet_attempt {A} (ev : Event) (e : Exn) (c : Call A) :
  callsModel ev = false -> quiet (plift (attempt ev e c)).
Proof. intros H v. destruct c; cbn; rewrite H; reflexivity. Qed.

Lemma quiet_getFood : quiet getFood.
Proof. intro v. reflexivity. Qed.

Lemma quiet_setFood (food : option string) : quiet (setFood food).
Proof. intro v. reflexivity. Qed.

Lemma quiet_setPredictions (ps : list Prediction) : quiet (setPredictions ps).
Proof. intro v. reflexivity. Qed.

Create HintDb quiet.
#[local] Hint Resolve quiet_pret quiet_getFood quiet_setFood quiet_setPredictions : quiet.

Ltac quiet_steps :=
  repeat first
    [ apply quiet_pbind; [| intro]
    | apply quiet_ptry; [| intro]
    | apply quiet_attempt; reflexivity
    | solve [auto with quiet]
    | match goal with
      | |- quiet (if ?c then _ else _) => destruct c
      | |- quiet (match ?x with _ => _ end) => destruct x
      end ].

Lemma localTiers_quiet (env : Env) (imageFile : File) : quiet (localTiers env imageFile).
Proof. unfold localTiers, localBody. quiet_steps. Qed.

Lemma visionTier_quiet (env : Env) (imageFile : File) :
  geminiApiKey env = false -> quiet (visionTier env imageFile).
Proof. intro H. unfold visionTier. rewrite H. apply quiet_pret. Qed.

Lemma resolveImage_quiet (env : Env) (imageFile : File) :
  geminiApiKey env = false ->
  forallb (fun ev => negb (callsModel ev)) (trace (resolveImage env imageFile)) = true.
Proof.
  intro H. unfold resolveImage, run, trace.
  pose proof (quiet_pbind _ _ (visionTier_quiet env imageFile H)
                (fun _ => localTiers_quiet env imageFile) (mkVars None [])) as Q.
  destruct (pbind _ _ _) as [[t v'] [a | e]]; exact Q.
Qed.

Lemma findProducts_quiet (env : Env) (query latitude longitude : Js.value) :
  USE_LOCAL_RANKING env = true ->
  forallb (fun ev => negb (callsModel ev))
    (trace (findProducts env query latitude longitude)) = true.
Proof.
  intro H. unfold findProducts, bind, call, trace.
  destruct (error (nearby_shops env latitude longitude)); [reflexivity |].
  destruct (data (nearby_shops env latitude longitude)) as [[| s shops] |];
    try reflexivity.
  match goal with
  | |- context [products_in env ?ids ?pat] =>
      destruct (error (products_in env ids pat)); [reflexivity |];
      destruct (data (products_in env ids pat)) as [[| p products] |];
      try reflexivity
  end.
  rewrite rank_local by exact H. reflexivity.
Qed.

Lemma bind_trace {A B} (m : Eff A) (f : A -> Eff B) (P : Event -> bool) :
  forallb P (trace m) = true ->
  (forall a, forallb P (trace (f a)) = true) ->
  forallb P (trace (bind m f)) = true.
Proof.
  unfold bind, trace. destruct m as [t [a | e]]; cbn [fst]; intros Hm Hf; [| exact Hm].
  specialize (Hf a). destruct (f a) as [t' r]; cbn [fst] in *.
  rewrite forallb_app, Hm, Hf. reflexivity.
Qed.

Lemma try_trace {A} (m : Eff A) (h : Exn -> Eff A) (P : Event -> bool) :
  forallb P (trace m) = true ->
  (forall e, forallb P (trace (h e)) = true) ->
  forallb P (trace (try_catch m h)) = true.
Proof.
  unfold try_catch, trace. destruct m as [t [a | e]]; cbn [fst]; intros Hm Hh; [exact Hm |].
  specialize (Hh e). destruct (h e) as [t' r]; cbn [fst] in *.
  rewrite forallb_app, Hm, Hh. reflexivity.
Qed.

Lemma no_model_call (t : list Event) (prompt : Prompt) :
  forallb (fun ev => negb (callsModel ev)) t = true -> ~ In (CallGenerate prompt) t.
Proof.
  intros H Hin. rewrite forallb_forall in H. specialize (H _ Hin). discriminate H.
Qed.

(** X15. With [USE_LOCAL_RANKING] set, a text search makes no call to
    the generative model; when the API key is missing as well, neither
    does an image search, whatever the local models do and also when the
    storage fails. *)
Theorem offline_requests_never_call_the_model
    (env : Env) (query latitude longitude : Js.value) (file : option File) :
  USE_LOCAL_RANKING env = true ->
  (forall prompt,
     ~ In (CallGenerate prompt) (trace (aiSearch env query latitude longitude)))
  /\ (geminiApiKey env = false ->
      forall prompt,
        ~ In (CallGenerate prompt) (trace (searchByImage env file latitude longitude))).
Proof.
  intro H. split.
  - intro prompt. apply no_model_call.
    unfold aiSearch. apply try_trace.
    + destruct (negb (Js.truthy query) || negb (Js.truthy latitude)
                || negb (Js.truthy longitude)); [reflexivity |].
      apply bind_trace; [apply findProducts_quiet; exact H | reflexivity].
    + intros []; reflexivity.
  - intros K prompt. apply no_model_call.
    unfold searchByImage. apply try_trace.
    + destruct file as [imageFile |]; [| reflexivity].
      destruct (negb (Js.truthy latitude) || negb (Js.truthy longitude)); [reflexivity |].
      apply bind_trace; [apply resolveImage_quiet; exact K |].
      intro v. apply bind_trace; [apply findProducts_quiet; exact H | reflexivity].
    + intro e. apply try_trace; [| reflexivity].
      apply bind_trace; [apply findProducts_quiet; exact H | reflexivity].
Qed.

Lemma offline_requests_never_call_the_model_witness :
  (forall prompt,
     ~ In (CallGenerate prompt)
         (trace (aiSearch Sample.offline (Js.Str "burger") (Js.Num 12.97) (Js.Num 77.59))))
  /\ (geminiApiKey Sample.offline = false ->
      forall prompt,
        ~ In (CallGenerate prompt)
            (trace (searchByImage Sample.offline (Some Sample.image)
                      (Js.Num 12.97) (Js.Num 77.59)))).
Proof.
  apply (offline_requests_never_call_the_model Sample.offline (Js.Str "burger")
           (Js.Num 12.97) (Js.Num 77.59) (Some Sample.image)).
  reflexivity.
Defined.

(** ** The endpoints behind [protectRoute] *)

Lemma split_head (sep : ascii) (s : string) :
  exists ts, JsMore.split sep s = Js.firstToken sep s :: ts.
Proof.
  induction s as [| c s [ts IH]]; simpl; [eauto |].
  destruct (Ascii.eqb c sep); [eauto |]. rewrite IH. eauto.
Qed.

(** The second field of a header that starts with "Bearer ". *)
Lemma split_bearer (rest : string) :
  JsMore.at_ (JsMore.split " " ("Bearer " ++ rest)) 1 = Js.Str (Js.firstToken " " rest).
Proof.
  destruct (split_head " " rest) as [ts E].
  unfold JsMore.at_. cbn [String.append JsMore.split Ascii.eqb Bool.eqb].
  rewrite E. reflexivity.
Qed.

Lemma firstToken_whole (token : string) :
  Js.includes token " " = false -> Js.firstToken " " token = token.
Proof.
  induction token as [| c token IH]; [reflexivity |].
  rewrite includes_cons, prefix_cons, prefix_empty. cbn [Js.firstToken].
  destruct (Ascii.eqb c " "); cbn [orb]; [discriminate |]. intro H.
  rewrite (IH H). reflexivity.
Qed.

Section ApiFacts.

Variable backend : Api.Backend.

Lemma protectRoute_bearer (req : Api.Request) (rest : string) :
  Api.authorization req = Some ("Bearer " ++ rest)%string ->
  Api.protectRoute backend req = checked backend (Js.Str (Js.firstToken " " rest)).
Proof.
  intro H. unfold Api.protectRoute, checked. rewrite H.
  change (String.eqb ("Bearer " ++ rest) "") with false.
  rewrite (prefix_append "Bearer " rest). cbn [orb negb].
  rewrite split_bearer. reflexivity.
Qed.

Lemma protectRoute_cases (req : Api.Request) :
  Api.protectRoute backend req = malformed
  \/ exists rest, Api.authorization req = Some ("Bearer " ++ rest)%string
                  /\ Api.protectRoute backend req
                     = checked backend (Js.Str (Js.firstToken " " rest)).
Proof.
  destruct (Api.authorization req) as [h |] eqn:E.
  - destruct (String.prefix "Bearer " h) eqn:P.
    + destruct (prefix_split _ _ P) as [rest ->]. right. exists rest.
      split; [reflexivity | apply protectRoute_bearer; exact E].
    + left. unfold Api.protectRoute. rewrite E, P, orb_true_r. reflexivity.
  - left. unfold Api.protectRoute. rewrite E. reflexivity.
Qed.

(** X16. [protectRoute] answers 401 without calling the account service
    when the authorization header is absent or does not start with
    "Bearer ". Otherwise it calls the account service once, with the text
    between that prefix and the next space (the whole rest of the header
    when there is no space in it), and lets the request pass exactly when
    the service gives a user and no error; a call that throws is answered
    401 too. *)
Theorem protectRoute_reads_the_bearer_token (req : Api.Request) :
  (Api.authorization req = None -> Api.protectRoute backend req = malformed)
  /\ (forall h, Api.authorization req = Some h -> String.prefix "Bearer " h = false ->
                Api.protectRoute backend req = malformed)
  /\ (forall rest, Api.authorization req = Some ("Bearer " ++ rest)%string ->
                   Api.protectRoute backend req
                   = checked backend (Js.Str (Js.firstToken " " rest)))
  /\ (forall token, Js.includes token " " = false ->
                    Api.authorization req = Some ("Bearer " ++ token)%string ->
                    Api.protectRoute backend req = checked backend (Js.Str token)).
Proof.
  split; [| split; [| split]].
  - intro E. unfold Api.protectRoute. rewrite E. reflexivity.
  - intros h E P. unfold Api.protectRoute. rewrite E, P, orb_true_r. reflexivity.
  - intros rest E. apply protectRoute_bearer. exact E.
  - intros token Ht E. rewrite (protectRoute_bearer req token E).
    rewrite (firstToken_whole token Ht). reflexivity.
Qed.

Lemma protected_cases (handler : Api.User -> Api.Request -> list Api.Op * Api.Reply)
    (req : Api.Request) :
  (exists t reply, Api.protected backend handler req = (t, reply)
                   /\ Api.code reply = 401
                   /\ (t = [] \/ exists token, t = [Api.GetUser token]))
  \/ (exists u token,
        admitted backend req u
        /\ Api.protected backend handler req
           = (Api.GetUser token :: fst (handler u req), snd (handler u req))).
Proof.
  unfold Api.protected.
  destruct (protectRoute_cases req) as [-> | (rest & E & ->)].
  - left. eexists _, _. split; [reflexivity |]. split; [reflexivity | left; reflexivity].
  - unfold checked.
    destruct (Api.getUser backend _) as [| [[u |] [e |]]] eqn:G;
      try (left; eexists _, _; split; [reflexivity |];
           split; [reflexivity | right; eexists; reflexivity]).
    right. exists u, (Js.Str (Js.firstToken " " rest)). split.
    + exists rest. auto.
    + cbn [Api.authError Api.user].
      destruct (handler u req) as [t' reply]. reflexivity.
Qed.

(** What a handler behind [protectRoute] does, it does for a user. *)
Lemma guarded_ops
    (handler : Api.User -> Api.Request -> list Api.Op * Api.Reply)
    (req : Api.Request) (op : Api.Op) :
  In op (fst (Api.protected backend handler req)) ->
  (exists token, op = Api.GetUser token)
  \/ (exists u, admitted backend req u /\ In op (fst (handler u req))).
Proof.
  destruct (protected_cases handler req)
    as [(t & reply & -> & _ & [-> | [token ->]]) | (u & token & Hu & ->)]; cbn [fst].
  - intros [].
  - intros [<- | []]. left. eauto.
  - intros [<- | H]; [left; eauto | right; eauto].
Qed.

(** X17. Whatever [POST /shops], [POST /products], [POST /market-price]
    and [POST /sales] do besides asking the account service, they do for a
    request whose bearer token the account service resolved to a user: no
    row is inserted and no sale recorded without one. *)
Theorem writes_require_a_user (req : Api.Request) (op : Api.Op) :
  In op (fst (Api.postShops backend req))
  \/ In op (fst (Api.postProducts backend req))
  \/ In op (fst (Api.postMarketPrice backend req))
  \/ In op (fst (Api.postSales backend req)) ->
  (exists token, op = Api.GetUser token) \/ (exists u, admitted backend req u).
Proof.
  intros [H | [H | [H | H]]]; apply guarded_ops in H;
    destruct H as [H | (u & Hu & _)]; eauto.
Qed.

(** X18. A shop row inserted by [POST /shops] has for owner the user the
    bearer token resolved to, whatever the body says of [owner_id], and a
    name, a latitude and a longitude that are truthy. *)
Theorem shop_owner_is_the_authenticated_user (req : Api.Request) (row : Api.ShopRow) :
  In (Api.InsertShop row) (fst (Api.postShops backend req)) ->
  exists u,
    admitted backend req u
    /\ Api.owner_id row = Api.id u
    /\ Api.shop_name row = Api.body req "name"
    /\ Js.truthy (Api.shop_name row) = true
    /\ Js.truthy (Api.shop_latitude row) = true
    /\ Js.truthy (Api.shop_longitude row) = true.
Proof.
  intro H. apply guarded_ops in H.
  destruct H as [[token H] | (u & Hu & H)]; [discriminate H |].
  exists u. split; [exact Hu |].
  unfold Api.createShop in H.
  destruct (Js.truthy (Api.body req "name")) eqn:En;
    destruct (Js.truthy (Api.body req "latitude")) eqn:Ela;
    destruct (Js.truthy (Api.body req "longitude")) eqn:Elo;
    cbn [negb orb fst] in H; try contradiction.
  destruct (error (Api.insertShop backend _)); cbn [fst] in H;
    destruct H as [H | []]; injection H as <-; cbn; auto.
Qed.

(** X19. A row inserted by [POST /market-price] carries the product name
    and the price of the body as they are, and both are truthy. Its source
    is the source of the body, whatever that is, [null] included; only
    when the body has no source is it "Internal". *)
Theorem market_price_rows_are_complete (req : Api.Request) (row : Api.PriceEntry) :
  In (Api.InsertMarketPrice row) (fst (Api.postMarketPrice backend req)) ->
  Api.entry_product_name row = Api.body req "product_name"
  /\ Api.entry_price row = Api.body req "price"
  /\ Js.truthy (Api.entry_product_name row) = true
  /\ Js.truthy (Api.entry_price row) = true
  /\ (Api.body req "source" = Js.Undefined -> Api.source row = Js.Str "Internal")
  /\ (Api.body req "source" <> Js.Undefined -> Api.source row = Api.body req "source").
Proof.
  intro H. apply guarded_ops in H.
  destruct H as [[token H] | (u & Hu & H)]; [discriminate H |].
  unfold Api.addMarketPrice in H.
  destruct (Js.truthy (Api.body req "product_name")) eqn:En;
    destruct (Js.truthy (Api.body req "price")) eqn:Ep;
    cbn [negb orb fst] in H; try contradiction.
  destruct (error (Api.insertMarketPrice backend _)); cbn [fst] in H;
    destruct H as [H | []]; injection H as <-; cbn [Api.entry_product_name
      Api.entry_price Api.source];
    (split; [reflexivity |]; split; [reflexivity |]; split; [exact En |];
     split; [exact Ep |]; split;
     [ intro E; rewrite E; reflexivity
     | intro E; destruct (Api.body req "source"); try reflexivity; contradiction ]).
Qed.

Lemma recordEach_completed (shop_id : Js.value) (items : list Js.value) (n : nat)
    (t : list Api.Op) :
  Api.recordEach backend shop_id n items = (t, true) ->
  t = map (saleOf shop_id) items.
Proof.
  revert n t. induction items as [| item items IH]; intros n t; cbn [Api.recordEach].
  - intro H. injection H as <-. reflexivity.
  - destruct (JsMore.get item "product_id") as [product_id |] eqn:Ep; [| discriminate].
    destruct (JsMore.get item "quantity") as [quantity |] eqn:Eq; [| discriminate].
    destruct (Api.record_sale backend n shop_id product_id quantity); [discriminate |].
    destruct (Api.recordEach backend shop_id (S n) items) as [t' c] eqn:E.
    intro H. injection H as <- ->. cbn [map]. unfold saleOf at 1. rewrite Ep, Eq.
    f_equal. apply (IH (S n)). exact E.
Qed.

Lemma recordEach_stopped (shop_id : Js.value) (items : list Js.value) (n : nat)
    (t : list Api.Op) :
  Api.recordEach backend shop_id n items = (t, false) ->
  exists recorded failed rest,
    items = recorded ++ failed :: rest
    /\ ((Js.nullish failed = true /\ t = map (saleOf shop_id) recorded)
        \/ (Js.nullish failed = false
            /\ t = map (saleOf shop_id) recorded ++ [saleOf shop_id failed])).
Proof.
  revert n t. induction items as [| item items IH]; intros n t; cbn [Api.recordEach].
  - discriminate.
  - destruct (Js.nullish item) eqn:En.
    + assert (Ep : JsMore.get item "product_id" = None)
        by (destruct item; try discriminate En; reflexivity).
      rewrite Ep. intro H. injection H as <-.
      exists [], item, items. split; [reflexivity | left; split; [exact En | reflexivity]].
    + destruct (JsMore.get item "product_id") as [product_id |] eqn:Ep;
        [| destruct item; discriminate].
      destruct (JsMore.get item "quantity") as [quantity |] eqn:Eq;
        [| destruct item; discriminate].
      assert (Es : saleOf shop_id item = Api.RecordSale shop_id product_id quantity)
        by (unfold saleOf; rewrite Ep, Eq; reflexivity).
      destruct (Api.record_sale backend n shop_id product_id quantity).
      * intro H. injection H as <-. exists [], item, items.
        split; [reflexivity | right; split; [exact En |]]. rewrite Es. reflexivity.
      * destruct (Api.recordEach backend shop_id (S n) items) as [t' c] eqn:E.
        intro H. injection H as <- ->.
        destruct (IH (S n) t' E) as (recorded & failed & rest & -> & Hc).
        exists (item :: recorded), failed, rest. split; [reflexivity |].
        cbn [map app]. rewrite Es.
        destruct Hc as [[Hn ->] | [Hn ->]]; [left | right]; split; auto.
Qed.

(** X20. The handler of [POST /sales] ends in one of three ways: 400
    without any call; 201 after recording every item, once each and in
    order; or 500 after recording the items before the first one that
    fails (its call included when it is the stored procedure that reports
    the error, not when the item is [null]): the sales recorded before
    the failure stay recorded, and no later item is tried. *)
Theorem sales_are_recorded_until_one_fails (u : Api.User) (req : Api.Request) :
  let shop_id := Api.body req "shop_id" in
  let t := fst (Api.recordSales backend u req) in
  let reply := snd (Api.recordSales backend u req) in
  Api.code reply = 400 /\ t = []
  \/ (exists items,
        Api.body req "items" = Js.Arr items
        /\ Api.code reply = 201
        /\ t = map (saleOf shop_id) items)
  \/ (exists recorded failed rest,
        Api.body req "items" = Js.Arr (recorded ++ failed :: rest)
        /\ Api.code reply = 500
        /\ ((Js.nullish failed = true /\ t = map (saleOf shop_id) recorded)
            \/ (Js.nullish failed = false
                /\ t = map (saleOf shop_id) recorded ++ [saleOf shop_id failed]))).
Proof.
  cbn zeta. unfold Api.recordSales.
  destruct (negb (Js.truthy (Api.body req "shop_id"))
            || negb (Js.truthy (Api.body req "items"))); [left; auto |].
  destruct (Api.body req "items") as [| | b | f | s | [| item items] | fields];
    try (left; split; reflexivity).
  destruct (Api.recordEach backend (Api.body req "shop_id") 0 (item :: items))
    as [t [|]] eqn:E; cbn [fst snd].
  - right; left. exists (item :: items).
    split; [reflexivity |]. split; [reflexivity |].
    apply (recordEach_completed _ _ _ _ E).
  - right; right.
    destruct (recordEach_stopped _ _ _ _ E) as (recorded & failed & rest & -> & Hc).
    exists recorded, failed, rest. auto.
Qed.

End ApiFacts.

Lemma writes_require_a_user_witness :
  (exists token,
     Api.InsertShop
       (Api.mkShopRow (Js.Str "Corner Cafe") Js.Undefined (Js.Str "user-1")
          (Js.Num 12.97) (Js.Num 77.59) Js.Null Js.Null)
     = Api.GetUser token)
  \/ (exists u, admitted Sample.backend Sample.newShop u).
Proof.
  apply (writes_require_a_user Sample.backend Sample.newShop).
  left. right. left. reflexivity.
Defined.

Lemma shop_owner_is_the_authenticated_user_witness :
  exists u,
    admitted Sample.backend Sample.newShop u
    /\ Js.Str "user-1" = Api.id u
    /\ Js.Str "Corner Cafe" = Api.body Sample.newShop "name"
    /\ Js.truthy (Js.Str "Corner Cafe") = true
    /\ Js.truthy (Js.Num 12.97) = true
    /\ Js.truthy (Js.Num 77.59) = true.
Proof.
  apply (shop_owner_is_the_authenticated_user Sample.backend Sample.newShop
           (Api.mkShopRow (Js.Str "Corner Cafe") Js.Undefined (Js.Str "user-1")
              (Js.Num 12.97) (Js.Num 77.59) Js.Null Js.Null)).
  right. left. reflexivity.
Defined.

Lemma market_price_rows_are_complete_witness :
  Js.Str "Burger" = Api.body Sample.newPrice "product_name"
  /\ Js.Num 150 = Api.body Sample.newPrice "price"
  /\ Js.truthy (Js.Str "Burger") = true
  /\ Js.truthy (Js.Num 150) = true
  /\ (Api.body Sample.newPrice "source" = Js.Undefined ->
      Js.Str "Internal" = Js.Str "Internal")
  /\ (Api.body Sample.newPrice "source" <> Js.Undefined ->
      Js.Str "Internal" = Api.body Sample.newPrice "source").
Proof.
  apply (market_price_rows_are_complete Sample.backend Sample.newPrice
           (Api.mkPriceEntry (Js.Str "Burger") (Js.Num 150) (Js.Str "Internal"))).
  right. left. reflexivity.
Defined.

(** A price given as the text "0" is truthy and a source given as [null]
    is no missing source: the row is inserted with both; the number 0 as
    price is refused before any insert. *)
Example market_price_samples :
  fst (Api.postMarketPrice Sample.backend
         (Sample.request [("product_name", Js.Str "Burger"); ("price", Js.Str "0");
                          ("source", Js.Null)]))
  = [Api.GetUser (Js.Str "secret");
     Api.InsertMarketPrice (Api.mkPriceEntry (Js.Str "Burger") (Js.Str "0") Js.Null)]
  /\ Api.postMarketPrice Sample.backend
       (Sample.request [("product_name", Js.Str "Burger"); ("price", Js.Num 0)])
     = ([Api.GetUser (Js.Str "secret")],
        Api.mkReply 400 (Api.errorJson "product_name and price are required.")).
Proof. vm_compute. split; reflexivity. Qed.

(** A sale of two items of which the second is refused: the first stays
    recorded, the third is not tried. *)
Example sale_stopped_midway :
  let refusing :=
    Api.mkBackend (Api.getUser Sample.backend) (Api.insertShop Sample.backend)
      (Api.insertProduct Sample.backend) (Api.insertMarketPrice Sample.backend)
      (fun n _ _ _ => if (n =? 1)%nat then Some "out of stock" else None) in
  let item := fun id => Js.Obj [("product_id", Js.Num id); ("quantity", Js.Num 1)] in
  Api.postSales refusing
    (Sample.request [("shop_id", Js.Num 1);
                     ("items", Js.Arr [item 7%float; item 8%float; item 9%float])])
  = ([Api.GetUser (Js.Str "secret");
      Api.RecordSale (Js.Num 1) (Js.Num 7) (Js.Num 1);
      Api.RecordSale (Js.Num 1) (Js.Num 8) (Js.Num 1)],
     Api.mkReply 500
       (Api.errorJson "An internal error occurred while recording the sale.")).
Proof. vm_compute. reflexivity. Qed.

(** ** The local models are loaded once *)

Section LoaderFacts.

Variables Package Model : Type.

Ltac run_loader tools :=
  unfold Loader.ensureLocalClassifierLoaded, Loader.andThen, Loader.unlessSet;
  cbn [Loader.tf Loader.mobilenet Loader.cocoSsd Loader.loadedMobileNetModel
         Loader.loadedCocoModel];
  repeat match goal with
         | |- context [Loader.require tools ?p] =>
             destruct (Loader.require tools p);
             cbn [Loader.tf Loader.mobilenet Loader.cocoSsd Loader.loadedMobileNetModel
                    Loader.loadedCocoModel]
         | |- context [Loader.mobilenet_load tools ?p] =>
             destruct (Loader.mobilenet_load tools p);
             cbn [Loader.tf Loader.mobilenet Loader.cocoSsd Loader.loadedMobileNetModel
                    Loader.loadedCocoModel]
         | |- context [Loader.cocoSsd_load tools ?p] =>
             destruct (Loader.cocoSsd_load tools p);
             cbn [Loader.tf Loader.mobilenet Loader.cocoSsd Loader.loadedMobileNetModel
                    Loader.loadedCocoModel]
         end.


End LoaderFacts.

(** A first call that loads everything but the detector, which fails,
    and a second call that loads the detector only. *)
Example loading_resumes :
  let failing := Loader.mkTools (fun p => Gives p) (fun _ => Gives "mobilenet v2")
                   (fun _ : string => @Fails string) in
  let working := Loader.mkTools (fun p => Gives p) (fun _ => Gives "never loaded")
                   (fun _ : string => Gives "coco-ssd") in
  let '(ops, g, _) :=
    Loader.ensureLocalClassifierLoaded failing
      (Loader.mkGlobals None None None None None) in
  ops = [Loader.Require "@tensorflow/tfjs-node";
         Loader.Require "@tensorflow-models/mobilenet";
         Loader.Require "@tensorflow-models/coco-ssd";
         Loader.LoadMobileNet; Loader.LoadCoco]
  /\ Loader.ensureLocalClassifierLoaded working g
     = ([Loader.LoadCoco],
        Loader.mkGlobals (Some "@tensorflow/tfjs-node")
          (Some "@tensorflow-models/mobilenet") (Some "@tensorflow-models/coco-ssd")
          (Some "mobilenet v2") (Some "coco-ssd"),
        Return ("mobilenet v2", "coco-ssd")).
Proof. vm_compute. split; reflexivity. Qed.

(** ** The trend handler answers every request *)

Section TrendFacts.

Variable env : Env.
Variable parseFloat : string -> float.
Variable random : nat -> float.

Lemma price_of_inherited (x : float) (productName : string) :
  inheritedName productName = true ->
  ExternalPrice.getOrSimulateExternalPrice (runtime env) parseFloat x productName = None.
Proof.
  unfold inheritedName, ExternalPrice.getOrSimulateExternalPrice.
  destruct (ExternalPrice.basePrices _); [discriminate | reflexivity | discriminate].
Qed.

Lemma price_of_other (x : float) (productName : string) :
  inheritedName productName = false ->
  exists p,
    ExternalPrice.getOrSimulateExternalPrice (runtime env) parseFloat x productName = Some p.
Proof.
  unfold inheritedName, ExternalPrice.getOrSimulateExternalPrice.
  destruct (ExternalPrice.basePrices _); [eauto | discriminate | eauto].
Qed.

Lemma analysis_of_inherited (productName : string) :
  inheritedName productName = true ->
  exists t, analysis env parseFloat random productName = (t, inr OtherError).
Proof.
  intro H. unfold analysis.
  destruct (error (market_price env 0 productName)); [eauto |].
  destruct (Trend.analyze _) as [internalTrend internalPrice].
  rewrite (price_of_inherited _ _ H). eauto.
Qed.

(** The try block sends nothing but what the parser made of the model's
    reply. *)
Lemma analysis_sends (productName : string) (t : list Event) (r : Response) :
  analysis env parseFloat random productName = (t, inl r) ->
  exists j, r = mkResponse 200 (ParsedBody j).
Proof.
  unfold analysis.
  destruct (error (market_price env 0 productName)); [discriminate |].
  destruct (Trend.analyze _) as [tr pr].
  destruct (ExternalPrice.getOrSimulateExternalPrice _ _ _ _); [| discriminate].
  destruct (generateContent env _); [discriminate |].
  destruct (JSON_parse _ _); [| discriminate].
  intro H. injection H as _ <-. eauto.
Qed.

Lemma fallback_of_other (productName : string) (c : Caught) :
  inheritedName productName = false ->
  exists externalPrice,
    ExternalPrice.getOrSimulateExternalPrice (runtime env) parseFloat
      (random 1) productName = Some externalPrice
    /\ fallback env parseFloat random productName c
       = ([CallMarketPrice productName; CallExternalPrice productName],
          ruleVerdict env productName externalPrice).
Proof.
  intro E. destruct (price_of_other (random 1) productName E) as [p Hp].
  exists p. split; [exact Hp |].
  unfold fallback, ruleVerdict. rewrite Hp.
  destruct (Trend.analyze _) as [internalTrend internalPrice]. reflexivity.
Qed.

Lemma fallback_of_inherited (productName : string) :
  inheritedName productName = true ->
  fallback env parseFloat random productName OtherError
  = ([CallMarketPrice productName; CallExternalPrice productName],
     mkResponse 500 (ErrorBody "An internal error occurred during trend analysis.")).
Proof.
  intro E. unfold fallback. rewrite (price_of_inherited _ _ E).
  destruct (Trend.analyze _) as [internalTrend internalPrice]. reflexivity.
Qed.

(** X22. The trend handler answers 200 to every request, with what the
    parser made of the model's reply or else with the rule-based verdict
    on the rows of its second read of the table, whatever the storage and
    the model do: an error of either is never reported. The exception are
    the product names that, in lower case, are [constructor] or
    [__proto__]: they are answered 500 "An internal error occurred during
    trend analysis.". No request is answered that the AI returned invalid
    JSON. *)
Theorem trend_request_is_answered (productName : string) :
  let response := snd (marketTrend env parseFloat random productName) in
  (inheritedName productName = true ->
   response = mkResponse 500
                (ErrorBody "An internal error occurred during trend analysis."))
  /\ (inheritedName productName = false ->
      (exists j, response = mkResponse 200 (ParsedBody j))
      \/ (exists externalPrice,
            ExternalPrice.getOrSimulateExternalPrice (runtime env) parseFloat
              (random 1) productName = Some externalPrice
            /\ response = ruleVerdict env productName externalPrice))
  /\ body response <> ErrorBody "The AI returned a response that was not valid JSON.".
Proof.
  cbn zeta. unfold marketTrend.
  destruct (inheritedName productName) eqn:E.
  - destruct (analysis_of_inherited productName E) as [t ->].
    rewrite (fallback_of_inherited productName E). cbn [snd].
    split; [reflexivity |]. split; discriminate.
  - destruct (analysis env parseFloat random productName) as [t [r | c]] eqn:A.
    + destruct (analysis_sends _ _ _ A) as [j ->]. cbn [snd].
      split; [discriminate |]. split; [eauto | discriminate].
    + destruct (fallback_of_other productName c E) as (p & Hp & ->). cbn [snd].
      split; [discriminate |]. split; [right; eauto | discriminate].
Qed.

(** The try block is that of the first iteration. *)
Lemma analysis_unchanged (productName : string) :
  IndexJs.analysis env parseFloat random productName
  = analysis env parseFloat random productName.
Proof. reflexivity. Qed.

(** X23. Where the first iteration of the trend handler answers 200, the
    iteration with the rule-based fallback gives the same answer after the
    same calls. Where the first iteration answers 500, it reads the table
    and the price again and answers 200 with the rule-based verdict,
    unless the product name in lower case is [constructor] or
    [__proto__]. *)
Theorem trend_fallback_keeps_the_answers (productName : string)
    (t : list Event) (response : Response) :
  IndexJs.marketTrend env parseFloat random productName = (t, response) ->
  (status response = 200 ->
   marketTrend env parseFloat random productName = (t, response))
  /\ (status response = 500 -> inheritedName productName = false ->
      exists externalPrice,
        marketTrend env parseFloat random productName
        = (t ++ [CallMarketPrice productName; CallExternalPrice productName],
           ruleVerdict env productName externalPrice)).
Proof.
  unfold IndexJs.marketTrend, marketTrend. rewrite analysis_unchanged.
  destruct (analysis env parseFloat random productName) as [t0 [r | c]] eqn:A.
  - intro H. injection H as <- <-. split; [reflexivity |].
    destruct (analysis_sends _ _ _ A) as [j ->]. discriminate.
  - intro H. split.
    + destruct c; injection H as <- <-; discriminate.
    + intros _ E. destruct (fallback_of_other productName c E) as (p & _ & ->).
      exists p. destruct c; injection H as <- <-; reflexivity.
Qed.

End TrendFacts.

Lemma trend_fallback_keeps_the_answers_witness :
  let first :=
    IndexJs.marketTrend Sample.analyst Sample.stringToNumber (fun _ => 0.5%float)
      "Burger" in
  (status (snd first) = 200 ->
   marketTrend Sample.analyst Sample.stringToNumber (fun _ => 0.5%float) "Burger"
   = (fst first, snd first))
  /\ (status (snd first) = 500 -> inheritedName "Burger" = false ->
      exists externalPrice,
        marketTrend Sample.analyst Sample.stringToNumber (fun _ => 0.5%float) "Burger"
        = (fst first ++ [CallMarketPrice "Burger"; CallExternalPrice "Burger"],
           ruleVerdict Sample.analyst "Burger" externalPrice)).
Proof.
  apply (trend_fallback_keeps_the_answers Sample.analyst Sample.stringToNumber
           (fun _ => 0.5%float) "Burger").
  apply surjective_pairing.
Defined.

(** On the sample deployment: the model's answer for a burger, whose
    simulated price is the base price when the number drawn is one half;
    the rule-based verdict when the model is down; and the answer to a
    request for "Constructor". *)
Example trend_samples :
  marketTrend Sample.analyst Sample.stringToNumber (fun _ => 0.5%float) "Burger"
  = ([CallMarketPrice "Burger"; CallExternalPrice "Burger";
      CallGenerate (TrendPrompt "Burger" (Some 110%float) "Rising" 150)],
     mkResponse 200 (ParsedBody (Js.Obj [])))
  /\ snd (marketTrend Sample.offline Sample.stringToNumber (fun _ => 0.5%float) "Burger")
     = mkResponse 200
         (VerdictBody
            (Trend.mkVerdict "BUY" "Internal price trending up and below external market."
               (Some 110%float) 150))
  /\ marketTrend Sample.analyst Sample.stringToNumber (fun _ => 0.5%float) "Constructor"
     = ([CallMarketPrice "Constructor"; CallExternalPrice "Constructor";
         CallMarketPrice "Constructor"; CallExternalPrice "Constructor"],
        mkResponse 500 (ErrorBody "An internal error occurred during trend analysis.")).
Proof. vm_compute. repeat split; reflexivity. Qed.
